(** * nbviewer request handlers (nbviewer/handlers.py)

    A shallow embedding of the tornado request handlers of nbviewer: the
    route table [handlers], the [cached] decorator, [cache_and_finish],
    [finish_notebook] and the [get] method of every routed handler class.

    Conventions of the embedding.
    - Python strings (text and byte strings alike) are Rocq strings, one
      [ascii] per character or byte; the conversions between the two kinds
      (tornado's [utf8], [bytes.decode], [str.encode]) are fields of [Env].
    - A handler is a computation in a state-and-exception monad over the
      cache store, the response under construction and the list of the calls
      made to the collaborators (cache, provider clients, render pool,
      templates).
    - The collaborators reached through [self.settings] (HTTP client, GitHub
      client, worker pool with [render_notebook], jinja environment) and the
      Python library functions are fields of the record [Env]; nothing is
      assumed about them.  The clock is a parameter of the request.
    - What tornado does around a handler (route matching, unquoting of the
      matched groups, turning an exception into an error response) is
      embedded as [route], [serve] and [status_of_exception]. *)

From Stdlib Require Import QArith Qround Ascii String.
From stdpp Require Import base option list strings gmap fin_maps.

Set Warnings "-register-all".
Close Scope Q_scope.
Open Scope Z_scope.
Open Scope string_scope.

(** ** Python string operations used by the handlers *)

Definition slash : ascii := "/"%char.

(** [s.endswith(suffix)] *)
Fixpoint endswith (s suffix : string) : bool :=
  if String.eqb s suffix then true
  else match s with
       | EmptyString => false
       | String _ s' => endswith s' suffix
       end.

(** [s.rstrip('/')] *)
Fixpoint rstrip_slash (s : string) : string :=
  match s with
  | EmptyString => EmptyString
  | String c s' =>
      let r := rstrip_slash s' in
      if Ascii.eqb c slash && String.eqb r "" then "" else String c r
  end.

(** [s.split('/')] *)
Fixpoint split_slash (s : string) : list string :=
  match s with
  | EmptyString => [""]
  | String c s' =>
      if Ascii.eqb c slash then "" :: split_slash s'
      else match split_slash s' with
           | h :: t => String c h :: t
           | [] => [String c ""]
           end
  end.

(** [uri.partition('?')[0]]: tornado's [request.path]. *)
Fixpoint path_of_uri (uri : string) : string :=
  match uri with
  | EmptyString => EmptyString
  | String c s' => if Ascii.eqb c "?"%char then "" else String c (path_of_uri s')
  end.

(** Truthiness of a Python string: [if filename:]. *)
Definition truthy (s : string) : bool := negb (String.eqb s "").

(** Python's [int(x)] on a number: truncation towards zero. *)
Definition py_int (x : Q) : Z := Z.quot (Qnum x) (Z.pos (Qden x)).

(** ** JSON values, as [json.loads] returns them *)

Inductive json : Type :=
| JNull
| JBool (b : bool)
| JNum (literal : string)
| JStr (s : string)
| JList (l : list json)
| JDict (m : gmap string json).

(** ** Exceptions *)

(** What an HTTP client response carries in [response.error]: an
    [httpclient.HTTPError] with the upstream status code (599 when there was
    no HTTP response), or any other transport exception. *)
Inductive client_error : Type :=
| HTTPClientError (code : Z)
| TransportError (what : string).

Inductive pyexn : Type :=
| WebHTTPError (status_code : Z)        (* tornado.web.HTTPError *)
| Rethrown (e : client_error)           (* response.rethrow() *)
| KeyError (key : string)
| TypeError
| AttributeError
| ValueError
| UnicodeDecodeError
| IndexError
| RenderFailure (what : string).        (* any other exception of the pool *)

Record HTTPResponse : Type := mkHTTPResponse {
  error : option client_error;
  body : string
}.

(** [v[key]] on a JSON value: only a dict can be indexed by a string. *)
Definition getitem (v : json) (key : string) : pyexn + json :=
  match v with
  | JDict m => match m !! key with
               | Some x => inr x
               | None => inl (KeyError key)
               end
  | _ => inl TypeError
  end.

(** [len(v)] *)
Definition py_len (v : json) : pyexn + nat :=
  match v with
  | JDict m => inr (size m)
  | JList l => inr (length l)
  | JStr s => inr (String.length s)
  | _ => inl TypeError
  end.

(** [isinstance(v, list)] *)
Definition is_list (v : json) : bool :=
  match v with JList _ => true | _ => false end.

(** ** Regular expressions of the route table

    The fragment of Python's [re] that the patterns of [handlers] use:
    literals, character classes, greedy repetition of a class, [?],
    alternation and capturing groups.  Matching is the backtracking search of
    [re.match], written in continuation-passing style; a group captures the
    text consumed by its body. *)

Inductive cclass : Type :=
| Dot                 (* "."  any character but a line feed *)
| Word                (* "[\w\-]"  letters, digits, underscore, hyphen *)
| NotSlash            (* "[^\/]" *)
| Hex                 (* "[a-fA-F0-9]" *)
| Only (c : ascii).   (* "[s]" and "\." *)

Definition between (lo hi : N) (c : ascii) : bool :=
  (lo <=? N_of_ascii c)%N && (N_of_ascii c <=? hi)%N.

Definition is_digit (c : ascii) : bool := between 48 57 c.
Definition is_upper (c : ascii) : bool := between 65 90 c.
Definition is_lower (c : ascii) : bool := between 97 122 c.

Definition in_class (cl : cclass) (c : ascii) : bool :=
  match cl with
  | Dot => negb (Ascii.eqb c "010"%char)
  | Word => is_digit c || is_upper c || is_lower c
            || Ascii.eqb c "_"%char || Ascii.eqb c "-"%char
  | NotSlash => negb (Ascii.eqb c slash)
  | Hex => is_digit c || between 65 70 c || between 97 102 c
  | Only x => Ascii.eqb c x
  end.

Inductive regex : Type :=
| Lit (s : string)             (* literal text *)
| One (cl : cclass)            (* one character of cl *)
| Plus (cl : cclass)           (* cl+ *)
| Star (cl : cclass)           (* cl* *)
| Opt (cl : cclass)            (* cl? *)
| Alt (r1 r2 : regex)          (* r1|r2 *)
| Cap (r : regex)              (* (r) *)
| Cat (r1 r2 : regex).         (* r1 r2 *)

Definition text := list ascii.
Definition groups := list text.
Definition cont := text -> groups -> option groups.

(** Literal prefix. *)
Fixpoint strip_prefix (l s : text) : option text :=
  match l, s with
  | [], _ => Some s
  | a :: l', b :: s' => if Ascii.eqb a b then strip_prefix l' s' else None
  | _ :: _, [] => None
  end.

(** Greedy [cl*]: take as many characters as possible, give back one at a
    time while the continuation fails. *)
Fixpoint star_k (cl : cclass) (s : text) (g : groups) (k : cont) : option groups :=
  match s with
  | c :: s' =>
      if in_class cl c then
        match star_k cl s' g k with
        | Some r => Some r
        | None => k s g
        end
      else k s g
  | [] => k s g
  end.

Fixpoint rmatch (r : regex) (s : text) (g : groups) (k : cont) : option groups :=
  match r with
  | Lit l => match strip_prefix (list_ascii_of_string l) s with
             | Some rest => k rest g
             | None => None
             end
  | One cl => match s with
              | c :: s' => if in_class cl c then k s' g else None
              | [] => None
              end
  | Plus cl => match s with
               | c :: s' => if in_class cl c then star_k cl s' g k else None
               | [] => None
               end
  | Star cl => star_k cl s g k
  | Opt cl => match s with
              | c :: s' =>
                  if in_class cl c then
                    match k s' g with
                    | Some r => Some r
                    | None => k s g
                    end
                  else k s g
              | [] => k s g
              end
  | Alt r1 r2 => match rmatch r1 s g k with
                 | Some r => Some r
                 | None => rmatch r2 s g k
                 end
  | Cap r' => rmatch r' s g
                (fun rest g' => k rest (g' ++ [take (length s - length rest) s])%list)
  | Cat r1 r2 => rmatch r1 s g (fun rest g' => rmatch r2 rest g' k)
  end.

(** tornado's [URLSpec] appends [$] to a pattern and applies [re.match] to
    the request path.  A request path holds no line feed, so [$] is the end
    of the path. *)
Definition at_end : cont := fun rest g => match rest with [] => Some g | _ => None end.

Definition url_match (r : regex) (path : string) : option (list string) :=
  option_map (map string_of_list_ascii)
             (rmatch r (list_ascii_of_string path) [] at_end).

(** ** The route table [handlers] *)

Inductive handler_class : Type :=
| IndexHandler
| FAQHandler
| GitHubRedirectHandler
| RawGitHubURLHandler
| URLHandler
| AddSlashHandler
| GitHubUserHandler
| GitHubRepoHandler
| RemoveSlashHandler
| GitHubBlobHandler
| GitHubTreeHandler
| GistHandler
| GistRedirectHandler.

Infix "@@" := Cat (at level 60, right associativity).

Definition word_seg : regex := Cap (Plus Word).        (* "([\w\-]+)" *)
Definition seg : regex := Cap (Plus NotSlash).         (* "([^\/]+)" *)
Definition tail : regex := Cap (Star Dot).             (* a group around ".*" *)
Definition hex_seg : regex := Cap (Plus Hex).          (* "([a-fA-F0-9]+)" *)

Definition handlers : list (regex * handler_class) :=
  [ (Lit "/", IndexHandler);
    (Lit "/index" @@ One Dot @@ Lit "html", IndexHandler);
    (Lit "/faq", FAQHandler);
    (Lit "/url" @@ Opt (Only "s") @@ Lit "/github.com/" @@ seg @@ Lit "/" @@ seg
       @@ Lit "/" @@ Alt (Lit "tree") (Lit "blob") @@ Lit "/" @@ seg @@ Lit "/" @@ tail,
     GitHubRedirectHandler);
    (Lit "/url" @@ Opt (Only "s") @@ Lit "/raw" @@ Opt (Only ".") @@ Lit "github.com/"
       @@ seg @@ Lit "/" @@ seg @@ Lit "/" @@ tail,
     RawGitHubURLHandler);
    (Lit "/url" @@ Cap (Opt (Only "s")) @@ Lit "/" @@ tail, URLHandler);

    (Lit "/github/" @@ word_seg, AddSlashHandler);
    (Lit "/github/" @@ word_seg @@ Lit "/", GitHubUserHandler);
    (Lit "/github/" @@ word_seg @@ Lit "/" @@ word_seg, AddSlashHandler);
    (Lit "/github/" @@ word_seg @@ Lit "/" @@ word_seg @@ Lit "/", GitHubRepoHandler);
    (Lit "/github/" @@ word_seg @@ Lit "/" @@ seg @@ Lit "/blob/" @@ seg @@ Lit "/"
       @@ tail @@ Lit "/",
     RemoveSlashHandler);
    (Lit "/github/" @@ word_seg @@ Lit "/" @@ seg @@ Lit "/blob/" @@ seg @@ Lit "/" @@ tail,
     GitHubBlobHandler);
    (Lit "/github/" @@ word_seg @@ Lit "/" @@ seg @@ Lit "/tree/" @@ seg, AddSlashHandler);
    (Lit "/github/" @@ word_seg @@ Lit "/" @@ seg @@ Lit "/tree/" @@ seg @@ Lit "/" @@ tail,
     GitHubTreeHandler);

    (Lit "/gist/" @@ hex_seg, GistHandler);
    (Lit "/gist/" @@ hex_seg @@ Lit "/" @@ tail, GistHandler);
    (Lit "/" @@ hex_seg, GistRedirectHandler);
    (Lit "/" @@ hex_seg @@ Lit "/" @@ tail, GistRedirectHandler) ].

(** tornado tries the specs in order; the first pattern that matches the
    request path selects the handler and supplies its arguments. *)
Fixpoint find_handler (specs : list (regex * handler_class)) (path : string)
  : option (handler_class * list string) :=
  match specs with
  | [] => None
  | (r, h) :: specs' =>
      match url_match r path with
      | Some g => Some (h, g)
      | None => find_handler specs' path
      end
  end.

Definition route (uri : string) : option (handler_class * list string) :=
  find_handler handlers (path_of_uri uri).

(** ** Collaborators of the handlers *)

(** The result of [self.pool.submit(render_notebook, exporter, nbjson, url)]. *)
Inductive render_result : Type :=
| Rendered (nbhtml : string) (config : json)
| NbFormatError
| RenderCrash (what : string).

(** Template namespaces: the dicts that the handlers hand to jinja. *)
Record gist_entry : Type := mk_gist_entry { ge_path : string; ge_url : string }.
Record repo_entry : Type := mk_repo_entry { re_url : json; re_name : json }.
Record crumb : Type := mk_crumb { crumb_url : string; crumb_name : string }.
Record tree_entry : Type :=
  mk_tree_entry { te_name : json; te_url : string; te_class : string }.

Inductive template : Type :=
| index_html
| faq_md
| notebook_html (body : string) (config : json)
| gistlist_html (entries : list gist_entry)
| userview_html (entries : list repo_entry)
| treelist_html (entries : list tree_entry) (path_list : list crumb).

(** Everything a handler reaches through [self.settings] and the Python
    library.  Template rendering is an opaque total call. *)
Record Env : Type := mkEnv {
  (* self.client, self.github_client *)
  client_fetch : string -> HTTPResponse;
  github_get_gist : string -> HTTPResponse;
  github_get_repos : string -> HTTPResponse;
  github_get_contents : string -> string -> string -> string -> HTTPResponse;
  (* self.pool with render_notebook and self.exporter *)
  render_notebook : json -> json -> render_result;
  (* self.settings['jinja2_env'] *)
  jinja_render : template -> string;
  (* self.settings.get('cache_expiry', 60) *)
  cache_expiry : Q;
  (* tornado.escape.utf8 on text, bytes.decode('utf8'), str.encode('ascii') *)
  utf8 : string -> string;
  decode_utf8 : string -> option string;
  encode_ascii : string -> option string;
  (* json.loads, base64.decodestring, str() of a value that is not a string *)
  json_loads : string -> option json;
  b64decode : string -> option string;
  py_repr : json -> string;
  (* tornado: unquoting and decoding of a matched group; the error page *)
  unquote : string -> option string;
  error_page : Z -> string
}.

(** The calls made to the collaborators, in the order they happen. *)
Inductive event : Type :=
| CacheGet (key : string)
| CacheSet (key value : string) (expire : Z)
| Fetch (url : string)
| GetGist (gist_id : string)
| GetRepos (user : string)
| GetContents (user repo path ref : string)
| PoolSubmit (nbjson url : json)
| RenderTemplate (t : template).

(** ** The cache store *)

Abbreviation store := (gmap string (string * Z)).

(** Modelled from the spec: the key/value store behind [self.settings['cache']]
    is not part of handlers.py.  Following the spec's CacheEntry and Cache
    Gateway, an entry is (key, value, absolute expiry timestamp), [set]
    overwrites the entry of its key wholesale, and [get] at time [now] returns
    the value of the entry of the key unless its expiry has been reached. *)
Definition store_get (now : Q) (c : store) (key : string) : option string :=
  match c !! key with
  | Some (v, expire) => if Qle_bool (inject_Z expire) now then None else Some v
  | None => None
  end.

(** Modelled from the spec: the store's [set(key, value, expire_at)], see
    [store_get]. *)
Definition store_set (c : store) (key value : string) (expire : Z) : store :=
  <[key := (value, expire)]> c.

(** ** The handler monad *)

Abbreviation header_map := (gmap string string).

Record response : Type := mkResponse {
  status : Z;
  headers : header_map;
  buffer : string
}.

Record state : Type := mkState {
  cache : store;
  calls : list event;
  resp : response
}.

Inductive outcome (A : Type) : Type :=
| Done (a : A)
| Raise (e : pyexn).
Arguments Done {A} a.
Arguments Raise {A} e.

Definition M (A : Type) : Type := state -> outcome A * state.

Definition ret {A} (a : A) : M A := fun st => (Done a, st).
Definition raise {A} (e : pyexn) : M A := fun st => (Raise e, st).
Definition bind {A B} (m : M A) (f : A -> M B) : M B :=
  fun st => match m st with
            | (Done a, st') => f a st'
            | (Raise e, st') => (Raise e, st')
            end.

Declare Scope handler_scope.
Delimit Scope handler_scope with handler.
Notation "x <- m ;; k" := (bind m (fun x => k))
  (at level 100, m at next level, right associativity) : handler_scope.
Notation "m ;; k" := (bind m (fun _ => k))
  (at level 100, right associativity) : handler_scope.
Open Scope handler_scope.

(** A value or an exception computed without effects. *)
Definition lift {A} (r : pyexn + A) : M A :=
  match r with inl e => raise e | inr a => ret a end.

Definition or_raise {A} (e : pyexn) (o : option A) : M A :=
  match o with Some a => ret a | None => raise e end.

Definition log_call (ev : event) : M unit :=
  fun st => (Done tt, mkState (cache st) (calls st ++ [ev]) (resp st)).

Definition update_response (f : response -> response) : M unit :=
  fun st => (Done tt, mkState (cache st) (calls st) (f (resp st))).

(** tornado's [RequestHandler.write] of a byte string. *)
Definition write (chunk : string) : M unit :=
  update_response (fun r => mkResponse (status r) (headers r) (buffer r +:+ chunk)).

Definition set_header (name value : string) : M unit :=
  update_response (fun r => mkResponse (status r) (<[name := value]> (headers r)) (buffer r)).

(** tornado's [RequestHandler.redirect(url)]: a 302 with a [Location]
    header.  tornado joins [url] with the request URI; every target built by
    the handlers is an absolute path, which the join leaves as it is. *)
Definition redirect (url : string) : M unit :=
  update_response (fun r => mkResponse 302 (<["Location" := url]> (headers r)) (buffer r)).

(** ** The handlers *)

(** [for x in v]: the elements of a list, the keys of a dict, the characters
    of a string. *)
Definition py_iter (v : json) : pyexn + list json :=
  match v with
  | JList l => inr l
  | JDict m => inr (map (fun kv => JStr (fst kv)) (map_to_list m))
  | JStr s => inr (map (fun c => JStr (String c "")) (list_ascii_of_string s))
  | _ => inl TypeError
  end.

(** [v.items()] and [list(v.keys())[0]]: only a dict has them. *)
Definition py_items (v : json) : pyexn + list (string * json) :=
  match v with
  | JDict m => inr (map_to_list m)
  | _ => inl AttributeError
  end.

Definition first_key (v : json) : pyexn + string :=
  match v with
  | JDict m => match map_to_list m with
               | (k, _) :: _ => inr k
               | [] => inl IndexError
               end
  | _ => inl AttributeError
  end.

(** [v.endswith(suffix)] on a JSON value. *)
Definition json_endswith (v : json) (suffix : string) : pyexn + bool :=
  match v with
  | JStr s => inr (endswith s suffix)
  | _ => inl AttributeError
  end.

(** [v == 'dir'] *)
Definition is_dir (v : json) : bool :=
  match v with JStr s => String.eqb s "dir" | _ => false end.

(** Sequencing of effect-free steps that may raise. *)
Fixpoint traverse {A B} (f : A -> pyexn + B) (l : list A) : pyexn + list B :=
  match l with
  | [] => inr []
  | a :: l' =>
      match f a with
      | inl e => inl e
      | inr b => match traverse f l' with
                 | inl e => inl e
                 | inr bs => inr (b :: bs)
                 end
      end
  end.

(** The breadcrumbs loop of [GitHubTreeHandler.get]. *)
Fixpoint crumbs (base_url : string) (names : list string) : list crumb :=
  match names with
  | [] => []
  | name :: names' =>
      let base_url' := base_url +:+ "/" +:+ name in
      mk_crumb base_url' name :: crumbs base_url' names'
  end.

Section Handlers.

Variable E : Env.
(** [self.request.uri], a native byte string on which tornado's [utf8] is the
    identity, and the reading of [time.time()] during the request. *)
Variable uri : string.
Variable now : Q.

(** ['%s' % v] *)
Definition py_str (v : json) : string :=
  match v with JStr s => s | _ => py_repr E v end.

Definition cache_get (key : string) : M (option string) :=
  fun st => (Done (store_get now (cache st) key),
             mkState (cache st) (calls st ++ [CacheGet key]) (resp st)).

Definition cache_set (key value : string) (expire : Z) : M unit :=
  fun st => (Done tt,
             mkState (store_set (cache st) key value expire)
                     (calls st ++ [CacheSet key value expire]) (resp st)).

Definition render_template (t : template) : M string :=
  log_call (RenderTemplate t) ;; ret (jinja_render E t).

Definition pool_submit (nbjson url : json) : M render_result :=
  log_call (PoolSubmit nbjson url) ;; ret (render_notebook E nbjson url).

Definition fetch (url : string) : M HTTPResponse :=
  log_call (Fetch url) ;; ret (client_fetch E url).

Definition get_gist (gist_id : string) : M HTTPResponse :=
  log_call (GetGist gist_id) ;; ret (github_get_gist E gist_id).

Definition get_repos (user : string) : M HTTPResponse :=
  log_call (GetRepos user) ;; ret (github_get_repos E user).

Definition get_contents (user repo path ref : string) : M HTTPResponse :=
  log_call (GetContents user repo path ref) ;; ret (github_get_contents E user repo path ref).

(** [if response.error: response.rethrow()] *)
Definition rethrow_error (response : HTTPResponse) : M unit :=
  match error response with
  | Some e => raise (Rethrown e)
  | None => ret tt
  end.

(** [json.loads(response.body.decode('utf8'))] *)
Definition loads_body (response : HTTPResponse) : M json :=
  t <- or_raise UnicodeDecodeError (decode_utf8 E (body response)) ;;
  or_raise ValueError (json_loads E t).

(** [BaseHandler.cache_and_finish] *)
Definition cache_and_finish (content : string) : M unit :=
  write (utf8 E content) ;;
  let burl := uri in
  let bcontent := utf8 E content in
  cache_set burl bcontent (py_int (Qplus now (cache_expiry E))).

(** The decorator [cached]. *)
Definition cached (method : M unit) : M unit :=
  cached_response <- cache_get uri ;;
  match cached_response with
  | Some content => write content
  | None => method
  end.

(** [RenderingHandler.finish_notebook] *)
Definition finish_notebook (nbjson url : json) : M unit :=
  r <- pool_submit nbjson url ;;
  match r with
  | Rendered nbhtml config =>
      html <- render_template (notebook_html nbhtml config) ;;
      cache_and_finish html
  | NbFormatError => raise (WebHTTPError 400)
  | RenderCrash what => raise (RenderFailure what)
  end.

Definition IndexHandler_get : M unit :=
  html <- render_template index_html ;; write (utf8 E html).

Definition FAQHandler_get : M unit :=
  html <- render_template faq_md ;; write (utf8 E html).

Definition URLHandler_get (secure url : string) : M unit :=
  cached (
    let proto := "http" +:+ secure in
    let remote_url := proto +:+ "://" +:+ url in
    response <- fetch remote_url ;;
    rethrow_error response ;;
    nbjson <- or_raise UnicodeDecodeError (decode_utf8 E (body response)) ;;
    finish_notebook (JStr nbjson) (JStr remote_url)).

Definition gist_entries (gist_id : json) (items : list (string * json)) : list gist_entry :=
  map (fun kv => mk_gist_entry (fst kv) ("/" +:+ py_str gist_id +:+ "/" +:+ fst kv)) items.

Definition GistHandler_get (gist_id filename : string) : M unit :=
  cached (
    response <- get_gist gist_id ;;
    rethrow_error response ;;
    data <- loads_body response ;;
    gist_id <- lift (getitem data "id") ;;
    files <- lift (getitem data "files") ;;
    n <- lift (py_len files) ;;
    filename <- (if Nat.eqb n 1 then lift (first_key files) else ret filename) ;;
    if truthy filename then
      file <- lift (getitem files filename) ;;
      nbjson <- lift (getitem file "content") ;;
      raw_url <- lift (getitem file "raw_url") ;;
      finish_notebook nbjson raw_url
    else if truthy filename then
      raise (WebHTTPError 404)
    else
      items <- lift (py_items files) ;;
      html <- render_template (gistlist_html (gist_entries gist_id items)) ;;
      cache_and_finish html).

Definition GistRedirectHandler_get (gist_id file : string) : M unit :=
  let new_url := "/gist/" +:+ gist_id in
  let new_url := if truthy file then new_url +:+ "/" +:+ file else new_url in
  redirect new_url.

Definition RawGitHubURLHandler_get (user repo path : string) : M unit :=
  let new_url := "/github/" +:+ user +:+ "/" +:+ repo +:+ "/blob/" +:+ path in
  redirect new_url.

Definition GitHubRedirectHandler_get (user repo ref path : string) : M unit :=
  let new_url := "/github/" +:+ user +:+ "/" +:+ repo +:+ "/" +:+ ref +:+ "/" +:+ path in
  redirect new_url.

Definition repo_entry_of (repo : json) : pyexn + repo_entry :=
  match getitem repo "name" with
  | inl e => inl e
  | inr name => inr (mk_repo_entry name name)
  end.

Definition GitHubUserHandler_get (user : string) : M unit :=
  cached (
    response <- get_repos user ;;
    rethrow_error response ;;
    repos <- loads_body response ;;
    repos <- lift (py_iter repos) ;;
    entries <- lift (traverse repo_entry_of repos) ;;
    html <- render_template (userview_html entries) ;;
    cache_and_finish html).

Definition GitHubRepoHandler_get (user repo : string) : M unit :=
  redirect ("/github/" +:+ user +:+ "/" +:+ repo +:+ "/tree/master/").

Definition tree_entry_of (user repo ref : string) (file : json) : pyexn + tree_entry :=
  match getitem file "name" with
  | inl e => inl e
  | inr name =>
      match getitem file "path" with
      | inl e => inl e
      | inr path =>
          match getitem file "type" with
          | inl e => inl e
          | inr type =>
              let app := if is_dir type then "tree" else "blob" in
              inr (mk_tree_entry name
                     ("/github/" +:+ user +:+ "/" +:+ repo +:+ "/" +:+ app +:+ "/"
                        +:+ ref +:+ "/" +:+ py_str path)
                     (if is_dir type then "icon-folder-open" else "icon-file"))
          end
      end
  end.

Definition GitHubTreeHandler_get (user repo ref path : string) : M unit :=
  cached (
    if negb (endswith uri "/") then redirect (uri +:+ "/")
    else
      let path := rstrip_slash path in
      response <- get_contents user repo path ref ;;
      rethrow_error response ;;
      contents <- loads_body response ;;
      match contents with
      | JList files =>
          let base_url := "/github/" +:+ user +:+ "/" +:+ repo +:+ "/tree/" +:+ ref in
          let path_list :=
            mk_crumb base_url repo
              :: (if truthy path then crumbs base_url (split_slash path) else []) in
          entries <- lift (traverse (tree_entry_of user repo ref) files) ;;
          html <- render_template (treelist_html entries path_list) ;;
          cache_and_finish html
      | _ =>
          redirect ("/github/" +:+ user +:+ "/" +:+ repo +:+ "/blob/" +:+ ref +:+ "/" +:+ path)
      end).

(** The first [try] block of [GitHubBlobHandler.get]: [None] when it raises. *)
Definition decode_content (contents : json) : option string :=
  match getitem contents "content" with
  | inr (JStr s) =>
      match encode_ascii E s with
      | Some b => b64decode E b
      | None => None
      end
  | _ => None
  end.

Definition GitHubBlobHandler_get (user repo ref path : string) : M unit :=
  cached (
    response <- get_contents user repo path ref ;;
    rethrow_error response ;;
    contents <- loads_body response ;;
    if is_list contents then
      redirect ("/github/" +:+ user +:+ "/" +:+ repo +:+ "/tree/" +:+ ref +:+ "/" +:+ path +:+ "/")
    else
      match decode_content contents with
      | None =>
          (* the log call of the except block reads contents['url'] *)
          lift (getitem contents "url") ;;
          raise (WebHTTPError 400)
      | Some filedata =>
          name <- lift (getitem contents "name") ;;
          is_notebook <- lift (json_endswith name ".ipynb") ;;
          if (is_notebook : bool) then
            match decode_utf8 E filedata with
            | None =>
                lift (getitem contents "url") ;;
                raise (WebHTTPError 400)
            | Some nbjson =>
                let raw_url := "https://raw.github.com/" +:+ user +:+ "/" +:+ repo
                                 +:+ "/" +:+ ref +:+ "/" +:+ path in
                (* the message argument reads contents['url'] *)
                lift (getitem contents "url") ;;
                finish_notebook (JStr nbjson) (JStr raw_url)
            end
          else
            set_header "Content-Type" "text/plain" ;;
            write filedata
      end).

Definition AddSlashHandler_get : M unit := redirect (uri +:+ "/").

Definition RemoveSlashHandler_get : M unit := redirect (rstrip_slash uri).

(** tornado calls [get] with the matched groups as positional arguments. *)
Definition call_get (h : handler_class) (args : list string) : M unit :=
  match h, args with
  | IndexHandler, [] => IndexHandler_get
  | FAQHandler, [] => FAQHandler_get
  | GitHubRedirectHandler, [user; repo; ref; path] => GitHubRedirectHandler_get user repo ref path
  | RawGitHubURLHandler, [user; repo; path] => RawGitHubURLHandler_get user repo path
  | URLHandler, [secure; url] => URLHandler_get secure url
  | AddSlashHandler, _ => AddSlashHandler_get
  | GitHubUserHandler, [user] => GitHubUserHandler_get user
  | GitHubRepoHandler, [user; repo] => GitHubRepoHandler_get user repo
  | RemoveSlashHandler, _ => RemoveSlashHandler_get
  | GitHubBlobHandler, [user; repo; ref; path] => GitHubBlobHandler_get user repo ref path
  | GitHubTreeHandler, [user; repo; ref; path] => GitHubTreeHandler_get user repo ref path
  | GistHandler, [gist_id] => GistHandler_get gist_id ""
  | GistHandler, [gist_id; filename] => GistHandler_get gist_id filename
  | GistRedirectHandler, [gist_id] => GistRedirectHandler_get gist_id ""
  | GistRedirectHandler, [gist_id; file] => GistRedirectHandler_get gist_id file
  | _, _ => raise TypeError
  end.

End Handlers.

(** ** tornado's request execution *)

(** The keys of [httplib.responses]. *)
Definition known_status (code : Z) : bool :=
  existsb (Z.eqb code)
    [100; 101; 200; 201; 202; 203; 204; 205; 206;
     300; 301; 302; 303; 304; 305; 306; 307;
     400; 401; 402; 403; 404; 405; 406; 407; 408; 409; 410; 411; 412; 413;
     414; 415; 416; 417; 500; 501; 502; 503; 504; 505].

(** [RequestHandler._handle_request_exception]: a [tornado.web.HTTPError]
    is sent with its own status code, every other exception is an uncaught
    exception and is sent as 500. *)
Definition status_of_exception (e : pyexn) : Z :=
  match e with
  | WebHTTPError code => if known_status code then code else 500
  | _ => 500
  end.

Definition default_headers : header_map :=
  {["Content-Type" := "text/html; charset=UTF-8"]}.

Definition fresh_response : response := mkResponse 200 default_headers "".

(** [RequestHandler.send_error]: what was written so far is dropped and the
    error page of the status is sent. *)
Definition send_error (E : Env) (st : state) (code : Z) : state :=
  mkState (cache st) (calls st) (mkResponse code default_headers (error_page E code)).

(** One request against the cache [c] at time [now]: route the path, unquote
    the groups, run the handler's [get], and finish the response.  The
    result holds the response sent, the cache afterwards and the calls
    made. *)
Definition serve (E : Env) (now : Q) (c : store) (uri : string) : state :=
  let st0 := mkState c [] fresh_response in
  match route uri with
  | None => send_error E st0 404
  | Some (h, gs) =>
      match mapM (unquote E) gs with
      | None => send_error E st0 400
      | Some args =>
          match call_get E uri now h args st0 with
          | (Done _, st) => st
          | (Raise e, st) => send_error E st (status_of_exception e)
          end
      end
  end.

(** Which calls reach the Provider Client or the Render Offload Pool. *)
Definition is_provider_or_pool (ev : event) : bool :=
  match ev with
  | Fetch _ | GetGist _ | GetRepos _ | GetContents _ _ _ _ | PoolSubmit _ _ => true
  | _ => false
  end.

Definition is_provider (ev : event) : bool :=
  match ev with
  | Fetch _ | GetGist _ | GetRepos _ | GetContents _ _ _ _ => true
  | _ => false
  end.

Definition is_render_template (ev : event) : bool :=
  match ev with RenderTemplate _ => true | _ => false end.

Definition is_cache_set (ev : event) : bool :=
  match ev with CacheSet _ _ _ => true | _ => false end.

(** ** A concrete environment for running the handlers *)

Definition ok_response (body : string) : HTTPResponse := mkHTTPResponse None body.
Definition failed_response (code : Z) : HTTPResponse :=
  mkHTTPResponse (Some (HTTPClientError code)) "".

Definition demo_file (content raw_url : string) : json :=
  JDict (list_to_map [("content", JStr content); ("raw_url", JStr raw_url)]).

Definition demo_gist_one : json :=
  JDict (list_to_map
    [("id", JStr "ab12cd34");
     ("files", JDict (list_to_map
        [("a.ipynb", demo_file "NOTEBOOK" "https://gist.example/raw/a.ipynb")]))]).

Definition demo_gist_two : json :=
  JDict (list_to_map
    [("id", JStr "ab12cd34");
     ("files", JDict (list_to_map
        [("a.ipynb", demo_file "NOTEBOOK" "https://gist.example/raw/a.ipynb");
         ("notes.txt", demo_file "hello" "https://gist.example/raw/notes.txt")]))]).

Definition demo_blob (name content : string) : json :=
  JDict (list_to_map
    [("name", JStr name); ("content", JStr content);
     ("url", JStr "https://api.github.com/repos/acme/demo/contents/x")]).

Definition demo_listing : json :=
  JList [JDict (list_to_map
           [("name", JStr "src"); ("path", JStr "src"); ("type", JStr "dir")]);
         JDict (list_to_map
           [("name", JStr "a.ipynb"); ("path", JStr "a.ipynb"); ("type", JStr "file")])].

(** Response bodies are tags that [json_loads] maps to the values above; a
    notebook renders unless its text is BROKEN; base64 text decodes unless it
    holds an exclamation mark; bytes decode as UTF-8 unless they hold the
    byte 255. *)
Definition demo_json_loads (t : string) : option json :=
  if String.eqb t "gist-one" then Some demo_gist_one
  else if String.eqb t "gist-two" then Some demo_gist_two
  else if String.eqb t "listing" then Some demo_listing
  else if String.eqb t "blob-notebook" then Some (demo_blob "a.ipynb" "NOTEBOOK")
  else if String.eqb t "blob-text" then Some (demo_blob "notes.txt" "hello")
  else if String.eqb t "blob-bad-base64" then Some (demo_blob "a.ipynb" "!!")
  else if String.eqb t "blob-bad-utf8" then Some (demo_blob "a.ipynb" "latin")
  else None.

Fixpoint has_char (c : ascii) (s : string) : bool :=
  match s with
  | EmptyString => false
  | String x s' => Ascii.eqb x c || has_char c s'
  end.

Definition demo_env : Env :=
  {| client_fetch := fun url =>
       if String.eqb url "http://example.com/nb.ipynb" then ok_response "NOTEBOOK"
       else if String.eqb url "http://example.com/broken.ipynb" then ok_response "BROKEN"
       else failed_response 404;
     github_get_gist := fun gist_id =>
       if String.eqb gist_id "ab12cd34" then ok_response "gist-two"
       else if String.eqb gist_id "1" then ok_response "gist-one"
       else failed_response 404;
     github_get_repos := fun _ => failed_response 404;
     github_get_contents := fun user repo path ref =>
       if String.eqb path "src" then ok_response "listing"
       else if String.eqb path "a.ipynb" then ok_response "blob-notebook"
       else if String.eqb path "notes.txt" then ok_response "blob-text"
       else if String.eqb path "bad64.ipynb" then ok_response "blob-bad-base64"
       else if String.eqb path "latin.ipynb" then ok_response "blob-bad-utf8"
       else failed_response 404;
     render_notebook := fun nbjson url =>
       match nbjson with
       | JStr "NOTEBOOK" => Rendered "<p>notebook</p>" JNull
       | _ => NbFormatError
       end;
     jinja_render := fun t =>
       match t with
       | notebook_html body _ => "<html>" +:+ body +:+ "</html>"
       | gistlist_html entries => "<html>gist</html>"
       | _ => "<html></html>"
       end;
     cache_expiry := 60%Q;
     utf8 := fun s => s;
     decode_utf8 := fun b => if String.eqb b "latin" then None else Some b;
     encode_ascii := fun s => Some s;
     json_loads := demo_json_loads;
     b64decode := fun b => if has_char "!" b then None else Some b;
     py_repr := fun _ => "?";
     unquote := fun s => Some s;
     error_page := fun code => "error"
  |}.



(** What a provider response parses to when [rethrow_error] and
    [loads_body] both pass; used to state what the provider answered. *)
Definition parsed_body (E : Env) (response : HTTPResponse) : option json :=
  match error response with
  | Some _ => None
  | None =>
      match decode_utf8 E (body response) with
      | Some t => json_loads E t
      | None => None
      end
  end.

(** ** Analysis of the route patterns

    The longest prefix of class characters, what follows it, and the
    conditions under which a greedy segment needs no backtracking. *)

Fixpoint take_while (cl : cclass) (s : text) : text :=
  match s with
  | c :: s' => if in_class cl c then c :: take_while cl s' else []
  | [] => []
  end.

Fixpoint drop_while (cl : cclass) (s : text) : text :=
  match s with
  | c :: s' => if in_class cl c then drop_while cl s' else s
  | [] => []
  end.

Definition all_in (cl : cclass) (u : text) : Prop :=
  Forall (fun c => in_class cl c = true) u.

(** The text is empty or starts with a character outside the class. *)
Definition stops (cl : cclass) (rest : text) : Prop :=
  match rest with
  | [] => True
  | c :: _ => in_class cl c = false
  end.

(** The continuation fails on every text that starts with a character of
    the class. *)
Definition blocked (cl : cclass) (k : cont) : Prop :=
  forall c s g, in_class cl c = true -> k (c :: s) g = None.

(** [find_handler] on the characters of the path. *)
Fixpoint find_groups (specs : list (regex * handler_class)) (s : text)
  : option (handler_class * groups) :=
  match specs with
  | [] => None
  | (r, h) :: specs' =>
      match rmatch r s [] at_end with
      | Some g => Some (h, g)
      | None => find_groups specs' s
      end
  end.

(** ** Vocabulary for the properties of the whole table *)

(** The handler classes whose [get] is wrapped by [cached]. *)
Definition is_cached_handler (h : handler_class) : bool :=
  match h with
  | URLHandler | GistHandler | GitHubUserHandler | GitHubTreeHandler
  | GitHubBlobHandler => true
  | _ => false
  end.

(** What the provider answered to a call. *)
Definition provider_answer (E : Env) (ev : event) : option HTTPResponse :=
  match ev with
  | Fetch url => Some (client_fetch E url)
  | GetGist gist_id => Some (github_get_gist E gist_id)
  | GetRepos user => Some (github_get_repos E user)
  | GetContents user repo path ref => Some (github_get_contents E user repo path ref)
  | _ => None
  end.

(** The numbers of positional arguments that the [get] of a handler class
    accepts: the parameters after [self], less those with a default;
    [*args] accepts any number. *)
Definition accepts (h : handler_class) (n : nat) : bool :=
  match h with
  | IndexHandler | FAQHandler => Nat.eqb n 0
  | GitHubUserHandler => Nat.eqb n 1
  | URLHandler | GitHubRepoHandler => Nat.eqb n 2
  | RawGitHubURLHandler => Nat.eqb n 3
  | GitHubRedirectHandler | GitHubBlobHandler | GitHubTreeHandler => Nat.eqb n 4
  | GistHandler | GistRedirectHandler => Nat.eqb n 1 || Nat.eqb n 2
  | AddSlashHandler | RemoveSlashHandler => true
  end.

(** The number of groups of a pattern. *)
Fixpoint ngroups (r : regex) : nat :=
  match r with
  | Cap r' => S (ngroups r')
  | Cat r1 r2 => ngroups r1 + ngroups r2
  | Alt r1 r2 => ngroups r1
  | _ => 0
  end.

(** Both sides of every alternation hold the same number of groups. *)
Fixpoint uniform (r : regex) : bool :=
  match r with
  | Cap r' => uniform r'
  | Cat r1 r2 => uniform r1 && uniform r2
  | Alt r1 r2 => Nat.eqb (ngroups r1) (ngroups r2) && uniform r1 && uniform r2
  | _ => true
  end.

(** ['/'.join(names)] *)
Fixpoint join_slash (names : list string) : string :=
  match names with
  | [] => ""
  | [name] => name
  | name :: names' => name +:+ "/" +:+ join_slash names'
  end.

(** The number of slashes of a string. *)
Fixpoint count_slash (s : string) : nat :=
  match s with
  | EmptyString => 0
  | String c s' => (if Ascii.eqb c slash then 1 else 0) + count_slash s'
  end.

(** The calls to the GitHub API, whose answers are JSON. *)
Definition is_github_call (ev : event) : bool :=
  match ev with
  | GetGist _ | GetRepos _ | GetContents _ _ _ _ => true
  | _ => false
  end.

(** The phase of a request to which a call belongs: cache lookup, provider
    call, pool submission, template rendering, cache write. *)
Definition phase (ev : event) : nat :=
  match ev with
  | CacheGet _ => 0
  | Fetch _ | GetGist _ | GetRepos _ | GetContents _ _ _ _ => 1
  | PoolSubmit _ _ => 2
  | RenderTemplate _ => 3
  | CacheSet _ _ _ => 4
  end.

(** Strictly increasing. *)
Fixpoint increasing (l : list nat) : bool :=
  match l with
  | a :: l' =>
      match l' with
      | b :: _ => Nat.ltb a b && increasing l'
      | [] => true
      end
  | [] => true
  end.

(** A user with two repositories, and a listing whose second element has
    no name. *)
Definition demo_repos : json :=
  JList [JDict (list_to_map [("name", JStr "demo")]);
         JDict (list_to_map [("name", JStr "tools")])].

Definition demo_repos_broken : json :=
  JList [JDict (list_to_map [("name", JStr "demo")]);
         JDict (list_to_map [("full_name", JStr "ghost/tools")])].

(** [demo_env] with a provider that knows the repositories of two users. *)
Definition repos_env : Env :=
  {| client_fetch := client_fetch demo_env;
     github_get_gist := github_get_gist demo_env;
     github_get_repos := fun user =>
       if String.eqb user "acme" then ok_response "repos"
       else if String.eqb user "ghost" then ok_response "repos-broken"
       else failed_response 404;
     github_get_contents := github_get_contents demo_env;
     render_notebook := render_notebook demo_env;
     jinja_render := jinja_render demo_env;
     cache_expiry := cache_expiry demo_env;
     utf8 := utf8 demo_env;
     decode_utf8 := decode_utf8 demo_env;
     encode_ascii := encode_ascii demo_env;
     json_loads := fun t =>
       if String.eqb t "repos" then Some demo_repos
       else if String.eqb t "repos-broken" then Some demo_repos_broken
       else demo_json_loads t;
     b64decode := b64decode demo_env;
     py_repr := py_repr demo_env;
     unquote := unquote demo_env;
     error_page := error_page demo_env
  |}.



(** A base64 decoder that knows the encodings of two texts. *)
Definition demo_b64decode (b : string) : option string :=
  if String.eqb b "aGVsbG8=" then Some "hello"
  else if String.eqb b "Tk9URUJPT0s=" then Some "NOTEBOOK"
  else None.

(** [demo_env] with a provider whose contents objects carry base64 text, and
    with [demo_b64decode]. *)
Definition base64_env : Env :=
  {| client_fetch := client_fetch demo_env;
     github_get_gist := github_get_gist demo_env;
     github_get_repos := github_get_repos demo_env;
     github_get_contents := fun user repo path ref =>
       if String.eqb path "a.ipynb" then ok_response "blob-notebook"
       else if String.eqb path "notes.txt" then ok_response "blob-text"
       else failed_response 404;
     render_notebook := render_notebook demo_env;
     jinja_render := jinja_render demo_env;
     cache_expiry := cache_expiry demo_env;
     utf8 := utf8 demo_env;
     decode_utf8 := decode_utf8 demo_env;
     encode_ascii := encode_ascii demo_env;
     json_loads := fun t =>
       if String.eqb t "blob-notebook" then Some (demo_blob "a.ipynb" "Tk9URUJPT0s=")
       else if String.eqb t "blob-text" then Some (demo_blob "notes.txt" "aGVsbG8=")
       else None;
     b64decode := demo_b64decode;
     py_repr := py_repr demo_env;
     unquote := unquote demo_env;
     error_page := error_page demo_env
  |}.

(** * Properties *)

(** ** The cache store *)

Lemma store_get_set (t : Q) (c : store) k v e :
  store_get t (store_set c k v e) k = if Qle_bool (inject_Z e) t then None else Some v.
Proof. unfold store_get, store_set. by rewrite lookup_insert_eq. Qed.

(** A miss stays a miss as time passes, as long as nothing is written. *)
Lemma store_get_later (t1 t2 : Q) (c : store) k :
  store_get t1 c k = None -> Qle t1 t2 -> store_get t2 c k = None.
Proof.
  unfold store_get. destruct (c !! k) as [[v e]|]; [|done].
  destruct (Qle_bool (inject_Z e) t1) eqn:H1; [|done].
  intros _ Hle. apply Qle_bool_iff in H1.
  assert (H2 : Qle_bool (inject_Z e) t2 = true).
  { apply Qle_bool_iff. eapply Qle_trans; eauto. }
  by rewrite H2.
Qed.

Lemma store_get_fresh (t : Q) (c : store) k v e :
  Qlt t (inject_Z e) -> store_get t (store_set c k v e) k = Some v.
Proof.
  intros Hlt. rewrite store_get_set.
  destruct (Qle_bool (inject_Z e) t) eqn:Hle; [|done].
  apply Qle_bool_iff in Hle. exfalso. eapply Qlt_not_le; eauto.
Qed.

Lemma store_get_stale (t : Q) (c : store) k v e :
  Qle (inject_Z e) t -> store_get t (store_set c k v e) k = None.
Proof.
  intros Hle. rewrite store_get_set.
  apply Qle_bool_iff in Hle. by rewrite Hle.
Qed.

Lemma py_int_floor (x : Q) : Qle 0 x -> py_int x = Qfloor x.
Proof.
  destruct x as [n d]. unfold Qle, py_int, Qfloor. cbn.
  intros Hn. apply Z.quot_div_nonneg; lia.
Qed.

(** The expiry that [cache_and_finish] stores is the end of the TTL cut to
    whole seconds: at most the end of the TTL, and less than a second before
    it. *)
Lemma expiry_within_a_second (now ttl : Q) :
  Qle 0 (Qplus now ttl) ->
  Qle (inject_Z (py_int (Qplus now ttl))) (Qplus now ttl) /\
  Qlt (Qplus now ttl) (inject_Z (py_int (Qplus now ttl) + 1)).
Proof.
  intros H. rewrite (py_int_floor _ H). split; [apply Qfloor_le|apply Qlt_floor].
Qed.

Lemma mapM_agree {A B} (f g : A -> option B) (l : list A) :
  (forall x, f x = g x) -> mapM f l = mapM g l.
Proof.
  intros Hfg. induction l as [|a l IH]; [done|].
  cbn. rewrite Hfg, IH. done.
Qed.

(** ** Symbolic execution of a handler

    [exec H] runs the handler in the equation [H : handler st0 = (o, st)]:
    it unfolds the handler, splits on every answer of a collaborator (reusing
    the answers already known) and leaves one goal per path, with the final
    outcome and state substituted. *)

Ltac unfold_handlers H :=
  unfold IndexHandler_get, FAQHandler_get, URLHandler_get, GistHandler_get,
    GistRedirectHandler_get, RawGitHubURLHandler_get, GitHubRedirectHandler_get,
    GitHubUserHandler_get, GitHubRepoHandler_get, GitHubTreeHandler_get,
    GitHubBlobHandler_get, AddSlashHandler_get, RemoveSlashHandler_get in H.

Ltac unfold_monad H :=
  unfold cached, finish_notebook, cache_and_finish, loads_body, rethrow_error,
    render_template, pool_submit, fetch, get_gist, get_repos, get_contents,
    cache_get, cache_set, redirect, set_header, write, update_response, log_call,
    lift, or_raise, bind, ret, raise in H.

Ltac exec_open H :=
  unfold_handlers H; unfold_monad H; cbn [fst snd cache calls resp] in H.

Ltac exec_split H :=
  repeat (match type of H with
          | context [match ?x with _ => _ end] =>
              lazymatch x with
              | context [match _ with _ => _ end] => fail
              | _ => first [ match goal with Heq : x = _ |- _ => rewrite Heq in H end
                           | destruct x eqn:? ]
              end
          end; cbn [fst snd cache calls resp] in H);
  inversion H; subst; clear H.

Ltac exec H := exec_open H; exec_split H.

(** Name the run of the handler inside [serve] and open it. *)
Ltac open_run H :=
  match goal with
  | |- context [let (_, _) := ?run in _] =>
      let o := fresh "o" in
      let st := fresh "st" in
      destruct run as [o st] eqn:H
  end; exec_open H.

Ltac split_args h args :=
  destruct h; destruct args as [|? [|? [|? [|? [|? ?]]]]]; cbn [call_get] in *.

(** ** Cache behaviour *)

(** C1, as the code has it.  A first request that consults the cache,
    misses and gets as far as rendering a page template returns the rendered
    page: it is answered 200 with the page as body, and its last call stores
    exactly that page under the request URI, with the expiry
    [int(now + cache_expiry)]; a notebook page is built from what the render
    pool returned for the submitted notebook.  A second request for the same
    URI before the stored expiry returns the same response from the cache
    alone: its only call is the cache lookup, so neither the provider
    clients nor the render pool are invoked.  A request at or after the
    stored expiry misses again and calls the provider.  The stored expiry is
    the end of the TTL cut to whole seconds: never after it, and less than
    one second before it. *)
Theorem cached_render_hit_until_expiry
    (E1 E2 E3 : Env) (t1 t2 t3 : Q) (c : store) (uri : string) (t : template) :
  let first := serve E1 t1 c uri in
  let expire := py_int (Qplus t1 (cache_expiry E1)) in
  let page := utf8 E1 (jinja_render E1 t) in
  head (calls first) = Some (CacheGet uri) ->
  store_get t1 c uri = None ->
  In (RenderTemplate t) (calls first) ->
  (forall s, unquote E2 s = unquote E1 s) ->
  (forall s, unquote E3 s = unquote E1 s) ->
  Qlt t2 (inject_Z expire) ->
  Qle (inject_Z expire) t3 ->
  (resp first = mkResponse 200 default_headers page /\
   last (calls first) = Some (CacheSet uri page expire) /\
   cache first = store_set c uri page expire /\
   (forall body config,
      t = notebook_html body config ->
      exists nbjson url,
        In (PoolSubmit nbjson url) (calls first) /\
        render_notebook E1 nbjson url = Rendered body config)) /\
  (let second := serve E2 t2 (cache first) uri in
   resp second = resp first /\
   buffer (resp second) = page /\
   calls second = [CacheGet uri] /\
   forallb (fun ev => negb (is_provider_or_pool ev)) (calls second) = true /\
   cache second = cache first) /\
  (let third := serve E3 t3 (cache first) uri in
   store_get t3 (cache first) uri = None /\
   exists ev, calls third !! 1%nat = Some ev /\ is_provider ev = true) /\
  (Qle 0 (Qplus t1 (cache_expiry E1)) ->
   Qle (inject_Z expire) (Qplus t1 (cache_expiry E1)) /\
   Qlt (Qplus t1 (cache_expiry E1)) (inject_Z (expire + 1))).
Proof.
  intros first expire page Hhead Hmiss Hrender Hq2 Hq3 Hbefore Hafter.
  subst first expire page. unfold serve in *.
  destruct (route uri) as [[h gs]|]; [|simpl in *; discriminate].
  rewrite (mapM_agree _ _ gs Hq2), (mapM_agree _ _ gs Hq3).
  destruct (mapM (unquote E1) gs) as [args|]; [|simpl in *; discriminate].
  destruct (call_get E1 uri t1 h args _) as [o st] eqn:Hrun.
  split_args h args.
  all: exec Hrun.
  all: cbn [cache calls resp status buffer send_error head app] in *;
       try discriminate; try congruence.
  all: repeat match goal with
       | H : In _ (_ :: _) |- _ => destruct H
       | H : In _ [] |- _ => destruct H
       end; simplify_eq.
  all: refine (conj (conj _ (conj _ (conj _ _))) (conj _ (conj _ _)));
       [reflexivity|reflexivity|reflexivity| | | |intros Hnn; by apply expiry_within_a_second].
  all: try (intros body config0 Heq; discriminate Heq).
  all: try (intros body config0 Heq; injection Heq as <- <-;
            do 2 eexists; split; [right; right; left; reflexivity|eassumption]).
  all: open_run Hrun2.
  all: first [ rewrite store_get_fresh in Hrun2 by exact Hbefore
             | rewrite store_get_stale in Hrun2 by exact Hafter ].
  all: exec_split Hrun2.
  all: simpl in *; try discriminate; try congruence.
  all: try (split; [by apply store_get_stale|]).
  all: try (eexists; split; [reflexivity|reflexivity]).
  all: repeat split; reflexivity.
Qed.

Lemma cached_render_hit_until_expiry_witness :
  let uri := "/url/example.com/nb.ipynb" in
  let page := "<html><p>notebook</p></html>" in
  let first := serve demo_env 100 ∅ uri in
  (resp first = mkResponse 200 default_headers page /\
   last (calls first) = Some (CacheSet uri page 160) /\
   cache first = store_set ∅ uri page 160 /\
   (forall body config,
      notebook_html "<p>notebook</p>" JNull = notebook_html body config ->
      exists nbjson url,
        In (PoolSubmit nbjson url) (calls first) /\
        render_notebook demo_env nbjson url = Rendered body config)) /\
  (let second := serve demo_env 120 (cache first) uri in
   resp second = resp first /\
   buffer (resp second) = page /\
   calls second = [CacheGet uri] /\
   forallb (fun ev => negb (is_provider_or_pool ev)) (calls second) = true /\
   cache second = cache first) /\
  (let third := serve demo_env 160 (cache first) uri in
   store_get 160 (cache first) uri = None /\
   exists ev, calls third !! 1%nat = Some ev /\ is_provider ev = true) /\
  (Qle 0 (Qplus 100 (cache_expiry demo_env)) ->
   Qle (inject_Z 160) (Qplus 100 (cache_expiry demo_env)) /\
   Qlt (Qplus 100 (cache_expiry demo_env)) (inject_Z (160 + 1))).
Proof.
  apply (cached_render_hit_until_expiry demo_env demo_env demo_env 100 120 160 ∅
           "/url/example.com/nb.ipynb" (notebook_html "<p>notebook</p>" JNull)).
  - vm_compute. reflexivity.
  - vm_compute. reflexivity.
  - vm_compute. right. right. right. left. reflexivity.
  - intros s. reflexivity.
  - intros s. reflexivity.
  - vm_compute. reflexivity.
  - vm_compute. discriminate.
Defined.

(** C1 as stated fails in the last second of the TTL.  With a TTL of 60
    seconds, the page rendered at 100.9 is stored with the expiry
    [int(160.9) = 160]; a second request at 160.5, before the TTL has
    elapsed, misses the cache and invokes the provider client and the render
    pool again. *)
Lemma hit_window_ends_before_ttl :
  let uri := "/url/example.com/nb.ipynb" in
  let t1 := (1009 # 10)%Q in
  let t2 := (321 # 2)%Q in
  let first := serve demo_env t1 ∅ uri in
  let second := serve demo_env t2 (cache first) uri in
  store_get t1 ∅ uri = None /\
  resp first = mkResponse 200 default_headers "<html><p>notebook</p></html>" /\
  cache first = store_set ∅ uri "<html><p>notebook</p></html>" 160 /\
  Qlt t1 t2 /\
  Qlt t2 (Qplus t1 (cache_expiry demo_env)) /\
  store_get t2 (cache first) uri = None /\
  calls second
    = [CacheGet uri; Fetch "http://example.com/nb.ipynb";
       PoolSubmit (JStr "NOTEBOOK") (JStr "http://example.com/nb.ipynb");
       RenderTemplate (notebook_html "<p>notebook</p>" JNull);
       CacheSet uri "<html><p>notebook</p></html>" 220] /\
  ~ (forallb (fun ev => negb (is_provider_or_pool ev)) (calls second) = true).
Proof.
  cbv zeta. repeat (split; [vm_compute; reflexivity|]). vm_compute. discriminate.
Qed.

(** C2.  When the document of a request fails conversion (the render pool
    answers [NbFormatError] to the request's submission), the response is
    the 400 error page and the cache is left as it was.  A later request
    for the same URI therefore misses again and calls the provider; with the
    same collaborators it makes the same calls, submission to the pool
    included, and is answered 400 again. *)
Theorem conversion_error_not_cached
    (E1 E2 : Env) (t1 t2 : Q) (c : store) (uri : string) (nbjson url : json) :
  let first := serve E1 t1 c uri in
  In (PoolSubmit nbjson url) (calls first) ->
  render_notebook E1 nbjson url = NbFormatError ->
  (forall s, unquote E2 s = unquote E1 s) ->
  Qle t1 t2 ->
  status (resp first) = 400 /\ buffer (resp first) = error_page E1 400 /\
  cache first = c /\
  existsb is_cache_set (calls first) = false /\
  (let second := serve E2 t2 (cache first) uri in
   exists ev, calls second !! 1%nat = Some ev /\ is_provider ev = true) /\
  (let again := serve E1 t2 (cache first) uri in
   calls again = calls first /\ status (resp again) = 400 /\ cache again = c).
Proof.
  intros first Hsubmit Hfail Hq2 Hle.
  subst first. unfold serve in *.
  destruct (route uri) as [[h gs]|]; [|simpl in *; tauto].
  rewrite (mapM_agree _ _ gs Hq2).
  destruct (mapM (unquote E1) gs) as [args|]; [|simpl in *; tauto].
  destruct (call_get E1 uri t1 h args _) as [o st] eqn:Hrun.
  split_args h args.
  all: exec Hrun.
  all: cbn [cache calls resp status buffer send_error app In] in *.
  all: try tauto.
  all: repeat match goal with
       | H : _ \/ _ |- _ => destruct H
       | H : False |- _ => destruct H
       | H : @eq event _ _ |- _ => first [discriminate H | injection H as ? ?; subst]
       end.
  all: try congruence.
  all: match goal with H : store_get _ _ _ = None |- _ =>
         pose proof (store_get_later _ _ _ _ H Hle) as Hmiss2 end.
  all: do 4 (split; [reflexivity|]).
  all: split.
  all: open_run Hrun2; rewrite Hmiss2 in Hrun2; exec_split Hrun2.
  all: cbn [cache calls resp status buffer send_error app] in *; try congruence.
  all: try (eexists; split; [reflexivity|reflexivity]).
  all: simplify_eq; repeat split; reflexivity.
Qed.

Lemma conversion_error_not_cached_witness :
  let first := serve demo_env 100 ∅ "/url/example.com/broken.ipynb" in
  status (resp first) = 400 /\ buffer (resp first) = error_page demo_env 400 /\
  cache first = ∅ /\
  existsb is_cache_set (calls first) = false /\
  (let second := serve demo_env 130 (cache first) "/url/example.com/broken.ipynb" in
   exists ev, calls second !! 1%nat = Some ev /\ is_provider ev = true) /\
  (let again := serve demo_env 130 (cache first) "/url/example.com/broken.ipynb" in
   calls again = calls first /\ status (resp again) = 400 /\ cache again = ∅).
Proof.
  apply (conversion_error_not_cached demo_env demo_env 100 130 ∅
           "/url/example.com/broken.ipynb"
           (JStr "BROKEN") (JStr "http://example.com/broken.ipynb")).
  - vm_compute. right. right. left. reflexivity.
  - vm_compute. reflexivity.
  - intros s. reflexivity.
  - vm_compute. discriminate.
Defined.

(** ** Provider answers *)

Lemma parsed_body_Some E response v :
  parsed_body E response = Some v ->
  error response = None /\
  exists t, decode_utf8 E (body response) = Some t /\ json_loads E t = Some v.
Proof.
  unfold parsed_body. destruct (error response); [done|].
  destruct (decode_utf8 E (body response)) as [t|]; [|done]. eauto.
Qed.

Ltac use_parsed :=
  repeat match goal with
  | H : parsed_body _ _ = Some _ |- _ =>
      apply parsed_body_Some in H; destruct H as (? & ? & ? & ?)
  end.

(** Which call of a concrete list of calls a hypothesis speaks about. *)
Ltac in_calls :=
  repeat match goal with
  | H : In _ (_ :: _) |- _ => destruct H
  | H : In _ [] |- _ => destruct H
  | H : @eq event _ _ |- _ => first [discriminate H | injection H as ?; subst]
  end.

(** ** Fetch errors *)

(** C4, as the code has it.  When the upstream fetch of a raw-URL request
    reports an error, [URLHandler.get] re-raises the client's error as it
    is: nothing is rendered or cached, and since the error is not a
    [tornado.web.HTTPError] the request is answered with status 500 and the
    error page of 500, whatever the upstream status was. *)
Theorem fetch_error_is_rethrown
    (E : Env) (now : Q) (c : store) (uri : string) (gs : list string)
    (secure url : string) (e : client_error) :
  let remote_url := ("http" +:+ secure) +:+ "://" +:+ url in
  route uri = Some (URLHandler, gs) ->
  mapM (unquote E) gs = Some [secure; url] ->
  In (Fetch remote_url) (calls (serve E now c uri)) ->
  error (client_fetch E remote_url) = Some e ->
  fst (call_get E uri now URLHandler [secure; url] (mkState c [] fresh_response))
    = Raise (Rethrown e) /\
  status (resp (serve E now c uri)) = 500 /\
  buffer (resp (serve E now c uri)) = error_page E 500 /\
  calls (serve E now c uri) = [CacheGet uri; Fetch remote_url] /\
  cache (serve E now c uri) = c.
Proof.
  intros remote_url Hroute Hargs Hasked Herr. subst remote_url.
  unfold serve in *. rewrite Hroute, Hargs in *.
  cbn [call_get] in *.
  destruct (URLHandler_get _ _ _ _ _ _) as [o st] eqn:Hrun.
  exec Hrun; cbn [fst cache calls resp status buffer headers send_error] in *;
    in_calls; simplify_eq.
  repeat split; reflexivity.
Qed.

Lemma fetch_error_is_rethrown_witness :
  fst (call_get demo_env "/url/example.com/none.ipynb" 100 URLHandler
         [""; "example.com/none.ipynb"] (mkState ∅ [] fresh_response))
    = Raise (Rethrown (HTTPClientError 404)) /\
  status (resp (serve demo_env 100 ∅ "/url/example.com/none.ipynb")) = 500 /\
  buffer (resp (serve demo_env 100 ∅ "/url/example.com/none.ipynb"))
    = error_page demo_env 500 /\
  calls (serve demo_env 100 ∅ "/url/example.com/none.ipynb")
    = [CacheGet "/url/example.com/none.ipynb";
       Fetch (("http" +:+ "") +:+ "://" +:+ "example.com/none.ipynb")] /\
  cache (serve demo_env 100 ∅ "/url/example.com/none.ipynb") = ∅.
Proof.
  apply (fetch_error_is_rethrown demo_env 100 ∅ "/url/example.com/none.ipynb"
           [""; "example.com/none.ipynb"] "" "example.com/none.ipynb"
           (HTTPClientError 404)).
  - vm_compute. reflexivity.
  - vm_compute. reflexivity.
  - vm_compute. right. left. reflexivity.
  - vm_compute. reflexivity.
Defined.

(** C4 as stated fails: the upstream answers 404 to the fetch of
    [http://example.com/none.ipynb], and the client of
    [/url/example.com/none.ipynb] receives 500, neither 404 nor 502. *)
Lemma upstream_404_is_served_as_500 :
  error (client_fetch demo_env "http://example.com/none.ipynb")
    = Some (HTTPClientError 404) /\
  status (resp (serve demo_env 100 ∅ "/url/example.com/none.ipynb")) = 500 /\
  ~ (status (resp (serve demo_env 100 ∅ "/url/example.com/none.ipynb")) = 404 \/
     status (resp (serve demo_env 100 ∅ "/url/example.com/none.ipynb")) = 502).
Proof.
  split; [reflexivity|]. split; [reflexivity|].
  vm_compute. intros [H|H]; discriminate H.
Qed.

(** ** Exceptions of the effect-free steps

    Indexing, [len], iteration and the like raise [KeyError], [TypeError] or
    [AttributeError], never a [web.HTTPError]: such a failure is sent as
    500. *)
Lemma getitem_raises v k e : getitem v k = inl e -> status_of_exception e = 500.
Proof.
  destruct v; cbn; try (intros [= <-]; reflexivity).
  destruct (_ !! k); [discriminate|]. intros [= <-]. reflexivity.
Qed.

Lemma py_iter_raises v e : py_iter v = inl e -> status_of_exception e = 500.
Proof. destruct v; cbn; try discriminate; intros [= <-]; reflexivity. Qed.

Lemma traverse_raises {A B} (f : A -> pyexn + B) l e :
  (forall a e', f a = inl e' -> status_of_exception e' = 500) ->
  traverse f l = inl e -> status_of_exception e = 500.
Proof.
  intros Hf. induction l as [|a l IH]; cbn; [discriminate|].
  destruct (f a) as [e'|b] eqn:Hfa; [intros [= <-]; eauto|].
  destruct (traverse f l); [intros [= <-]; by apply IH|discriminate].
Qed.

Lemma repo_entry_of_raises repo e :
  repo_entry_of repo = inl e -> status_of_exception e = 500.
Proof.
  unfold repo_entry_of. destruct (getitem repo "name") eqn:Hg; [|discriminate].
  intros [= <-]. eapply getitem_raises; eauto.
Qed.

Lemma py_len_raises v e : py_len v = inl e -> status_of_exception e = 500.
Proof. destruct v; cbn; try discriminate; intros [= <-]; reflexivity. Qed.

Lemma first_key_raises v e : first_key v = inl e -> status_of_exception e = 500.
Proof.
  destruct v; cbn; try (intros [= <-]; reflexivity).
  destruct (map_to_list m) as [|[k x] l]; [|discriminate]. intros [= <-]. reflexivity.
Qed.

Lemma py_items_raises v e : py_items v = inl e -> status_of_exception e = 500.
Proof. destruct v; cbn; try discriminate; intros [= <-]; reflexivity. Qed.

(** ** Gists *)

Lemma map_to_list_size_1 {A} (m : gmap string A) k v :
  size m = 1%nat -> m !! k = Some v -> map_to_list m = [(k, v)].
Proof.
  intros Hsize Hk.
  pose proof (length_map_to_list m) as Hlen. rewrite Hsize in Hlen.
  apply elem_of_map_to_list in Hk.
  destruct (map_to_list m) as [|p [|q l]]; simpl in Hlen; try discriminate.
  apply list_elem_of_singleton in Hk. by subst.
Qed.

Lemma gist_entries_paths E gid (l : list (string * json)) :
  map ge_path (gist_entries E gid l) = map fst l.
Proof. unfold gist_entries. rewrite map_map. reflexivity. Qed.

Lemma NoDup_keys {A} (m : gmap string A) : NoDup (map fst (map_to_list m)).
Proof. exact (NoDup_fst_map_to_list m). Qed.

Lemma In_keys {A} (m : gmap string A) k :
  In k (map fst (map_to_list m)) <-> is_Some (m !! k).
Proof.
  rewrite in_map_iff. split.
  - intros ([k' v] & <- & Hin). apply list_elem_of_In, elem_of_map_to_list in Hin.
    simpl. eauto.
  - intros [v Hv]. exists (k, v). split; [done|].
    by apply list_elem_of_In, elem_of_map_to_list.
Qed.

(** C3, at the failing input.  The gist [ab12cd34] has the files [a.ipynb]
    and [notes.txt]; the request names [missing.ipynb].  [files[filename]]
    raises [KeyError], which is sent as 500: the [elif filename:] branch
    that raises 404 is never reached.  On the gist [1], which has one file,
    the named file is ignored and the only file is served with 200. *)
Lemma gist_missing_file_is_500 :
  github_get_gist demo_env "ab12cd34" = ok_response "gist-two" /\
  json_loads demo_env "gist-two" = Some demo_gist_two /\
  match getitem demo_gist_two "files" with
  | inr files => getitem files "missing.ipynb"
  | inl e => inl e
  end = inl (KeyError "missing.ipynb") /\
  fst (call_get demo_env "/gist/ab12cd34/missing.ipynb" 100 GistHandler
         ["ab12cd34"; "missing.ipynb"] (mkState ∅ [] fresh_response))
    = Raise (KeyError "missing.ipynb") /\
  status (resp (serve demo_env 100 ∅ "/gist/ab12cd34/missing.ipynb")) = 500 /\
  status (resp (serve demo_env 100 ∅ "/gist/1/missing.ipynb")) = 200.
Proof. vm_compute. repeat split; reflexivity. Qed.

(** The same in general: no request routed to [GistHandler] is answered
    404, whatever the provider answers; the branch that raises it is dead. *)
Lemma gist_handler_never_404 (E : Env) (now : Q) (c : store) (uri : string)
    (gs : list string) :
  route uri = Some (GistHandler, gs) ->
  status (resp (serve E now c uri)) <> 404.
Proof.
  intros Hroute. unfold serve. rewrite Hroute.
  destruct (mapM (unquote E) gs) as [args|]; [|cbn; discriminate].
  destruct args as [|? [|? [|? ?]]]; cbn [call_get].
  all: open_run Hrun; exec_split Hrun.
  all: cbn [resp status send_error].
  all: repeat match goal with
       | H : getitem _ _ = inl _ |- _ => apply getitem_raises in H; rewrite H
       | H : py_len _ = inl _ |- _ => apply py_len_raises in H; rewrite H
       | H : first_key _ = inl _ |- _ => apply first_key_raises in H; rewrite H
       | H : py_items _ = inl _ |- _ => apply py_items_raises in H; rewrite H
       end.
  all: try (cbn; discriminate).
  all: congruence.
Qed.

(** C8.  A request without a filename segment for a gist with exactly one
    file submits that file's content and raw URL to the notebook renderer
    (the document view), and answers with the notebook page when the
    renderer succeeds.  For a gist with N > 1 files it renders the listing
    template on N entries whose paths are pairwise distinct (they are the
    file names of the gist), and answers with that page. *)
Theorem gist_single_file_or_listing
    (E : Env) (now : Q) (c : store) (uri g gist_id : string)
    (data gid file nbjson raw_url : json) (files : gmap string json) (name : string)
    (E' : Env) (now' : Q) (c' : store) (uri' g' gist_id' : string)
    (data' gid' : json) (files' : gmap string json) (N : nat) :
  (* a gist with exactly one file, requested without a filename segment *)
  route uri = Some (GistHandler, [g]) ->
  mapM (unquote E) [g] = Some [gist_id] ->
  In (GetGist gist_id) (calls (serve E now c uri)) ->
  parsed_body E (github_get_gist E gist_id) = Some data ->
  getitem data "id" = inr gid ->
  getitem data "files" = inr (JDict files) ->
  size files = 1%nat ->
  files !! name = Some file ->
  name <> "" ->
  getitem file "content" = inr nbjson ->
  getitem file "raw_url" = inr raw_url ->
  (* a gist with N > 1 files, requested without a filename segment *)
  route uri' = Some (GistHandler, [g']) ->
  mapM (unquote E') [g'] = Some [gist_id'] ->
  In (GetGist gist_id') (calls (serve E' now' c' uri')) ->
  parsed_body E' (github_get_gist E' gist_id') = Some data' ->
  getitem data' "id" = inr gid' ->
  getitem data' "files" = inr (JDict files') ->
  size files' = N ->
  (1 < N)%nat ->
  (take 3 (calls (serve E now c uri))
     = [CacheGet uri; GetGist gist_id; PoolSubmit nbjson raw_url] /\
   forall nbhtml config,
     render_notebook E nbjson raw_url = Rendered nbhtml config ->
     status (resp (serve E now c uri)) = 200 /\
     buffer (resp (serve E now c uri))
       = utf8 E (jinja_render E (notebook_html nbhtml config))) /\
  (exists entries,
     calls (serve E' now' c' uri')
       = [CacheGet uri'; GetGist gist_id'; RenderTemplate (gistlist_html entries);
          CacheSet uri' (utf8 E' (jinja_render E' (gistlist_html entries)))
            (py_int (Qplus now' (cache_expiry E')))] /\
     length entries = N /\
     NoDup (map ge_path entries) /\
     (forall k, In k (map ge_path entries) <-> is_Some (files' !! k)) /\
     status (resp (serve E' now' c' uri')) = 200 /\
     buffer (resp (serve E' now' c' uri'))
       = utf8 E' (jinja_render E' (gistlist_html entries))).
Proof.
  intros Hroute Hargs Hasked Hparsed Hid Hfiles Hsize Hname Hne Hcontent Hraw.
  intros Hroute' Hargs' Hasked' Hparsed' Hid' Hfiles' Hsize' HN.
  use_parsed. unfold serve in *.
  rewrite Hroute, Hargs in *. rewrite Hroute', Hargs' in *.
  cbn [call_get] in *.
  assert (Hfirst : first_key (JDict files) = inr name).
  { unfold first_key. by rewrite (map_to_list_size_1 files name file). }
  assert (Hlen : py_len (JDict files) = inr 1%nat) by (simpl; by rewrite Hsize).
  assert (Htruthy : truthy name = true).
  { unfold truthy. destruct (String.eqb_spec name ""); [done|reflexivity]. }
  assert (Hget : getitem (JDict files) name = inr file) by (simpl; by rewrite Hname).
  assert (Hlen' : py_len (JDict files') = inr N) by (simpl; by rewrite Hsize').
  assert (Hnot1 : Nat.eqb N 1 = false) by (apply Nat.eqb_neq; lia).
  split.
  - open_run Hrun. exec_split Hrun; cbn [calls resp status buffer headers send_error] in *;
      in_calls; simplify_eq.
    all: split; [reflexivity|]; intros; simplify_eq; done.
  - open_run Hrun. exec_split Hrun;
      cbn [calls resp status buffer headers send_error py_items] in *;
      in_calls; simplify_eq.
    eexists. split; [reflexivity|].
    rewrite gist_entries_paths. unfold gist_entries. rewrite length_map.
    rewrite length_map_to_list.
    repeat split; auto using NoDup_keys; apply In_keys.
Qed.

Lemma gist_single_file_or_listing_witness :
  (take 3 (calls (serve demo_env 100 ∅ "/gist/1"))
     = [CacheGet "/gist/1"; GetGist "1";
        PoolSubmit (JStr "NOTEBOOK") (JStr "https://gist.example/raw/a.ipynb")] /\
   forall nbhtml config,
     render_notebook demo_env (JStr "NOTEBOOK") (JStr "https://gist.example/raw/a.ipynb")
       = Rendered nbhtml config ->
     status (resp (serve demo_env 100 ∅ "/gist/1")) = 200 /\
     buffer (resp (serve demo_env 100 ∅ "/gist/1"))
       = utf8 demo_env (jinja_render demo_env (notebook_html nbhtml config))) /\
  (exists entries,
     calls (serve demo_env 100 ∅ "/gist/ab12cd34")
       = [CacheGet "/gist/ab12cd34"; GetGist "ab12cd34";
          RenderTemplate (gistlist_html entries);
          CacheSet "/gist/ab12cd34"
            (utf8 demo_env (jinja_render demo_env (gistlist_html entries)))
            (py_int (Qplus 100 (cache_expiry demo_env)))] /\
     length entries = 2%nat /\
     NoDup (map ge_path entries) /\
     (forall k, In k (map ge_path entries) <->
        is_Some ((list_to_map
           [("a.ipynb", demo_file "NOTEBOOK" "https://gist.example/raw/a.ipynb");
            ("notes.txt", demo_file "hello" "https://gist.example/raw/notes.txt")]
           : gmap string json) !! k)) /\
     status (resp (serve demo_env 100 ∅ "/gist/ab12cd34")) = 200 /\
     buffer (resp (serve demo_env 100 ∅ "/gist/ab12cd34"))
       = utf8 demo_env (jinja_render demo_env (gistlist_html entries))).
Proof.
  apply (gist_single_file_or_listing
           demo_env 100 ∅ "/gist/1" "1" "1" demo_gist_one (JStr "ab12cd34")
           (demo_file "NOTEBOOK" "https://gist.example/raw/a.ipynb")
           (JStr "NOTEBOOK") (JStr "https://gist.example/raw/a.ipynb")
           (list_to_map
              [("a.ipynb", demo_file "NOTEBOOK" "https://gist.example/raw/a.ipynb")])
           "a.ipynb"
           demo_env 100 ∅ "/gist/ab12cd34" "ab12cd34" "ab12cd34" demo_gist_two
           (JStr "ab12cd34")).
  - vm_compute. reflexivity.
  - vm_compute. reflexivity.
  - vm_compute. right. left. reflexivity.
  - vm_compute. reflexivity.
  - vm_compute. reflexivity.
  - vm_compute. reflexivity.
  - vm_compute. reflexivity.
  - vm_compute. reflexivity.
  - discriminate.
  - vm_compute. reflexivity.
  - vm_compute. reflexivity.
  - vm_compute. reflexivity.
  - vm_compute. reflexivity.
  - vm_compute. right. left. reflexivity.
  - vm_compute. reflexivity.
  - vm_compute. reflexivity.
  - vm_compute. reflexivity.
  - vm_compute. reflexivity.
  - vm_compute. lia.
Defined.

(** ** GitHub contents *)

(** C6.  A blob-form request whose contents response from the provider is
    a listing is answered with a redirect to the tree form of the same user,
    repository, ref and path (with the trailing slash of the tree form).
    Conversely a tree-form request whose contents response is not a listing
    (a single object) is answered with a redirect to the blob form of the
    same user, repository, ref and path. *)
Theorem blob_tree_cross_redirect
    (E : Env) (now : Q) (c : store) (uri : string) (gs : list string)
    (user repo ref path : string) (listing : list json)
    (E' : Env) (now' : Q) (c' : store) (uri' : string) (gs' : list string)
    (user' repo' ref' path' : string) (contents : json) :
  (* a blob-form request whose contents response is a listing *)
  route uri = Some (GitHubBlobHandler, gs) ->
  mapM (unquote E) gs = Some [user; repo; ref; path] ->
  In (GetContents user repo path ref) (calls (serve E now c uri)) ->
  parsed_body E (github_get_contents E user repo path ref) = Some (JList listing) ->
  (* a tree-form request whose contents response is a single object *)
  route uri' = Some (GitHubTreeHandler, gs') ->
  mapM (unquote E') gs' = Some [user'; repo'; ref'; path'] ->
  In (GetContents user' repo' (rstrip_slash path') ref') (calls (serve E' now' c' uri')) ->
  parsed_body E' (github_get_contents E' user' repo' (rstrip_slash path') ref')
    = Some contents ->
  is_list contents = false ->
  (status (resp (serve E now c uri)) = 302 /\
   headers (resp (serve E now c uri)) !! "Location"
     = Some ("/github/" +:+ user +:+ "/" +:+ repo +:+ "/tree/" +:+ ref +:+ "/"
               +:+ path +:+ "/")) /\
  (status (resp (serve E' now' c' uri')) = 302 /\
   headers (resp (serve E' now' c' uri')) !! "Location"
     = Some ("/github/" +:+ user' +:+ "/" +:+ repo' +:+ "/blob/" +:+ ref' +:+ "/"
               +:+ rstrip_slash path')).
Proof.
  intros Hroute Hargs Hasked Hparsed Hroute' Hargs' Hasked' Hparsed' Hsingle.
  use_parsed. unfold serve in *.
  rewrite Hroute, Hargs in *. rewrite Hroute', Hargs' in *.
  cbn [call_get] in *.
  split.
  - open_run Hrun. exec_split Hrun; cbn [calls resp status headers send_error] in *;
      in_calls; simplify_eq.
    all: split; [reflexivity|]; by rewrite lookup_insert_eq.
  - open_run Hrun. exec_split Hrun; cbn [calls resp status headers send_error] in *;
      in_calls; simplify_eq.
    all: split; [reflexivity|]; by rewrite lookup_insert_eq.
Qed.

Lemma blob_tree_cross_redirect_witness :
  (status (resp (serve demo_env 100 ∅ "/github/acme/demo/blob/main/src")) = 302 /\
   headers (resp (serve demo_env 100 ∅ "/github/acme/demo/blob/main/src")) !! "Location"
     = Some ("/github/" +:+ "acme" +:+ "/" +:+ "demo" +:+ "/tree/" +:+ "main" +:+ "/"
               +:+ "src" +:+ "/")) /\
  (status (resp (serve demo_env 100 ∅ "/github/acme/demo/tree/main/a.ipynb/")) = 302 /\
   headers (resp (serve demo_env 100 ∅ "/github/acme/demo/tree/main/a.ipynb/"))
     !! "Location"
     = Some ("/github/" +:+ "acme" +:+ "/" +:+ "demo" +:+ "/blob/" +:+ "main" +:+ "/"
               +:+ rstrip_slash "a.ipynb/")).
Proof.
  apply (blob_tree_cross_redirect
           demo_env 100 ∅ "/github/acme/demo/blob/main/src"
           ["acme"; "demo"; "main"; "src"] "acme" "demo" "main" "src"
           [JDict (list_to_map
              [("name", JStr "src"); ("path", JStr "src"); ("type", JStr "dir")]);
            JDict (list_to_map
              [("name", JStr "a.ipynb"); ("path", JStr "a.ipynb"); ("type", JStr "file")])]
           demo_env 100 ∅ "/github/acme/demo/tree/main/a.ipynb/"
           ["acme"; "demo"; "main"; "a.ipynb/"] "acme" "demo" "main" "a.ipynb/"
           (demo_blob "a.ipynb" "NOTEBOOK")).
  - vm_compute. reflexivity.
  - vm_compute. reflexivity.
  - vm_compute. right. left. reflexivity.
  - vm_compute. reflexivity.
  - vm_compute. reflexivity.
  - vm_compute. reflexivity.
  - vm_compute. right. left. reflexivity.
  - vm_compute. reflexivity.
  - vm_compute. reflexivity.
Defined.

(** C9.  A GitHub blob request whose contents object cannot be base64
    decoded, or whose decoded bytes belong to a notebook ([name] ends in
    [.ipynb]) and are not UTF-8 text, raises [web.HTTPError(400)]: the client
    receives status 400 with the error page and nothing is cached.  The
    exception is not a re-raised fetch error. *)
Theorem blob_decode_failure_is_400
    (E : Env) (now : Q) (c : store) (uri : string) (gs : list string)
    (user repo ref path : string) (contents u : json) :
  route uri = Some (GitHubBlobHandler, gs) ->
  mapM (unquote E) gs = Some [user; repo; ref; path] ->
  In (GetContents user repo path ref) (calls (serve E now c uri)) ->
  parsed_body E (github_get_contents E user repo path ref) = Some contents ->
  is_list contents = false ->
  getitem contents "url" = inr u ->
  (decode_content E contents = None \/
   exists filedata name,
     decode_content E contents = Some filedata /\
     getitem contents "name" = inr (JStr name) /\
     endswith name ".ipynb" = true /\
     decode_utf8 E filedata = None) ->
  let run := call_get E uri now GitHubBlobHandler [user; repo; ref; path]
               (mkState c [] fresh_response) in
  fst run = Raise (WebHTTPError 400) /\
  (forall e, fst run <> Raise (Rethrown e)) /\
  status (resp (serve E now c uri)) = 400 /\
  buffer (resp (serve E now c uri)) = error_page E 400 /\
  cache (serve E now c uri) = c.
Proof.
  intros Hroute Hargs Hasked Hparsed Hsingle Hurl Hfail run.
  use_parsed. subst run. unfold serve in *.
  rewrite Hroute, Hargs in *.
  cbn [call_get] in *.
  destruct (GitHubBlobHandler_get _ _ _ _ _ _ _ _) as [o st] eqn:Hrun.
  exec_open Hrun.
  destruct Hfail as [Hfail|(filedata & name & Hdec & Hname & Hnb & Hfail)].
  2: assert (Hends : json_endswith (JStr name) ".ipynb" = inr true)
       by (simpl; by rewrite Hnb).
  all: exec_split Hrun; cbn [fst calls resp status buffer headers send_error] in *;
      in_calls; simplify_eq.
  all: repeat split; try reflexivity; try discriminate.
Qed.

Lemma blob_decode_failure_is_400_witness :
  let run := call_get demo_env "/github/acme/demo/blob/main/bad64.ipynb" 100
               GitHubBlobHandler ["acme"; "demo"; "main"; "bad64.ipynb"]
               (mkState ∅ [] fresh_response) in
  fst run = Raise (WebHTTPError 400) /\
  (forall e, fst run <> Raise (Rethrown e)) /\
  status (resp (serve demo_env 100 ∅ "/github/acme/demo/blob/main/bad64.ipynb")) = 400 /\
  buffer (resp (serve demo_env 100 ∅ "/github/acme/demo/blob/main/bad64.ipynb"))
    = error_page demo_env 400 /\
  cache (serve demo_env 100 ∅ "/github/acme/demo/blob/main/bad64.ipynb") = ∅.
Proof.
  apply (blob_decode_failure_is_400
           demo_env 100 ∅ "/github/acme/demo/blob/main/bad64.ipynb"
           ["acme"; "demo"; "main"; "bad64.ipynb"] "acme" "demo" "main" "bad64.ipynb"
           (demo_blob "a.ipynb" "!!")
           (JStr "https://api.github.com/repos/acme/demo/contents/x")).
  - vm_compute. reflexivity.
  - vm_compute. reflexivity.
  - vm_compute. right. left. reflexivity.
  - vm_compute. reflexivity.
  - vm_compute. reflexivity.
  - vm_compute. reflexivity.
  - left. vm_compute. reflexivity.
Defined.

(** What the first [try] block of [GitHubBlobHandler.get] computes: the
    [content] of the contents object, encoded as ASCII and decoded from
    base64. *)
Lemma decode_content_Some E contents filedata :
  decode_content E contents = Some filedata <->
  exists content ascii_bytes,
    getitem contents "content" = inr (JStr content) /\
    encode_ascii E content = Some ascii_bytes /\
    b64decode E ascii_bytes = Some filedata.
Proof.
  unfold decode_content. split.
  - destruct (getitem contents "content") as [|[]]; try discriminate.
    destruct (encode_ascii E s) as [b|] eqn:Hb; [|discriminate]. eauto.
  - intros (content & ascii_bytes & -> & -> & Hd). exact Hd.
Qed.

(** C10.  A GitHub blob request that succeeds on a file whose name does not
    end in [.ipynb] answers 200 with [Content-Type: text/plain] and, as
    body, the bytes that base64 decoding gives for the [content] of the
    contents object.  The cache lookup and the provider call are its only
    calls: the cache is left as it was and no cache write is made. *)
Theorem blob_plain_file_not_cached
    (E : Env) (now : Q) (c : store) (uri : string) (gs : list string)
    (user repo ref path : string) (contents : json)
    (content ascii_bytes filedata name : string) :
  route uri = Some (GitHubBlobHandler, gs) ->
  mapM (unquote E) gs = Some [user; repo; ref; path] ->
  In (GetContents user repo path ref) (calls (serve E now c uri)) ->
  parsed_body E (github_get_contents E user repo path ref) = Some contents ->
  is_list contents = false ->
  getitem contents "content" = inr (JStr content) ->
  encode_ascii E content = Some ascii_bytes ->
  b64decode E ascii_bytes = Some filedata ->
  getitem contents "name" = inr (JStr name) ->
  endswith name ".ipynb" = false ->
  status (resp (serve E now c uri)) = 200 /\
  buffer (resp (serve E now c uri)) = filedata /\
  headers (resp (serve E now c uri)) !! "Content-Type" = Some "text/plain" /\
  cache (serve E now c uri) = c /\
  existsb is_cache_set (calls (serve E now c uri)) = false /\
  calls (serve E now c uri) = [CacheGet uri; GetContents user repo path ref].
Proof.
  intros Hroute Hargs Hasked Hparsed Hsingle Hcontent Hascii Hb64 Hname Hnb.
  assert (Hdec : decode_content E contents = Some filedata)
    by (apply decode_content_Some; eauto).
  use_parsed. unfold serve in *.
  rewrite Hroute, Hargs in *.
  cbn [call_get] in *.
  assert (Hends : json_endswith (JStr name) ".ipynb" = inr false) by (simpl; by rewrite Hnb).
  open_run Hrun.
  exec_split Hrun; cbn [fst cache calls resp status buffer headers send_error] in *;
      in_calls; simplify_eq.
  repeat split; reflexivity.
Qed.

Lemma blob_plain_file_not_cached_witness :
  let uri := "/github/acme/demo/blob/main/notes.txt" in
  status (resp (serve base64_env 100 ∅ uri)) = 200 /\
  buffer (resp (serve base64_env 100 ∅ uri)) = "hello" /\
  headers (resp (serve base64_env 100 ∅ uri)) !! "Content-Type" = Some "text/plain" /\
  cache (serve base64_env 100 ∅ uri) = ∅ /\
  existsb is_cache_set (calls (serve base64_env 100 ∅ uri)) = false /\
  calls (serve base64_env 100 ∅ uri)
    = [CacheGet uri; GetContents "acme" "demo" "notes.txt" "main"].
Proof.
  apply (blob_plain_file_not_cached
           base64_env 100 ∅ "/github/acme/demo/blob/main/notes.txt"
           ["acme"; "demo"; "main"; "notes.txt"] "acme" "demo" "main" "notes.txt"
           (demo_blob "notes.txt" "aGVsbG8=") "aGVsbG8=" "aGVsbG8=" "hello" "notes.txt").
  - vm_compute. reflexivity.
  - vm_compute. reflexivity.
  - vm_compute. right. left. reflexivity.
  - vm_compute. reflexivity.
  - vm_compute. reflexivity.
  - vm_compute. reflexivity.
  - vm_compute. reflexivity.
  - vm_compute. reflexivity.
  - vm_compute. reflexivity.
  - vm_compute. reflexivity.
Defined.

(** ** Legacy GitHub URLs *)

(** C5, at the failing input.  The legacy path of a file on github.com is
    routed to [GitHubRedirectHandler], whose pattern does not capture the
    tree/blob segment: the redirect target lacks it, matches no route of
    [handlers], and is answered 404.  The raw.github.com form of the same
    file is redirected to the blob form, which is routed. *)
Lemma github_redirect_target_is_unrouted :
  route "/url/github.com/ipython/ipython/blob/master/README.ipynb"
    = Some (GitHubRedirectHandler, ["ipython"; "ipython"; "master"; "README.ipynb"]) /\
  status (resp (serve demo_env 100 ∅
                  "/url/github.com/ipython/ipython/blob/master/README.ipynb")) = 302 /\
  headers (resp (serve demo_env 100 ∅
                   "/url/github.com/ipython/ipython/blob/master/README.ipynb"))
    !! "Location" = Some "/github/ipython/ipython/master/README.ipynb" /\
  route "/github/ipython/ipython/master/README.ipynb" = None /\
  status (resp (serve demo_env 100 ∅ "/github/ipython/ipython/master/README.ipynb")) = 404 /\
  headers (resp (serve demo_env 100 ∅
                   "/urls/raw.github.com/ipython/ipython/master/README.ipynb"))
    !! "Location" = Some "/github/ipython/ipython/blob/master/README.ipynb" /\
  route "/github/ipython/ipython/blob/master/README.ipynb"
    = Some (GitHubBlobHandler, ["ipython"; "ipython"; "master"; "README.ipynb"]).
Proof. vm_compute. repeat split; reflexivity. Qed.

(** ** Routing of the collection paths *)

Section RouteAnalysis.

Local Open Scope list_scope.

(** The route table read on the characters of the path. *)
Lemma find_handler_groups specs path :
  find_handler specs path
  = option_map (fun hg => (fst hg, map string_of_list_ascii (snd hg)))
      (find_groups specs (list_ascii_of_string path)).
Proof.
  induction specs as [|[r h] specs IH]; [done|].
  cbn [find_handler find_groups]. unfold url_match.
  destruct (rmatch r (list_ascii_of_string path) [] at_end); [done|]. exact IH.
Qed.

(** *** Longest prefixes *)

Lemma take_drop_while cl s : (take_while cl s ++ drop_while cl s)%list = s.
Proof.
  induction s as [|c s IH]; [done|]. simpl.
  destruct (in_class cl c); [|done]. simpl. by rewrite IH.
Qed.

Lemma take_while_all_in cl s : all_in cl (take_while cl s).
Proof.
  induction s as [|c s IH]; simpl; [constructor|].
  destruct (in_class cl c) eqn:Hc; constructor; done.
Qed.

Lemma drop_while_stops cl s : stops cl (drop_while cl s).
Proof.
  induction s as [|c s IH]; simpl; [done|].
  destruct (in_class cl c) eqn:Hc; [done|]. simpl. done.
Qed.

Lemma drop_while_length cl s : (length (drop_while cl s) <= length s)%nat.
Proof.
  induction s as [|c s IH]; simpl; [lia|].
  destruct (in_class cl c); simpl; lia.
Qed.

Lemma take_while_take cl s :
  take (length s - length (drop_while cl s)) s = take_while cl s.
Proof.
  rewrite <- (take_drop_while cl s) at 1 3.
  rewrite length_app.
  replace (length (take_while cl s) + length (drop_while cl s) - length (drop_while cl s))%nat
    with (length (take_while cl s)) by lia.
  by rewrite take_app_length.
Qed.

Lemma while_app cl u rest :
  all_in cl u -> stops cl rest ->
  take_while cl (u ++ rest) = u /\ drop_while cl (u ++ rest) = rest.
Proof.
  intros Hu Hrest. induction Hu as [|c u Hc Hu IH]; simpl.
  - destruct rest as [|c rest]; simpl in *; [done|]. by rewrite Hrest.
  - rewrite Hc. destruct IH as [-> ->]. done.
Qed.

(** *** Greedy segments

    When the continuation fails on every text that starts with a class
    character, giving characters back cannot help: the greedy repetition
    hands the continuation exactly what follows the longest prefix. *)

Lemma star_k_blocked cl s g k :
  blocked cl k -> star_k cl s g k = k (drop_while cl s) g.
Proof.
  intros Hk. induction s as [|c s IH]; simpl; [done|].
  destruct (in_class cl c) eqn:Hc; [|done].
  rewrite IH. destruct (k (drop_while cl s) g); [done|]. by apply Hk.
Qed.

Lemma rmatch_cap_plus cl s g k :
  blocked cl k ->
  rmatch (Cap (Plus cl)) s g k =
    match s with
    | c :: s' =>
        if in_class cl c
        then k (drop_while cl s') (g ++ [c :: take_while cl s'])
        else None
    | [] => None
    end.
Proof.
  intros Hk. destruct s as [|c s']; simpl; [done|].
  destruct (in_class cl c) eqn:Hc; [|done].
  rewrite star_k_blocked.
  - pose proof (drop_while_length cl s') as Hlen.
    replace (S (length s') - length (drop_while cl s'))%nat
      with (S (length s' - length (drop_while cl s'))) by lia.
    simpl. by rewrite take_while_take.
  - intros c0 s0 g0 Hc0. by apply Hk.
Qed.

(** Forward: a segment of class characters that stops where the
    continuation can go on. *)
Lemma rmatch_seg cl u rest g k :
  blocked cl k -> u <> [] -> all_in cl u -> stops cl rest ->
  rmatch (Cap (Plus cl)) (u ++ rest) g k = k rest (g ++ [u]).
Proof.
  intros Hk Hne Hu Hrest. rewrite rmatch_cap_plus by done.
  destruct u as [|c u]; [done|]. simpl.
  inversion Hu as [|? ? Hc Hu']; subst. rewrite Hc.
  destruct (while_app cl u rest Hu' Hrest) as [-> ->]. done.
Qed.

(** Backward. *)
Lemma rmatch_seg_inv cl s g k G :
  blocked cl k ->
  rmatch (Cap (Plus cl)) s g k = Some G ->
  exists u rest, s = u ++ rest /\ u <> [] /\ all_in cl u /\ stops cl rest
                 /\ k rest (g ++ [u]) = Some G.
Proof.
  intros Hk. rewrite rmatch_cap_plus by done.
  destruct s as [|c s']; [done|].
  destruct (in_class cl c) eqn:Hc; [|done].
  intros HG. exists (c :: take_while cl s'), (drop_while cl s').
  split; [simpl; by rewrite take_drop_while|].
  split; [done|].
  split; [constructor; [done|apply take_while_all_in]|].
  split; [apply drop_while_stops|done].
Qed.

Lemma blocked_at_end cl : blocked cl at_end.
Proof. intros c s g _. reflexivity. Qed.

Lemma eqb_slash_class cl c :
  in_class cl "/"%char = false -> in_class cl c = true -> Ascii.eqb "/"%char c = false.
Proof.
  intros Hs Hc. destruct (Ascii.eqb_spec "/"%char c) as [<-|]; [congruence|done].
Qed.

Lemma list_ascii_of_string_app (a b : string) :
  list_ascii_of_string (a +:+ b) = list_ascii_of_string a ++ list_ascii_of_string b.
Proof.
  induction a as [|c a IH]; [done|].
  change (String c a +:+ b) with (String c (a +:+ b)).
  cbn [list_ascii_of_string app]. by rewrite IH.
Qed.

Lemma rmatch_word_seg u rest g k :
  blocked Word k -> u <> [] -> all_in Word u -> stops Word rest ->
  rmatch word_seg (u ++ rest) g k = k rest (g ++ [u]).
Proof. apply rmatch_seg. Qed.

Lemma rmatch_slash_seg u rest g k :
  blocked NotSlash k -> u <> [] -> all_in NotSlash u -> stops NotSlash rest ->
  rmatch seg (u ++ rest) g k = k rest (g ++ [u]).
Proof. apply rmatch_seg. Qed.

(** *** Evaluating a pattern on a path of known shape *)

(** Comparison of two character literals. *)
Ltac eqb_closed :=
  repeat match goal with
  | |- context [Ascii.eqb (Ascii ?a0 ?a1 ?a2 ?a3 ?a4 ?a5 ?a6 ?a7)
                          (Ascii ?b0 ?b1 ?b2 ?b3 ?b4 ?b5 ?b6 ?b7)] =>
      let v := eval vm_compute in
        (Ascii.eqb (Ascii a0 a1 a2 a3 a4 a5 a6 a7) (Ascii b0 b1 b2 b3 b4 b5 b6 b7)) in
      change (Ascii.eqb (Ascii a0 a1 a2 a3 a4 a5 a6 a7) (Ascii b0 b1 b2 b3 b4 b5 b6 b7))
        with v
  end.

Ltac lit_step := cbn [rmatch strip_prefix list_ascii_of_string app]; eqb_closed;
                 cbn [rmatch strip_prefix list_ascii_of_string app].

Ltac solve_blocked :=
  let c := fresh "c" in let s := fresh "s" in let g := fresh "g" in
  let Hc := fresh "Hc" in
  intros c s g Hc; cbn [rmatch strip_prefix list_ascii_of_string at_end];
  try reflexivity;
  match type of Hc with
  | in_class ?cl _ = true => rewrite (eqb_slash_class cl c eq_refl Hc)
  end; reflexivity.

Ltac solve_stops := first [exact I | reflexivity].


Lemma at_end_app (a b : text) g : a <> [] -> at_end (a ++ b) g = None.
Proof. destruct a; [done|reflexivity]. Qed.

Lemma at_end_app_cons (a : text) c b g : at_end (a ++ c :: b) g = None.
Proof. destruct a; reflexivity. Qed.

Lemma drop_while_app_stop cl a c b :
  in_class cl c = false -> drop_while cl (a ++ c :: b) = drop_while cl a ++ c :: b.
Proof.
  intros Hc. induction a as [|x a IH]; simpl; [by rewrite Hc|].
  destruct (in_class cl x); [exact IH|done].
Qed.

Lemma drop_while_all_in cl cl' s : all_in cl' s -> all_in cl' (drop_while cl s).
Proof.
  intros Hs. induction Hs as [|x s Hx Hs IH]; simpl; [constructor|].
  destruct (in_class cl x); [exact IH|by constructor].
Qed.

Lemma word_not_slash u : all_in Word u -> all_in NotSlash u.
Proof.
  intros Hu. induction Hu as [|c u Hc Hu IH]; constructor; [|exact IH].
  destruct (Ascii.eqb_spec c slash) as [->|Hne]; [discriminate Hc|].
  simpl. by apply negb_true_iff, Ascii.eqb_neq.
Qed.

(** A word segment cannot be matched across a segment that is followed by a
    slash when the continuation rejects what follows. *)
Lemma word_seg_fail r Y g k :
  all_in NotSlash r -> stops Word Y -> Y <> [] -> blocked Word k ->
  (forall a g', all_in NotSlash a -> k (a ++ Y) g' = None) ->
  rmatch word_seg (r ++ Y) g k = None.
Proof.
  intros Hr HY HYne Hk Hfail. unfold word_seg. rewrite rmatch_cap_plus by done.
  destruct Y as [|y Y]; [done|]. cbn [stops] in HY.
  destruct r as [|c r]; cbn [app]; [by rewrite HY|].
  destruct (in_class Word c); [|done].
  rewrite drop_while_app_stop by done.
  apply Hfail. apply drop_while_all_in. by inversion Hr.
Qed.

Lemma strip_prefix_Some l s rest : strip_prefix l s = Some rest -> s = l ++ rest.
Proof.
  revert s. induction l as [|a l IH]; intros s; simpl.
  - by intros [= ->].
  - destruct s as [|b s]; [done|].
    destruct (Ascii.eqb_spec a b) as [->|]; [|done].
    intros H. by rewrite (IH _ H).
Qed.

Lemma at_end_Some rest g G : at_end rest g = Some G -> rest = [] /\ G = g.
Proof. destruct rest; [by intros [= ->]|done]. Qed.

Ltac seg_step :=
  first [ rewrite rmatch_word_seg by first [solve_blocked | solve_stops | assumption]
        | rewrite rmatch_slash_seg by first [solve_blocked | solve_stops | assumption] ].

Ltac eval_route := repeat (lit_step; try seg_step); try reflexivity.

(** Decide the next spec of [find_groups]. *)
Ltac next_none tac :=
  match goal with
  | |- match ?m with Some _ => _ | None => _ end = _ =>
      let H := fresh in
      assert (H : m = None) by tac; rewrite H; clear H
  end.

Ltac next_some G tac :=
  match goal with
  | |- match ?m with Some _ => _ | None => _ end = _ =>
      let H := fresh in
      assert (H : m = Some G) by tac; rewrite H; clear H
  end.

(** The continuation "/" then end of path fails on a segment followed by
    a slash and more. *)
Ltac slash_then_more :=
  let a := fresh "a" in let g := fresh "g" in let Ha := fresh "Ha" in
  intros a g Ha; destruct a as [|? a]; cbn [app]; eqb_closed; [reflexivity|];
  inversion Ha; subst;
  match goal with
  | Hx : in_class NotSlash ?x = true |- _ =>
      rewrite (eqb_slash_class NotSlash x eq_refl Hx)
  end; reflexivity.

(** *** The targets of the slash redirects *)

Section Eval.
Variables u r f : text.
Hypothesis Hu : all_in Word u.
Hypothesis Hune : u <> [].

Lemma user_root_target :
  find_groups handlers (list_ascii_of_string "/github/" ++ u ++ ["/"%char]) = Some (GitHubUserHandler, [u]).
Proof.
  unfold handlers. cbn [find_groups].
  do 7 next_none eval_route.
  next_some [u] eval_route. reflexivity.
Qed.

Hypothesis Hrne : r <> [].

Lemma repo_root_target :
  all_in Word r ->
  find_groups handlers (list_ascii_of_string "/github/" ++ u ++ "/"%char :: r ++ ["/"%char])
  = Some (GitHubRepoHandler, [u; r]).
Proof.
  intros Hr.
  unfold handlers. cbn [find_groups].
  do 7 next_none eval_route.
  next_none ltac:(eval_route; by apply at_end_app).
  next_none eval_route.
  next_some [u; r] eval_route. reflexivity.
Qed.

Hypothesis Hr : all_in NotSlash r.
Hypothesis Hf : all_in NotSlash f.
Hypothesis Hfne : f <> [].

Lemma tree_root_target :
  find_groups handlers
    (list_ascii_of_string "/github/" ++ u ++ "/"%char :: r
       ++ list_ascii_of_string "/tree/" ++ f ++ ["/"%char])
  = Some (GitHubTreeHandler, [u; r; f; []]).
Proof.
  unfold handlers. cbn [find_groups].
  do 7 next_none eval_route.
  next_none ltac:(eval_route; by apply at_end_app).
  next_none ltac:(eval_route; apply word_seg_fail;
      [assumption|reflexivity|discriminate|solve_blocked|
       intros; apply at_end_app_cons]).
  next_none ltac:(eval_route; apply word_seg_fail;
      [assumption|reflexivity|discriminate|solve_blocked|]; slash_then_more).
  do 3 next_none eval_route.
  next_some [u; r; f; []] eval_route. reflexivity.
Qed.
End Eval.

(** *** The shapes of the paths of [AddSlashHandler] *)

Ltac inv_route H :=
  cbn [rmatch] in H; unfold word_seg, seg in H;
  repeat match type of H with
  | match strip_prefix ?l ?s with _ => _ end = Some _ =>
      let Hp := fresh "Hp" in
      destruct (strip_prefix l s) eqn:Hp;
      [apply strip_prefix_Some in Hp; subst|discriminate H]
  | rmatch (Cap (Plus _)) _ _ _ = Some _ =>
      apply rmatch_seg_inv in H;
      [let H2 := fresh "Hk" in
       destruct H as (? & ? & -> & ? & ? & ? & H2); rename H2 into H; cbn beta in H
      | solve_blocked]
  | at_end _ _ = Some _ => apply at_end_Some in H; destruct H as [-> ->]
  end.

Lemma add_slash_shapes S G :
  find_groups handlers S = Some (AddSlashHandler, G) ->
  let gh := list_ascii_of_string "/github/" in
  (exists u, S = gh ++ u /\ G = [u] /\ u <> [] /\ all_in Word u) \/
  (exists u r, S = gh ++ u ++ "/"%char :: r /\ G = [u; r] /\
               u <> [] /\ all_in Word u /\ r <> [] /\ all_in Word r) \/
  (exists u r f, S = gh ++ u ++ "/"%char :: r ++ list_ascii_of_string "/tree/" ++ f /\
                 G = [u; r; f] /\ u <> [] /\ all_in Word u /\
                 r <> [] /\ all_in NotSlash r /\ f <> [] /\ all_in NotSlash f).
Proof.
  intros H gh. subst gh. unfold handlers in H. cbn [find_groups] in H.
  repeat match type of H with
  | match ?m with Some _ => _ | None => _ end = Some _ =>
      let Hm := fresh "Hm" in
      destruct m eqn:Hm; [first [discriminate H | injection H as ->] | clear Hm]
  end.
  all: try discriminate.
  all: match goal with Hm : rmatch _ _ _ _ = Some _ |- _ => inv_route Hm end.
  all: rewrite app_nil_r; cbn [app list_ascii_of_string].
  - left. eexists. repeat split; eauto.
  - right. left. do 2 eexists. repeat split; eauto.
  - right. right. do 3 eexists. repeat split; eauto.
Qed.

(** *** From characters back to strings *)

Lemma path_of_uri_app a b :
  path_of_uri a = a -> path_of_uri b = b -> path_of_uri (a +:+ b) = a +:+ b.
Proof.
  intros Ha Hb. induction a as [|c a IH]; [exact Hb|].
  change (String c a +:+ b) with (String c (a +:+ b)).
  cbn [path_of_uri] in Ha |- *.
  destruct (Ascii.eqb c "?"); [discriminate Ha|].
  injection Ha as Ha. by rewrite (IH Ha).
Qed.

Lemma endswith_app a b : endswith (a +:+ b) b = true.
Proof.
  induction a as [|c a IH].
  - change ("" +:+ b) with b. destruct b; cbn [endswith]; by rewrite String.eqb_refl.
  - change (String c a +:+ b) with (String c (a +:+ b)).
    cbn [endswith]. destruct (String.eqb _ b); [done|exact IH].
Qed.

Lemma word_no_query u :
  all_in Word u -> path_of_uri (string_of_list_ascii u) = string_of_list_ascii u.
Proof.
  intros Hu. induction Hu as [|c u Hc Hu IH]; [done|].
  cbn [string_of_list_ascii path_of_uri].
  destruct (Ascii.eqb_spec c "?") as [->|_]; [discriminate Hc|]. by rewrite IH.
Qed.

Lemma all_in_forallb cl u : all_in cl u -> forallb (in_class cl) u = true.
Proof.
  intros Hu. induction Hu as [|c u Hc Hu IH]; [done|].
  cbn [forallb]. by rewrite Hc, IH.
Qed.

Lemma route_groups uri :
  path_of_uri uri = uri ->
  route uri
  = option_map (fun hg => (fst hg, map string_of_list_ascii (snd hg)))
      (find_groups handlers (list_ascii_of_string uri)).
Proof. intros Hp. unfold route. rewrite Hp. apply find_handler_groups. Qed.

Lemma route_groups_inv uri h gs :
  path_of_uri uri = uri ->
  route uri = Some (h, gs) ->
  exists G, find_groups handlers (list_ascii_of_string uri) = Some (h, G)
            /\ gs = map string_of_list_ascii G.
Proof.
  intros Hp. rewrite route_groups by done.
  destruct (find_groups handlers _) as [[h' G]|]; [|done].
  cbn. intros [= -> <-]. eauto.
Qed.


Lemma endswith_app_r a b suffix :
  endswith b suffix = true -> endswith (a +:+ b) suffix = true.
Proof.
  intros Hb. induction a as [|c a IH]; [exact Hb|].
  change (String c a +:+ b) with (String c (a +:+ b)).
  cbn [endswith]. destruct (String.eqb _ suffix); [done|exact IH].
Qed.

(** On a path that ends in a slash the tree handler does not redirect for
    a slash: after a cache miss its next call is to the provider. *)
Lemma tree_handler_asks_provider E' now' c' target (g1 g2 g3 g4 : string) args' :
  route target = Some (GitHubTreeHandler, [g1; g2; g3; g4]) ->
  endswith target "/" = true ->
  mapM (unquote E') [g1; g2; g3; g4] = Some args' ->
  store_get now' c' target = None ->
  exists ev, calls (serve E' now' c' target) !! 1%nat = Some ev
             /\ is_provider ev = true.
Proof.
  intros Hrt Hends Hargs' Hmiss.
  unfold serve. rewrite Hrt, Hargs'.
  cbn in Hargs'.
  repeat match type of Hargs' with
  | context [unquote E' ?s] => destruct (unquote E' s); cbn in Hargs'; [|discriminate]
  end.
  injection Hargs' as <-. cbn [call_get].
  open_run Hrun. rewrite Hmiss in Hrun.
  assert (Hslash : negb (endswith target "/") = false) by (by rewrite Hends).
  exec_split Hrun.
  all: cbn; eexists; split; reflexivity.
Qed.

(** C7, as the code has it.  A request whose URI is a path (no query
    string) matching a collection route without a trailing slash (user
    root, repository root, tree root: the routes of [AddSlashHandler]) is
    answered with a redirect to the same path with a slash appended.  The
    target is a path that ends in a slash and is not slash-redirected
    again:
    - for a user root it is routed to [GitHubUserHandler], which never
      redirects;
    - for a tree root it is routed to [GitHubTreeHandler], which on a cache
      miss goes on to ask the provider;
    - for a repository root it is routed to [GitHubRepoHandler], which
      redirects once more, to [/github/<user>/<repo>/tree/master/], a path
      that [GitHubTreeHandler] serves in the same way.
    The unquoting of matched groups is assumed to leave strings of word
    characters as they are. *)
Theorem add_slash_redirect
    (E : Env) (now : Q) (c : store) (uri : string) (gs args : list string) :
  path_of_uri uri = uri ->
  route uri = Some (AddSlashHandler, gs) ->
  mapM (unquote E) gs = Some args ->
  (forall s, forallb (in_class Word) (list_ascii_of_string s) = true ->
             unquote E s = Some s) ->
  let target := uri +:+ "/" in
  (status (resp (serve E now c uri)) = 302 /\
   headers (resp (serve E now c uri)) !! "Location" = Some target) /\
  path_of_uri target = target /\
  endswith target "/" = true /\
  ((exists user,
      gs = [user] /\
      route target = Some (GitHubUserHandler, [user]) /\
      forall E' now' c', status (resp (serve E' now' c' target)) <> 302) \/
   (exists user repo,
      gs = [user; repo] /\
      route target = Some (GitHubRepoHandler, [user; repo]) /\
      let target2 := "/github/" +:+ user +:+ "/" +:+ repo +:+ "/tree/master/" in
      status (resp (serve E now c target)) = 302 /\
      headers (resp (serve E now c target)) !! "Location" = Some target2 /\
      route target2 = Some (GitHubTreeHandler, [user; repo; "master"; ""]) /\
      forall E' now' c' args',
        mapM (unquote E') [user; repo; "master"; ""] = Some args' ->
        store_get now' c' target2 = None ->
        exists ev, calls (serve E' now' c' target2) !! 1%nat = Some ev
                   /\ is_provider ev = true) \/
   (exists user repo ref,
      gs = [user; repo; ref] /\
      route target = Some (GitHubTreeHandler, [user; repo; ref; ""]) /\
      forall E' now' c' args',
        mapM (unquote E') [user; repo; ref; ""] = Some args' ->
        store_get now' c' target = None ->
        exists ev, calls (serve E' now' c' target) !! 1%nat = Some ev
                   /\ is_provider ev = true)).
Proof.
  intros Hpath Hroute Hargs Hword target.
  assert (Htarget : path_of_uri target = target) by (by apply path_of_uri_app).
  split.
  { unfold serve. rewrite Hroute, Hargs. cbn [call_get].
    destruct args as [|? [|? [|? [|? [|? ?]]]]]; cbn.
    all: split; [reflexivity|by rewrite lookup_insert_eq]. }
  split; [exact Htarget|]. split; [apply endswith_app|].
  destruct (route_groups_inv _ _ _ Hpath Hroute) as (G & HG & ->).
  apply add_slash_shapes in HG.
  assert (HT : list_ascii_of_string target
               = list_ascii_of_string uri ++ ["/"%char])
    by (unfold target; by rewrite list_ascii_of_string_app).
  destruct HG as [(u & HS & -> & Hune & Hu)
                 |[(u & r & HS & -> & Hune & Hu & Hrne & Hr)
                  |(u & r & f & HS & -> & Hune & Hu & Hrne & Hr & Hfne & Hf)]].
  - left. exists (string_of_list_ascii u). split; [reflexivity|].
    assert (Hrt : route target = Some (GitHubUserHandler, [string_of_list_ascii u])).
    { rewrite route_groups by done. rewrite HT, HS, <- !app_assoc.
      by rewrite user_root_target. }
    split; [exact Hrt|].
    intros E' now' c'. unfold serve. rewrite Hrt.
    destruct (mapM (unquote E') _) as [args'|]; [|cbn; discriminate].
    destruct args' as [|? [|? ?]]; cbn [call_get].
    all: open_run Hrun; exec_split Hrun.
    all: cbn [resp status send_error].
    all: repeat match goal with
         | H : py_iter _ = inl _ |- _ => apply py_iter_raises in H; rewrite H
         | H : traverse repo_entry_of _ = inl _ |- _ =>
             apply (traverse_raises _ _ _ repo_entry_of_raises) in H; rewrite H
         end.
    all: cbn; discriminate.
  - right. left. exists (string_of_list_ascii u), (string_of_list_ascii r).
    split; [reflexivity|].
    assert (Hrt : route target
                  = Some (GitHubRepoHandler,
                          [string_of_list_ascii u; string_of_list_ascii r])).
    { rewrite route_groups by done. rewrite HT, HS, <- !app_assoc.
      cbn [app]. by rewrite repo_root_target. }
    split; [exact Hrt|].
    assert (Hunq : mapM (unquote E) [string_of_list_ascii u; string_of_list_ascii r]
                   = Some [string_of_list_ascii u; string_of_list_ascii r]).
    { cbn. rewrite !Hword; [done|..];
        rewrite list_ascii_of_string_of_list_ascii; by apply all_in_forallb. }
    intros target2.
    assert (Hrt2 : route target2
                   = Some (GitHubTreeHandler,
                           [string_of_list_ascii u; string_of_list_ascii r;
                            "master"; ""])).
    2: { split; [unfold serve; rewrite Hrt, Hunq; reflexivity|].
         split; [unfold serve; rewrite Hrt, Hunq; cbn; by rewrite lookup_insert_eq|].
         split; [exact Hrt2|].
         intros E' now' c' args'.
         apply tree_handler_asks_provider; [exact Hrt2|].
         unfold target2. by do 4 apply endswith_app_r. }
    + assert (Hp2 : path_of_uri target2 = target2).
      { unfold target2. repeat apply path_of_uri_app;
          first [reflexivity | by apply word_no_query]. }
      rewrite route_groups by done.
      unfold target2. rewrite !list_ascii_of_string_app.
      rewrite !list_ascii_of_string_of_list_ascii.
      change (list_ascii_of_string "/tree/master/")
        with (list_ascii_of_string "/tree/" ++ list_ascii_of_string "master" ++ ["/"%char]).
      cbn [list_ascii_of_string app].
      assert (Hmaster : all_in NotSlash (list_ascii_of_string "master"))
        by (repeat constructor).
      pose proof (tree_root_target u r (list_ascii_of_string "master")
                    Hu Hune Hrne (word_not_slash r Hr) Hmaster ltac:(discriminate))
        as Hev.
      cbn [list_ascii_of_string app] in Hev.
      rewrite Hev. reflexivity.
  - right. right.
    exists (string_of_list_ascii u), (string_of_list_ascii r), (string_of_list_ascii f).
    split; [reflexivity|].
    assert (Hrt : route target
                  = Some (GitHubTreeHandler,
                          [string_of_list_ascii u; string_of_list_ascii r;
                           string_of_list_ascii f; ""])).
    { rewrite route_groups by done. rewrite HT, HS, <- !app_assoc.
      cbn [app]. rewrite <- !app_assoc. by rewrite tree_root_target. }
    split; [exact Hrt|].
    intros E' now' c' args'.
    apply tree_handler_asks_provider; [exact Hrt|apply endswith_app].
Qed.

(** *** The groups of a match *)

Section Groups.
Local Open Scope list_scope.

Lemma star_k_continues cl s g k G :
  star_k cl s g k = Some G ->
  exists p rest, s = p ++ rest /\ all_in cl p /\ k rest g = Some G.
Proof.
  induction s as [|c s IH]; cbn [star_k].
  - intros H. exists [], []. repeat split; [constructor|done].
  - destruct (in_class cl c) eqn:Hc.
    + destruct (star_k cl s g k) eqn:Hs.
      * intros [= <-]. destruct (IH eq_refl) as (p & rest & -> & Hp & Hk).
        exists (c :: p), rest. repeat split; [by constructor|done].
      * intros H. exists [], (c :: s). repeat split; [constructor|done].
    + intros H. exists [], (c :: s). repeat split; [constructor|done].
Qed.

(** A successful match hands the continuation a suffix of the text and as
    many new groups as the pattern holds. *)
Lemma rmatch_continues r :
  uniform r = true ->
  forall s g k G,
    rmatch r s g k = Some G ->
    exists p rest gs, s = p ++ rest /\ length gs = ngroups r
                      /\ k rest (g ++ gs) = Some G.
Proof.
  induction r as [l|cl|cl|cl|cl|r1 IH1 r2 IH2|r IH|r1 IH1 r2 IH2];
    intros Hu s g k G; cbn [rmatch ngroups].
  - destruct (strip_prefix _ s) as [rest|] eqn:Hp; [|done].
    intros Hk. apply strip_prefix_Some in Hp.
    exists (list_ascii_of_string l), rest, []. by rewrite app_nil_r.
  - destruct s as [|c s]; [done|]. destruct (in_class cl c); [|done].
    intros Hk. exists [c], s, []. by rewrite app_nil_r.
  - destruct s as [|c s]; [done|]. destruct (in_class cl c); [|done].
    intros Hk. apply star_k_continues in Hk as (p & rest & -> & _ & Hk).
    exists (c :: p), rest, []. by rewrite app_nil_r.
  - intros Hk. apply star_k_continues in Hk as (p & rest & -> & _ & Hk).
    exists p, rest, []. by rewrite app_nil_r.
  - assert (Hsame : forall G', k s g = Some G' ->
              exists p rest gs, s = p ++ rest /\ length gs = 0%nat
                                /\ k rest (g ++ gs) = Some G').
    { intros G' HG'. exists [], s, []. by rewrite app_nil_r. }
    destruct s as [|c s]; [apply Hsame|].
    destruct (in_class cl c); [|apply Hsame].
    destruct (k s g) eqn:Hk; [|apply Hsame].
    intros [= <-]. exists [c], s, []. by rewrite app_nil_r.
  - cbn [uniform] in Hu. apply andb_prop in Hu as [Hu Hu2].
    apply andb_prop in Hu as [Hn Hu1]. apply Nat.eqb_eq in Hn.
    destruct (rmatch r1 s g k) eqn:H1.
    + intros [= <-]. by apply IH1.
    + intros H2. rewrite Hn. by apply IH2.
  - cbn [uniform] in Hu. intros Hk.
    apply IH in Hk as (p & rest & gs & -> & Hlen & Hk); [|done].
    exists p, rest, (gs ++ [take (length (p ++ rest) - length rest) (p ++ rest)]).
    split; [done|]. split; [rewrite length_app; cbn; lia|].
    by rewrite app_assoc.
  - cbn [uniform] in Hu. apply andb_prop in Hu as [Hu1 Hu2]. intros Hk.
    apply IH1 in Hk as (p1 & rest1 & gs1 & -> & Hlen1 & Hk); [|done].
    apply IH2 in Hk as (p2 & rest2 & gs2 & -> & Hlen2 & Hk); [|done].
    exists (p1 ++ p2), rest2, (gs1 ++ gs2).
    split; [by rewrite app_assoc|]. split; [rewrite length_app; lia|].
    by rewrite app_assoc.
Qed.

Lemma url_match_groups r path gs :
  uniform r = true -> url_match r path = Some gs -> length gs = ngroups r.
Proof.
  intros Hu. unfold url_match.
  destruct (rmatch r _ [] at_end) as [G|] eqn:Hm; [|done].
  cbn. intros [= <-]. rewrite length_map.
  apply (rmatch_continues r Hu) in Hm as (p & rest & gs & _ & Hlen & Hk).
  apply at_end_Some in Hk as [_ ->]. done.
Qed.

Lemma find_handler_spec specs path h gs :
  find_handler specs path = Some (h, gs) ->
  exists r, In (r, h) specs /\ url_match r path = Some gs.
Proof.
  induction specs as [|[r h'] specs IH]; [done|]. cbn [find_handler].
  destruct (url_match r path) as [g|] eqn:Hm.
  - intros [= <- <-]. exists r. split; [by left|done].
  - intros H. destruct (IH H) as (r' & Hin & Hr'). exists r'. split; [by right|done].
Qed.

Lemma route_accepts uri h gs :
  route uri = Some (h, gs) -> accepts h (length gs) = true.
Proof.
  intros H. apply find_handler_spec in H as (r & Hin & Hm).
  assert (Hall : forallb (fun rh => uniform (fst rh) && accepts (snd rh) (ngroups (fst rh)))
                   handlers = true) by (vm_compute; reflexivity).
  rewrite forallb_forall in Hall. specialize (Hall _ Hin). cbn in Hall.
  apply andb_prop in Hall as [Hu Ha].
  by rewrite (url_match_groups r _ _ Hu Hm).
Qed.

Lemma mapM_length {A B} (f : A -> option B) l l' :
  mapM f l = Some l' -> length l' = length l.
Proof.
  revert l'. induction l as [|a l IH]; intros l'; cbn.
  - by intros [= <-].
  - destruct (f a); [|done]. cbn.
    destruct (mapM f l) eqn:Hm; [|done]. cbn. intros [= <-].
    cbn. by rewrite (IH _ eq_refl).
Qed.

Lemma call_get_rejects E uri now h args :
  accepts h (length args) = false -> call_get E uri now h args = raise TypeError.
Proof.
  destruct h; destruct args as [|? [|? [|? [|? [|? ?]]]]]; cbn; done.
Qed.

(** X5.  Every route supplies a number of groups that the [get] of its
    handler class accepts, so that the call of [get] never fails on the
    number of arguments: none for the index and FAQ pages, one for a user,
    two for a raw URL or a repository, three for a raw GitHub URL, four for
    the GitHub redirect, blob, tree and slash-stripping routes, one or two
    for the gist routes, one to three for the slash-adding routes. *)
Theorem route_supplies_accepted_arguments
    (E : Env) (now : Q) (uri : string) (h : handler_class) (gs args : list string) :
  route uri = Some (h, gs) ->
  mapM (unquote E) gs = Some args ->
  accepts h (length args) = true /\
  match h with
  | IndexHandler | FAQHandler => length args = 0
  | GitHubUserHandler => length args = 1
  | URLHandler | GitHubRepoHandler => length args = 2
  | RawGitHubURLHandler => length args = 3
  | GitHubRedirectHandler | GitHubBlobHandler | GitHubTreeHandler => length args = 4
  | GistHandler | GistRedirectHandler => length args = 1 \/ length args = 2
  | AddSlashHandler => 1 <= length args <= 3
  | RemoveSlashHandler => length args = 4
  end%nat.
Proof.
  intros Hroute Hargs. rewrite (mapM_length _ _ _ Hargs).
  split; [by apply (route_accepts uri)|].
  apply find_handler_spec in Hroute as (r & Hin & Hm).
  assert (Hu : forallb (fun rh => uniform (fst rh)) handlers = true)
    by (vm_compute; reflexivity).
  rewrite forallb_forall in Hu. specialize (Hu _ Hin). cbn in Hu.
  rewrite (url_match_groups r _ _ Hu Hm).
  unfold handlers in Hin. cbn [In] in Hin.
  repeat (destruct Hin as [Hin|Hin]; [injection Hin as <- <-; cbn; lia|]).
  destruct Hin.
Qed.
End Groups.

(** *** The trailing group, segments at the end of the path *)

Lemma all_in_drop_while cl p : all_in cl p -> drop_while cl p = [].
Proof.
  intros Hp. induction Hp as [|c p Hc Hp IH]; [done|]. cbn [drop_while]. by rewrite Hc.
Qed.

Lemma all_in_take_while cl p : all_in cl p -> take_while cl p = p.
Proof.
  intros Hp. induction Hp as [|c p Hc Hp IH]; [done|]. cbn [take_while].
  by rewrite Hc, IH.
Qed.

Lemma rmatch_tail p g : all_in Dot p -> rmatch tail p g at_end = Some (g ++ [p]).
Proof.
  intros Hp. unfold tail. cbn [rmatch].
  rewrite star_k_blocked by (intros c s g' _; reflexivity).
  rewrite (all_in_drop_while _ _ Hp). cbn [at_end length].
  by rewrite Nat.sub_0_r, firstn_all.
Qed.

Lemma rmatch_tail_inv s g G :
  rmatch tail s g at_end = Some G -> all_in Dot s /\ G = g ++ [s].
Proof.
  unfold tail. cbn [rmatch]. intros H.
  apply star_k_continues in H. destruct H as (p & rest & -> & Hp & H).
  apply at_end_Some in H. destruct H as [-> ->].
  rewrite app_nil_r. cbn [length]. by rewrite Nat.sub_0_r, firstn_all.
Qed.

Lemma rmatch_tail_slash_inv s g G :
  rmatch tail s g (fun rest g' => rmatch (Lit "/") rest g' at_end) = Some G ->
  exists p, s = p ++ ["/"%char] /\ all_in Dot p /\ G = g ++ [p].
Proof.
  unfold tail. cbn [rmatch]. intros H.
  apply star_k_continues in H. destruct H as (p & rest & -> & Hp & H).
  destruct (strip_prefix _ rest) as [rest'|] eqn:Hrest; [|discriminate H].
  apply strip_prefix_Some in Hrest. subst rest.
  apply at_end_Some in H. destruct H as [-> ->].
  exists p. split; [done|]. split; [done|].
  cbn [list_ascii_of_string app]. rewrite length_app. cbn [length].
  replace (length p + 1 - 0 - 1)%nat with (length p) by lia.
  replace (length p + 1 - 1)%nat with (length p) by lia.
  by rewrite take_app_length.
Qed.

Lemma rmatch_seg_end cl u g :
  u <> [] -> all_in cl u -> rmatch (Cap (Plus cl)) u g at_end = Some (g ++ [u]).
Proof.
  intros Hne Hu. rewrite <- (app_nil_r u) at 1.
  rewrite rmatch_seg; [done|apply blocked_at_end|done|done|exact I].
Qed.

Lemma rmatch_seg_stop cl c s g k :
  in_class cl c = false -> rmatch (Cap (Plus cl)) (c :: s) g k = None.
Proof. intros Hc. cbn [rmatch]. by rewrite Hc. Qed.

Lemma hex_word u : all_in Hex u -> all_in Word u.
Proof.
  intros Hu. induction Hu as [|c u Hc Hu IH]; constructor; [|exact IH].
  cbn [in_class] in *.
  apply orb_true_iff in Hc. destruct Hc as [Hc|Hc].
  - apply orb_true_iff in Hc. destruct Hc as [Hc|Hc].
    + by rewrite Hc.
    + unfold is_upper, between in *. apply andb_true_iff in Hc. destruct Hc as [H1 H2].
      apply N.leb_le in H1, H2.
      assert (H3 : (N_of_ascii c <=? 90)%N = true) by (apply N.leb_le; lia).
      assert (H4 : (65 <=? N_of_ascii c)%N = true) by (apply N.leb_le; lia).
      rewrite H3, H4. cbn. by rewrite !orb_true_r.
  - unfold is_lower, between in *. apply andb_true_iff in Hc. destruct Hc as [H1 H2].
    apply N.leb_le in H1, H2.
    assert (H3 : (N_of_ascii c <=? 122)%N = true) by (apply N.leb_le; lia).
    assert (H4 : (97 <=? N_of_ascii c)%N = true) by (apply N.leb_le; lia).
    rewrite H3, H4. cbn. by rewrite !orb_true_r.
Qed.

Lemma rmatch_hex_seg u rest g k :
  blocked Hex k -> u <> [] -> all_in Hex u -> stops Hex rest ->
  rmatch hex_seg (u ++ rest) g k = k rest (g ++ [u]).
Proof. apply rmatch_seg. Qed.

Ltac seg_step2 :=
  first [ rewrite rmatch_word_seg by first [solve_blocked | solve_stops | assumption]
        | rewrite rmatch_slash_seg by first [solve_blocked | solve_stops | assumption]
        | rewrite rmatch_hex_seg by first [solve_blocked | solve_stops | assumption]
        | rewrite rmatch_tail by assumption ].

Ltac eval_route2 := repeat (lit_step; try seg_step2); try reflexivity.

Ltac inv_groups H :=
  cbn [rmatch] in H; unfold word_seg, seg, hex_seg in H;
  repeat match type of H with
  | match strip_prefix ?l ?s with _ => _ end = Some _ =>
      let Hp := fresh "Hp" in
      destruct (strip_prefix l s) eqn:Hp;
      [apply strip_prefix_Some in Hp; subst|discriminate H]
  | rmatch (Cap (Plus _)) _ _ _ = Some _ =>
      apply rmatch_seg_inv in H;
      [let H2 := fresh "Hk" in
       destruct H as (? & ? & -> & ? & ? & ? & H2); rename H2 into H; cbn beta in H
      | solve_blocked]
  | rmatch tail _ _ at_end = Some _ =>
      apply rmatch_tail_inv in H; destruct H as [? ->]
  | rmatch tail _ _ _ = Some _ =>
      apply rmatch_tail_slash_inv in H; destruct H as (? & -> & ? & ->)
  | at_end _ _ = Some _ => apply at_end_Some in H; destruct H as [-> ->]
  end.

(** Split [find_groups] on the specs in turn, keeping the matches of the
    handler class in question. *)
Ltac split_specs H :=
  unfold handlers in H; cbn [find_groups] in H;
  repeat match type of H with
  | match ?m with Some _ => _ | None => _ end = Some _ =>
      let Hm := fresh "Hm" in
      destruct m eqn:Hm; [first [discriminate H | injection H as ->] | clear Hm]
  end;
  try discriminate.

(** *** Gist redirects *)

Lemma gist_redirect_shapes S G :
  find_groups handlers S = Some (GistRedirectHandler, G) ->
  (exists u, S = "/"%char :: u /\ G = [u] /\ u <> [] /\ all_in Hex u) \/
  (exists u f, S = "/"%char :: u ++ "/"%char :: f /\ G = [u; f] /\
               u <> [] /\ all_in Hex u /\ all_in Dot f).
Proof.
  intros H. split_specs H.
  all: match goal with Hm : rmatch _ _ _ _ = Some _ |- _ => inv_groups Hm end.
  all: cbn [app list_ascii_of_string].
  - left. eexists. rewrite app_nil_r. repeat split; eauto.
  - right. do 2 eexists. repeat split; eauto.
Qed.

Lemma gist_target u :
  all_in Hex u -> u <> [] ->
  find_groups handlers (list_ascii_of_string "/gist/" ++ u) = Some (GistHandler, [u]).
Proof.
  intros Hu Hne. unfold handlers. cbn [find_groups].
  do 14 next_none eval_route2.
  next_some [u] ltac:(lit_step; unfold hex_seg; by rewrite rmatch_seg_end).
  reflexivity.
Qed.

Lemma gist_file_target u f :
  all_in Hex u -> u <> [] -> all_in Dot f ->
  find_groups handlers (list_ascii_of_string "/gist/" ++ u ++ "/"%char :: f)
  = Some (GistHandler, [u; f]).
Proof.
  intros Hu Hne Hf. unfold handlers. cbn [find_groups].
  do 14 next_none eval_route2.
  next_none ltac:(lit_step; unfold hex_seg; rewrite rmatch_seg;
                  [reflexivity|apply blocked_at_end|done|done|reflexivity]).
  next_some [u; f] eval_route2.
  reflexivity.
Qed.

(** *** Paths hold no question mark *)

Lemma path_of_uri_no_query uri :
  Forall (fun c => c <> "?"%char) (list_ascii_of_string (path_of_uri uri)).
Proof.
  induction uri as [|c uri IH]; [constructor|]. cbn [path_of_uri].
  destruct (Ascii.eqb_spec c "?"); [constructor|].
  cbn [list_ascii_of_string]. by constructor.
Qed.

Lemma no_query_path l :
  Forall (fun c => c <> "?"%char) l ->
  path_of_uri (string_of_list_ascii l) = string_of_list_ascii l.
Proof.
  intros Hl. induction Hl as [|c l Hc Hl IH]; [done|].
  cbn [string_of_list_ascii path_of_uri].
  destruct (Ascii.eqb_spec c "?"); [done|]. by rewrite IH.
Qed.

Lemma route_find_groups uri h gs :
  route uri = Some (h, gs) ->
  exists G, find_groups handlers (list_ascii_of_string (path_of_uri uri)) = Some (h, G)
            /\ gs = map string_of_list_ascii G.
Proof.
  unfold route. rewrite find_handler_groups.
  destruct (find_groups handlers _) as [[h' G]|]; [|done].
  cbn. intros [= -> <-]. eauto.
Qed.

Lemma truthy_cons c l : truthy (string_of_list_ascii (c :: l)) = true.
Proof. reflexivity. Qed.

Lemma redirect_response E now c uri h gs args target :
  route uri = Some (h, gs) ->
  mapM (unquote E) gs = Some args ->
  call_get E uri now h args = redirect target ->
  resp (serve E now c uri) = mkResponse 302 (<["Location" := target]> default_headers) "" /\
  calls (serve E now c uri) = [] /\
  cache (serve E now c uri) = c.
Proof.
  intros Hroute Hargs Hget. unfold serve. rewrite Hroute, Hargs, Hget.
  repeat split; reflexivity.
Qed.

(** X12.  A request routed to [GistRedirectHandler] (a path [/<hex>] or
    [/<hex>/<file>]) is answered with a redirect to [/gist/<hex>], or to
    [/gist/<hex>/<file>] when the file part is not empty, without any call
    to the cache or to the provider.  The query string of the request is
    dropped.  The target is routed to [GistHandler] with the same gist id
    and file.  The unquoting of the matched groups is assumed to leave them
    as they are. *)
Theorem gist_redirect_round_trip
    (E : Env) (now : Q) (c : store) (uri : string) (gs : list string) :
  route uri = Some (GistRedirectHandler, gs) ->
  mapM (unquote E) gs = Some gs ->
  exists gist_id file,
    (gs = [gist_id] /\ file = "" \/ gs = [gist_id; file]) /\
    let target := if truthy file then "/gist/" +:+ gist_id +:+ "/" +:+ file
                  else "/gist/" +:+ gist_id in
    let st := serve E now c uri in
    resp st = mkResponse 302 (<["Location" := target]> default_headers) "" /\
    calls st = [] /\
    cache st = c /\
    route target = Some (GistHandler, if truthy file then [gist_id; file] else [gist_id]).
Proof.
  intros Hroute Hargs.
  destruct (route_find_groups _ _ _ Hroute) as (G & HG & ->).
  pose proof (path_of_uri_no_query uri) as Hnq.
  apply gist_redirect_shapes in HG.
  assert (Hid : forall u, all_in Hex u -> u <> [] ->
            route ("/gist/" +:+ string_of_list_ascii u)
            = Some (GistHandler, [string_of_list_ascii u])).
  { intros u Hu Hne. rewrite route_groups.
    - rewrite list_ascii_of_string_app, list_ascii_of_string_of_list_ascii.
      by rewrite gist_target.
    - apply path_of_uri_app; [reflexivity|]. by apply word_no_query, hex_word. }
  destruct HG as [(u & HS & -> & Hne & Hu)|(u & f & HS & -> & Hne & Hu & Hf)].
  - exists (string_of_list_ascii u), "". split; [by left|].
    cbn [truthy String.eqb negb]. cbv zeta.
    destruct (redirect_response E now c uri _ _ _ ("/gist/" +:+ string_of_list_ascii u)
                Hroute Hargs ltac:(reflexivity)) as (Hr & Hc & Hca).
    repeat split; [assumption..|by apply Hid].
  - exists (string_of_list_ascii u), (string_of_list_ascii f). split; [by right|].
    destruct f as [|x f].
    + cbn [string_of_list_ascii truthy String.eqb negb]. cbv zeta.
      destruct (redirect_response E now c uri _ _ _ ("/gist/" +:+ string_of_list_ascii u)
                  Hroute Hargs ltac:(reflexivity)) as (Hr & Hc & Hca).
      repeat split; [assumption..|by apply Hid].
    + rewrite truthy_cons. cbv zeta.
      destruct (redirect_response E now c uri _ _ _
                  ("/gist/" +:+ string_of_list_ascii u +:+ "/"
                     +:+ string_of_list_ascii (x :: f))
                  Hroute Hargs ltac:(reflexivity)) as (Hr & Hc & Hca).
      repeat split; [assumption..|].
      rewrite HS in Hnq. inversion Hnq as [|? ? _ Hnq']; subst.
      apply Forall_app in Hnq'. destruct Hnq' as [_ Hnq']. inversion Hnq'; subst.
      rewrite route_groups.
      * rewrite !list_ascii_of_string_app, !list_ascii_of_string_of_list_ascii.
        cbn [list_ascii_of_string app].
        change ("/"%char :: "g"%char :: "i"%char :: "s"%char :: "t"%char :: "/"%char
                  :: u ++ "/"%char :: x :: f)
          with (list_ascii_of_string "/gist/" ++ u ++ "/"%char :: x :: f).
        by rewrite gist_file_target.
      * repeat apply path_of_uri_app; try reflexivity.
        -- by apply word_no_query, hex_word.
        -- by apply no_query_path.
Qed.

(** *** [rstrip] *)

Lemma append_nil_r (s : string) : s +:+ "" = s.
Proof.
  induction s as [|c s IH]; [done|].
  change (String c s +:+ "") with (String c (s +:+ "")). by rewrite IH.
Qed.

Lemma append_nil_inv (a b : string) : a +:+ b = "" -> a = "" /\ b = "".
Proof. destruct a; [done|discriminate]. Qed.

Lemma string_of_list_ascii_app (a b : list ascii) :
  string_of_list_ascii (a ++ b) = string_of_list_ascii a +:+ string_of_list_ascii b.
Proof.
  induction a as [|c a IH]; [done|].
  cbn [app string_of_list_ascii].
  change (String c (string_of_list_ascii a) +:+ string_of_list_ascii b)
    with (String c (string_of_list_ascii a +:+ string_of_list_ascii b)).
  by rewrite IH.
Qed.

Lemma rstrip_slash_snoc s : rstrip_slash (s +:+ "/") = rstrip_slash s.
Proof.
  induction s as [|c s IH]; [done|].
  change (String c s +:+ "/") with (String c (s +:+ "/")).
  cbn [rstrip_slash]. by rewrite IH.
Qed.

Lemma rstrip_slash_app a b :
  rstrip_slash b <> "" -> rstrip_slash (a +:+ b) = a +:+ rstrip_slash b.
Proof.
  intros Hb. induction a as [|c a IH]; [done|].
  change (String c a +:+ b) with (String c (a +:+ b)).
  change (String c a +:+ rstrip_slash b) with (String c (a +:+ rstrip_slash b)).
  cbn [rstrip_slash]. rewrite IH.
  destruct (String.eqb_spec (a +:+ rstrip_slash b) "") as [Hnil|_].
  - apply append_nil_inv in Hnil. tauto.
  - by rewrite andb_false_r.
Qed.

Lemma rstrip_slash_app_empty a b :
  rstrip_slash b = "" -> rstrip_slash (a +:+ b) = rstrip_slash a.
Proof.
  intros Hb. induction a as [|c a IH]; [done|].
  change (String c a +:+ b) with (String c (a +:+ b)).
  cbn [rstrip_slash]. by rewrite IH.
Qed.

Lemma rstrip_slash_not_slash f :
  all_in NotSlash f -> rstrip_slash (string_of_list_ascii f) = string_of_list_ascii f.
Proof.
  intros Hf. induction Hf as [|c f Hc Hf IH]; [done|].
  cbn [string_of_list_ascii rstrip_slash]. rewrite IH.
  cbn [in_class] in Hc. apply negb_true_iff in Hc. by rewrite Hc.
Qed.

Lemma rstrip_slash_no_trailing s q :
  list_ascii_of_string (rstrip_slash s) <> q ++ ["/"%char].
Proof.
  revert q. induction s as [|c s IH]; intros q.
  - destruct q; discriminate.
  - cbn [rstrip_slash].
    destruct (Ascii.eqb c slash && String.eqb (rstrip_slash s) "") eqn:Hcs.
    + destruct q; discriminate.
    + cbn [list_ascii_of_string]. destruct q as [|x q]; cbn [app].
      * intros [= -> Hr].
        destruct (rstrip_slash s); [discriminate Hcs|discriminate Hr].
      * intros [= _ Hr]. by apply (IH q).
Qed.

Lemma rstrip_slash_Forall (P : ascii -> Prop) s :
  Forall P (list_ascii_of_string s) ->
  Forall P (list_ascii_of_string (rstrip_slash s)).
Proof.
  induction s as [|c s IH]; [done|]. cbn [list_ascii_of_string rstrip_slash].
  intros Hs. inversion Hs; subst.
  destruct (Ascii.eqb c slash && String.eqb (rstrip_slash s) ""); [constructor|].
  cbn [list_ascii_of_string]. constructor; [done|]. by apply IH.
Qed.

Lemma rstrip_slash_path uri :
  path_of_uri uri = uri -> path_of_uri (rstrip_slash uri) = rstrip_slash uri.
Proof.
  intros Hp. rewrite <- (string_of_list_ascii_of_string (rstrip_slash uri)).
  apply no_query_path, rstrip_slash_Forall. rewrite <- Hp. apply path_of_uri_no_query.
Qed.

Lemma truthy_false s : truthy s = false -> s = "".
Proof.
  unfold truthy. destruct (String.eqb_spec s ""); [done|discriminate].
Qed.

Lemma truthy_true s : truthy s = true -> s <> "".
Proof. unfold truthy. intros H ->. discriminate H. Qed.

(** *** Blob paths with a trailing slash *)

Lemma remove_slash_shape S G :
  find_groups handlers S = Some (RemoveSlashHandler, G) ->
  exists u r f p,
    S = list_ascii_of_string "/github/" ++ u ++ "/"%char :: r
          ++ list_ascii_of_string "/blob/" ++ f ++ "/"%char :: p ++ ["/"%char] /\
    G = [u; r; f; p] /\
    u <> [] /\ all_in Word u /\ r <> [] /\ all_in NotSlash r /\
    f <> [] /\ all_in NotSlash f /\ all_in Dot p.
Proof.
  intros H. split_specs H.
  all: match goal with Hm : rmatch _ _ _ _ = Some _ |- _ => inv_groups Hm end.
  cbn [app list_ascii_of_string].
  do 4 eexists. repeat split; eauto.
Qed.

Section BlobTargets.
Variables u r f : text.
Hypothesis Hu : all_in Word u.
Hypothesis Hune : u <> [].
Hypothesis Hr : all_in NotSlash r.
Hypothesis Hrne : r <> [].
Hypothesis Hf : all_in NotSlash f.
Hypothesis Hfne : f <> [].

Lemma blob_target p :
  all_in Dot p -> (forall q, p <> q ++ ["/"%char]) ->
  find_groups handlers
    (list_ascii_of_string "/github/" ++ u ++ "/"%char :: r
       ++ list_ascii_of_string "/blob/" ++ f ++ "/"%char :: p)
  = Some (GitHubBlobHandler, [u; r; f; p]).
Proof.
  intros Hp Hlast.
  unfold handlers. cbn [find_groups].
  do 7 next_none eval_route.
  next_none ltac:(eval_route; by apply at_end_app).
  next_none ltac:(eval_route; apply word_seg_fail;
      [assumption|reflexivity|discriminate|solve_blocked|
       intros; apply at_end_app_cons]).
  next_none ltac:(eval_route; apply word_seg_fail;
      [assumption|reflexivity|discriminate|solve_blocked|]; slash_then_more).
  next_none ltac:(eval_route;
      match goal with |- ?m = None => destruct m eqn:Hm; [|reflexivity] end;
      apply rmatch_tail_slash_inv in Hm; destruct Hm as (q & Hq & _);
      by destruct (Hlast q)).
  next_some [u; r; f; p] eval_route2. reflexivity.
Qed.

Lemma blob_root_unrouted :
  find_groups handlers
    (list_ascii_of_string "/github/" ++ u ++ "/"%char :: r
       ++ list_ascii_of_string "/blob/" ++ f) = None.
Proof.
  unfold handlers. cbn [find_groups].
  do 7 next_none eval_route.
  next_none ltac:(eval_route; by apply at_end_app).
  next_none ltac:(eval_route; apply word_seg_fail;
      [assumption|reflexivity|discriminate|solve_blocked|
       intros; apply at_end_app_cons]).
  next_none ltac:(eval_route; apply word_seg_fail;
      [assumption|reflexivity|discriminate|solve_blocked|]; slash_then_more).
  do 2 next_none ltac:(eval_route; rewrite <- (app_nil_r f);
                       rewrite rmatch_slash_seg by first [solve_blocked|solve_stops|assumption];
                       reflexivity).
  do 4 next_none eval_route.
  do 2 next_none ltac:(lit_step; unfold hex_seg; by rewrite rmatch_seg_stop).
  reflexivity.
Qed.
End BlobTargets.

Lemma rstrip_slash_app_ne a b :
  rstrip_slash b <> "" ->
  rstrip_slash (a +:+ b) = a +:+ rstrip_slash b /\ rstrip_slash (a +:+ b) <> "".
Proof.
  intros Hb. rewrite rstrip_slash_app by done. split; [done|].
  intros Hnil. apply append_nil_inv in Hnil. tauto.
Qed.

Lemma string_of_list_ascii_nil l : string_of_list_ascii l = "" -> l = [].
Proof. destruct l; [done|discriminate]. Qed.

(** X13.  A request whose URI is a path (no query string) routed to
    [RemoveSlashHandler] has the form
    [/github/<user>/<repo>/blob/<ref>/<path>/] and is answered with a
    redirect to the URI without its trailing slashes, without any call to
    the cache or to the provider.  When [path] holds more than slashes, the
    target is [/github/<user>/<repo>/blob/<ref>/<path without trailing
    slashes>] and is routed to [GitHubBlobHandler] with that path.  When
    [path] is empty or holds only slashes, the slash after [ref] is stripped
    as well, and the target [/github/<user>/<repo>/blob/<ref>] matches no
    route. *)
Theorem remove_slash_redirect
    (E : Env) (now : Q) (c : store) (uri : string) (gs args : list string) :
  path_of_uri uri = uri ->
  route uri = Some (RemoveSlashHandler, gs) ->
  mapM (unquote E) gs = Some args ->
  exists user repo ref path,
    gs = [user; repo; ref; path] /\
    uri = "/github/" +:+ user +:+ "/" +:+ repo +:+ "/blob/" +:+ ref +:+ "/"
            +:+ path +:+ "/" /\
    let target := rstrip_slash uri in
    let st := serve E now c uri in
    resp st = mkResponse 302 (<["Location" := target]> default_headers) "" /\
    calls st = [] /\
    cache st = c /\
    if truthy (rstrip_slash path)
    then target = "/github/" +:+ user +:+ "/" +:+ repo +:+ "/blob/" +:+ ref +:+ "/"
                    +:+ rstrip_slash path /\
         route target = Some (GitHubBlobHandler, [user; repo; ref; rstrip_slash path])
    else target = "/github/" +:+ user +:+ "/" +:+ repo +:+ "/blob/" +:+ ref /\
         route target = None.
Proof.
  intros Hpath Hroute Hargs.
  destruct (route_groups_inv _ _ _ Hpath Hroute) as (G & HG & ->).
  apply remove_slash_shape in HG.
  destruct HG as (u & r & f & p & HS & -> & Hune & Hu & Hrne & Hr & Hfne & Hf & Hp).
  exists (string_of_list_ascii u), (string_of_list_ascii r),
         (string_of_list_ascii f), (string_of_list_ascii p).
  split; [reflexivity|].
  assert (Huri : uri = "/github/" +:+ string_of_list_ascii u +:+ "/"
                   +:+ string_of_list_ascii r +:+ "/blob/" +:+ string_of_list_ascii f
                   +:+ "/" +:+ string_of_list_ascii p +:+ "/").
  { rewrite <- (string_of_list_ascii_of_string uri), HS.
    repeat first [rewrite string_of_list_ascii_app
                 | progress cbn [string_of_list_ascii list_ascii_of_string]].
    reflexivity. }
  split; [exact Huri|]. cbv zeta.
  assert (Hget : call_get E uri now RemoveSlashHandler args = redirect (rstrip_slash uri))
    by (destruct args as [|? [|? [|? [|? [|? ?]]]]]; reflexivity).
  destruct (redirect_response E now c uri _ _ _ _ Hroute Hargs Hget) as (Hr1 & Hr2 & Hr3).
  split; [exact Hr1|]. split; [exact Hr2|]. split; [exact Hr3|].
  pose proof (rstrip_slash_path uri Hpath) as Htp.
  set (P := string_of_list_ascii p) in *.
  assert (HF : rstrip_slash (string_of_list_ascii f) = string_of_list_ascii f)
    by (by apply rstrip_slash_not_slash).
  assert (HFne : string_of_list_ascii f <> "")
    by (intros HF0; by apply string_of_list_ascii_nil in HF0).
  destruct (truthy (rstrip_slash P)) eqn:Htruthy.
  - apply truthy_true in Htruthy.
    assert (Htarget : rstrip_slash uri
                      = "/github/" +:+ string_of_list_ascii u +:+ "/"
                          +:+ string_of_list_ascii r +:+ "/blob/"
                          +:+ string_of_list_ascii f +:+ "/" +:+ rstrip_slash P).
    { rewrite Huri at 1.
      assert (Hne0 : rstrip_slash (P +:+ "/") <> "") by (by rewrite rstrip_slash_snoc).
      destruct (rstrip_slash_app_ne "/" _ Hne0) as [_ Hne1].
      destruct (rstrip_slash_app_ne (string_of_list_ascii f) _ Hne1) as [_ Hne2].
      destruct (rstrip_slash_app_ne "/blob/" _ Hne2) as [_ Hne3].
      destruct (rstrip_slash_app_ne (string_of_list_ascii r) _ Hne3) as [_ Hne4].
      destruct (rstrip_slash_app_ne "/" _ Hne4) as [_ Hne5].
      destruct (rstrip_slash_app_ne (string_of_list_ascii u) _ Hne5) as [_ Hne6].
      rewrite (rstrip_slash_app "/github/") by exact Hne6.
      rewrite (rstrip_slash_app (string_of_list_ascii u)) by exact Hne5.
      rewrite (rstrip_slash_app "/") by exact Hne4.
      rewrite (rstrip_slash_app (string_of_list_ascii r)) by exact Hne3.
      rewrite (rstrip_slash_app "/blob/") by exact Hne2.
      rewrite (rstrip_slash_app (string_of_list_ascii f)) by exact Hne1.
      rewrite (rstrip_slash_app "/") by exact Hne0.
      by rewrite rstrip_slash_snoc. }
    split; [exact Htarget|].
    rewrite route_groups by exact Htp. rewrite Htarget.
    rewrite !list_ascii_of_string_app, !list_ascii_of_string_of_list_ascii.
    match goal with
    | |- context [find_groups handlers ?X] =>
        change X with (list_ascii_of_string "/github/" ++ u ++ "/"%char :: r
                         ++ list_ascii_of_string "/blob/" ++ f
                         ++ "/"%char :: list_ascii_of_string (rstrip_slash P))
    end.
    rewrite (blob_target u r f Hu Hune Hr Hrne Hf Hfne).
    + cbn. by rewrite string_of_list_ascii_of_string.
    + apply rstrip_slash_Forall. unfold P.
      by rewrite list_ascii_of_string_of_list_ascii.
    + intros q. apply rstrip_slash_no_trailing.
  - apply truthy_false in Htruthy.
    assert (Htarget : rstrip_slash uri
                      = "/github/" +:+ string_of_list_ascii u +:+ "/"
                          +:+ string_of_list_ascii r +:+ "/blob/"
                          +:+ string_of_list_ascii f).
    { rewrite Huri at 1.
      assert (H1 : rstrip_slash ("/" +:+ P +:+ "/") = "").
      { rewrite (rstrip_slash_app_empty "/" (P +:+ "/")); [done|].
        by rewrite rstrip_slash_snoc. }
      assert (H2 : rstrip_slash (string_of_list_ascii f +:+ "/" +:+ P +:+ "/")
                   = string_of_list_ascii f)
        by (by rewrite rstrip_slash_app_empty).
      assert (Hne2 : rstrip_slash (string_of_list_ascii f +:+ "/" +:+ P +:+ "/") <> "")
        by (by rewrite H2).
      destruct (rstrip_slash_app_ne "/blob/" _ Hne2) as [_ Hne3].
      destruct (rstrip_slash_app_ne (string_of_list_ascii r) _ Hne3) as [_ Hne4].
      destruct (rstrip_slash_app_ne "/" _ Hne4) as [_ Hne5].
      destruct (rstrip_slash_app_ne (string_of_list_ascii u) _ Hne5) as [_ Hne6].
      rewrite (rstrip_slash_app "/github/") by exact Hne6.
      rewrite (rstrip_slash_app (string_of_list_ascii u)) by exact Hne5.
      rewrite (rstrip_slash_app "/") by exact Hne4.
      rewrite (rstrip_slash_app (string_of_list_ascii r)) by exact Hne3.
      rewrite (rstrip_slash_app "/blob/") by exact Hne2.
      by rewrite H2. }
    split; [exact Htarget|].
    rewrite route_groups by exact Htp. rewrite Htarget.
    rewrite !list_ascii_of_string_app, !list_ascii_of_string_of_list_ascii.
    match goal with
    | |- context [find_groups handlers ?X] =>
        change X with (list_ascii_of_string "/github/" ++ u ++ "/"%char :: r
                         ++ list_ascii_of_string "/blob/" ++ f)
    end.
    by rewrite (blob_root_unrouted u r f Hu Hune Hr Hrne Hf Hfne).
Qed.

(** *** Tree paths *)

Lemma tree_shape S G :
  find_groups handlers S = Some (GitHubTreeHandler, G) ->
  exists u r f p,
    S = list_ascii_of_string "/github/" ++ u ++ "/"%char :: r
          ++ list_ascii_of_string "/tree/" ++ f ++ "/"%char :: p /\
    G = [u; r; f; p] /\
    u <> [] /\ all_in Word u /\ r <> [] /\ all_in NotSlash r /\
    f <> [] /\ all_in NotSlash f /\ all_in Dot p.
Proof.
  intros H. split_specs H.
  all: match goal with Hm : rmatch _ _ _ _ = Some _ |- _ => inv_groups Hm end.
  cbn [app list_ascii_of_string].
  do 4 eexists. repeat split; eauto.
Qed.

Lemma tree_target u r f p :
  all_in Word u -> u <> [] -> all_in NotSlash r -> r <> [] ->
  all_in NotSlash f -> f <> [] -> all_in Dot p ->
  find_groups handlers
    (list_ascii_of_string "/github/" ++ u ++ "/"%char :: r
       ++ list_ascii_of_string "/tree/" ++ f ++ "/"%char :: p)
  = Some (GitHubTreeHandler, [u; r; f; p]).
Proof.
  intros Hu Hune Hr Hrne Hf Hfne Hp.
  unfold handlers. cbn [find_groups].
  do 7 next_none eval_route.
  next_none ltac:(eval_route; by apply at_end_app).
  next_none ltac:(eval_route; apply word_seg_fail;
      [assumption|reflexivity|discriminate|solve_blocked|
       intros; apply at_end_app_cons]).
  next_none ltac:(eval_route; apply word_seg_fail;
      [assumption|reflexivity|discriminate|solve_blocked|]; slash_then_more).
  do 3 next_none eval_route.
  next_some [u; r; f; p] eval_route2. reflexivity.
Qed.

(** X14.  A request whose URI is a path (no query string) without a
    trailing slash, routed to [GitHubTreeHandler], is answered on a cache
    miss with a redirect to the URI with a slash appended; the only call is
    the cache lookup, and nothing is stored.  The target is routed to
    [GitHubTreeHandler] again, with the same user, repository and ref and
    with the path followed by a slash; stripping gives the same provider
    path, and on a cache miss the target goes on to ask the provider. *)
Theorem tree_slash_redirect
    (E : Env) (now : Q) (c : store) (uri : string) (gs args : list string) :
  path_of_uri uri = uri ->
  route uri = Some (GitHubTreeHandler, gs) ->
  mapM (unquote E) gs = Some args ->
  endswith uri "/" = false ->
  store_get now c uri = None ->
  let target := uri +:+ "/" in
  let st := serve E now c uri in
  resp st = mkResponse 302 (<["Location" := target]> default_headers) "" /\
  calls st = [CacheGet uri] /\
  cache st = c /\
  exists user repo ref path,
    gs = [user; repo; ref; path] /\
    route target = Some (GitHubTreeHandler, [user; repo; ref; path +:+ "/"]) /\
    rstrip_slash (path +:+ "/") = rstrip_slash path /\
    forall E' now' c' args',
      mapM (unquote E') [user; repo; ref; path +:+ "/"] = Some args' ->
      store_get now' c' target = None ->
      exists ev, calls (serve E' now' c' target) !! 1%nat = Some ev
                 /\ is_provider ev = true.
Proof.
  intros Hpath Hroute Hargs Hslash Hmiss. cbv zeta.
  destruct (route_groups_inv _ _ _ Hpath Hroute) as (G & HG & ->).
  apply tree_shape in HG.
  destruct HG as (u & r & f & p & HS & -> & Hune & Hu & Hrne & Hr & Hfne & Hf & Hp).
  assert (Hserve : resp (serve E now c uri)
                   = mkResponse 302 (<["Location" := uri +:+ "/"]> default_headers) "" /\
                   calls (serve E now c uri) = [CacheGet uri] /\
                   cache (serve E now c uri) = c).
  { unfold serve. rewrite Hroute, Hargs.
    pose proof (mapM_length _ _ _ Hargs) as Hlen.
    destruct args as [|? [|? [|? [|? [|? ?]]]]]; try discriminate Hlen.
    cbn [call_get]. open_run Hrun. rewrite Hmiss, Hslash in Hrun.
    cbn [negb] in Hrun. exec_split Hrun. repeat split; reflexivity. }
  destruct Hserve as (H1 & H2 & H3).
  split; [exact H1|]. split; [exact H2|]. split; [exact H3|].
  exists (string_of_list_ascii u), (string_of_list_ascii r),
         (string_of_list_ascii f), (string_of_list_ascii p).
  split; [reflexivity|].
  assert (Hrt : route (uri +:+ "/")
                = Some (GitHubTreeHandler,
                        [string_of_list_ascii u; string_of_list_ascii r;
                         string_of_list_ascii f; string_of_list_ascii p +:+ "/"])).
  { rewrite route_groups by (by apply path_of_uri_app).
    rewrite list_ascii_of_string_app, HS.
    repeat first [rewrite <- app_assoc | rewrite <- app_comm_cons].
    rewrite (tree_target u r f (p ++ list_ascii_of_string "/")); try done.
    - cbn [option_map fst snd map]. by rewrite string_of_list_ascii_app.
    - apply Forall_app. split; [done|]. by repeat constructor. }
  split; [exact Hrt|]. split; [apply rstrip_slash_snoc|].
  intros E' now' c' args'.
  apply tree_handler_asks_provider; [exact Hrt|apply endswith_app].
Qed.

(** *** Raw URLs *)

Lemma url_shape S G :
  find_groups handlers S = Some (URLHandler, G) ->
  exists secure rest, G = [secure; rest] /\ (secure = [] \/ secure = ["s"%char]).
Proof.
  intros H. split_specs H.
  match goal with Hm : rmatch _ _ _ _ = Some _ |- _ => rename Hm into H end.
  cbn [rmatch] in H.
  destruct (strip_prefix _ S) as [s|] eqn:Hp; [|discriminate H].
  assert (Hstep : forall s0 secure,
            match strip_prefix (list_ascii_of_string "/") s0 with
            | Some rest0 => rmatch tail rest0 ([] ++ [secure]) at_end
            | None => None
            end = Some G ->
            exists rest, G = [secure; rest]).
  { intros s0 secure H0.
    destruct (strip_prefix _ s0) as [rest0|]; [|discriminate H0].
    apply rmatch_tail_inv in H0. destruct H0 as [_ ->]. eauto. }
  destruct s as [|x s'].
  - apply Hstep in H. destruct H as [rest ->]. cbn [length Nat.sub take]. eauto.
  - destruct (in_class (Only "s") x) eqn:Hx.
    + cbn [in_class] in Hx. apply Ascii.eqb_eq in Hx. subst x.
      match type of H with
      | match ?m with Some _ => _ | None => _ end = _ =>
          destruct m as [G'|] eqn:Hm
      end.
      * injection H as ->. apply Hstep in Hm. destruct Hm as [rest ->].
        exists ["s"%char], rest. split; [|by right].
        cbn [length]. by rewrite Nat.sub_succ_l, Nat.sub_diag by lia.
      * apply Hstep in H. destruct H as [rest ->].
        exists [], rest. split; [|by left]. by rewrite Nat.sub_diag.
    + apply Hstep in H. destruct H as [rest ->].
      exists [], rest. split; [|by left]. by rewrite Nat.sub_diag.
Qed.

(** X15.  Every URL that a request fetches through the HTTP client is
    built by [URLHandler] from the groups of the route pattern: it is
    [http://<rest>] or [https://<rest>], where [rest] is the unquoted
    remainder of the request path.  No other scheme can be reached.  The
    unquoting is assumed to leave the empty string and the letter s as they
    are. *)
Theorem fetches_are_http_or_https
    (E : Env) (now : Q) (c : store) (uri url : string) :
  unquote E "" = Some "" ->
  unquote E "s" = Some "s" ->
  In (Fetch url) (calls (serve E now c uri)) ->
  exists gs secure rest,
    route uri = Some (URLHandler, gs) /\
    mapM (unquote E) gs = Some [secure; rest] /\
    (secure = "" \/ secure = "s") /\
    url = "http" +:+ secure +:+ "://" +:+ rest.
Proof.
  intros Hempty Hs Hin. unfold serve in Hin.
  destruct (route uri) as [[h gs]|] eqn:Hroute; [|destruct Hin].
  destruct (mapM (unquote E) gs) as [args|] eqn:Hargs; [|destruct Hin].
  destruct (call_get E uri now h args _) as [o st] eqn:Hrun.
  split_args h args; exec Hrun.
  all: cbn [calls send_error] in Hin; in_calls; simplify_eq.
  all: exists gs; do 2 eexists.
  all: split; [reflexivity|]; split; [exact Hargs|]; split; [|reflexivity].
  all: destruct (route_find_groups _ _ _ Hroute) as (G & HG & ->).
  all: apply url_shape in HG; destruct HG as (secure & rest & -> & [-> | ->]).
  all: cbn [map string_of_list_ascii] in Hargs; cbn in Hargs.
  all: rewrite ?Hempty, ?Hs in Hargs; cbn in Hargs.
  all: destruct (unquote E (string_of_list_ascii rest)); cbn in Hargs; simplify_eq.
  all: inversion Hargs; subst; tauto.
Qed.

(** *** The links of a gist listing *)




(** *** Raw GitHub URLs *)

Lemma rmatch_cat r1 r2 s g k :
  rmatch (r1 @@ r2) s g k = rmatch r1 s g (fun rest g' => rmatch r2 rest g' k).
Proof. reflexivity. Qed.

Lemma rmatch_lit_inv l s g k G :
  rmatch (Lit l) s g k = Some G ->
  exists rest, s = list_ascii_of_string l ++ rest /\ k rest g = Some G.
Proof.
  cbn [rmatch]. destruct (strip_prefix _ s) as [rest|] eqn:Hp; [|done].
  apply strip_prefix_Some in Hp. eauto.
Qed.

Lemma rmatch_opt_inv cl s g k G :
  rmatch (Opt cl) s g k = Some G ->
  exists pre rest, s = pre ++ rest /\ k rest g = Some G.
Proof.
  cbn [rmatch]. destruct s as [|x s]; [by exists [], []|].
  destruct (in_class cl x).
  - destruct (k s g) as [G'|] eqn:Hk.
    + intros [= <-]. by exists [x], s.
    + by exists [], (x :: s).
  - by exists [], (x :: s).
Qed.

Lemma raw_shape S G :
  find_groups handlers S = Some (RawGitHubURLHandler, G) ->
  exists pre u r p,
    S = pre ++ u ++ "/"%char :: r ++ "/"%char :: p /\
    G = [u; r; p] /\
    u <> [] /\ all_in NotSlash u /\ r <> [] /\ all_in NotSlash r /\ all_in Dot p.
Proof.
  intros H. split_specs H.
  match goal with Hm : rmatch _ _ _ _ = Some _ |- _ => rename Hm into Hraw end.
  rewrite rmatch_cat in Hraw. apply rmatch_lit_inv in Hraw.
  destruct Hraw as (s1 & -> & Hraw). cbn beta in Hraw.
  rewrite rmatch_cat in Hraw. apply rmatch_opt_inv in Hraw.
  destruct Hraw as (o1 & s2 & -> & Hraw). cbn beta in Hraw.
  rewrite rmatch_cat in Hraw. apply rmatch_lit_inv in Hraw.
  destruct Hraw as (s3 & -> & Hraw). cbn beta in Hraw.
  rewrite rmatch_cat in Hraw. apply rmatch_opt_inv in Hraw.
  destruct Hraw as (o2 & s4 & -> & Hraw). cbn beta in Hraw.
  rewrite rmatch_cat in Hraw. apply rmatch_lit_inv in Hraw.
  destruct Hraw as (s5 & -> & Hraw). cbn beta in Hraw.
  inv_groups Hraw.
  match goal with
  | |- exists pre u r p, _ ++ _ ++ _ ++ _ ++ _ ++ ?u0 ++ _ ++ ?r0 ++ _ ++ ?p0 = _ /\ _ =>
      exists (list_ascii_of_string "/url" ++ o1 ++ list_ascii_of_string "/raw" ++ o2
                ++ list_ascii_of_string "github.com/"), u0, r0, p0
  end.
  split; [by rewrite <- !app_assoc|]. by repeat split.
Qed.

End RouteAnalysis.

Lemma add_slash_redirect_witness :
  let uri := "/github/acme/demo" in
  let target := uri +:+ "/" in
  (status (resp (serve demo_env 100 ∅ uri)) = 302 /\
   headers (resp (serve demo_env 100 ∅ uri)) !! "Location" = Some target) /\
  path_of_uri target = target /\
  endswith target "/" = true /\
  ((exists user,
      ["acme"; "demo"] = [user] /\
      route target = Some (GitHubUserHandler, [user]) /\
      forall E' now' c', status (resp (serve E' now' c' target)) <> 302) \/
   (exists user repo,
      ["acme"; "demo"] = [user; repo] /\
      route target = Some (GitHubRepoHandler, [user; repo]) /\
      let target2 := "/github/" +:+ user +:+ "/" +:+ repo +:+ "/tree/master/" in
      status (resp (serve demo_env 100 ∅ target)) = 302 /\
      headers (resp (serve demo_env 100 ∅ target)) !! "Location" = Some target2 /\
      route target2 = Some (GitHubTreeHandler, [user; repo; "master"; ""]) /\
      forall E' now' c' args',
        mapM (unquote E') [user; repo; "master"; ""] = Some args' ->
        store_get now' c' target2 = None ->
        exists ev, calls (serve E' now' c' target2) !! 1%nat = Some ev
                   /\ is_provider ev = true) \/
   (exists user repo ref,
      ["acme"; "demo"] = [user; repo; ref] /\
      route target = Some (GitHubTreeHandler, [user; repo; ref; ""]) /\
      forall E' now' c' args',
        mapM (unquote E') [user; repo; ref; ""] = Some args' ->
        store_get now' c' target = None ->
        exists ev, calls (serve E' now' c' target) !! 1%nat = Some ev
                   /\ is_provider ev = true)).
Proof.
  apply (add_slash_redirect demo_env 100 ∅ "/github/acme/demo"
           ["acme"; "demo"] ["acme"; "demo"]).
  - vm_compute. reflexivity.
  - vm_compute. reflexivity.
  - vm_compute. reflexivity.
  - intros s _. reflexivity.
Defined.

(** C7 as stated fails on a repository root: [/github/acme/demo] is
    redirected to [/github/acme/demo/], and resolving that target redirects
    further, to [/github/acme/demo/tree/master/]. *)
Lemma repo_root_target_redirects_again :
  route "/github/acme/demo" = Some (AddSlashHandler, ["acme"; "demo"]) /\
  status (resp (serve demo_env 100 ∅ "/github/acme/demo")) = 302 /\
  headers (resp (serve demo_env 100 ∅ "/github/acme/demo")) !! "Location"
    = Some "/github/acme/demo/" /\
  status (resp (serve demo_env 100 ∅ "/github/acme/demo/")) = 302 /\
  headers (resp (serve demo_env 100 ∅ "/github/acme/demo/")) !! "Location"
    = Some "/github/acme/demo/tree/master/" /\
  ~ (status (resp (serve demo_env 100 ∅ "/github/acme/demo/")) <> 302).
Proof.
  vm_compute. repeat split; try reflexivity. intros H. by apply H.
Qed.

(** With a query string the slash is appended to the query, not to the
    path: the target has the path of the request and is redirected again
    in the same way. *)
Lemma add_slash_with_query_repeats :
  route "/github/acme?x=1" = Some (AddSlashHandler, ["acme"]) /\
  headers (resp (serve demo_env 100 ∅ "/github/acme?x=1")) !! "Location"
    = Some "/github/acme?x=1/" /\
  route "/github/acme?x=1/" = Some (AddSlashHandler, ["acme"]) /\
  headers (resp (serve demo_env 100 ∅ "/github/acme?x=1/")) !! "Location"
    = Some "/github/acme?x=1//".
Proof. vm_compute. repeat split; reflexivity. Qed.

(** * Further properties of the handlers and of the route table *)

(** ** Groups and arguments *)

Lemma route_supplies_accepted_arguments_witness :
  accepts GistHandler (length ["ab12cd34"; "a.ipynb"]) = true /\
  (length ["ab12cd34"; "a.ipynb"] = 1 \/ length ["ab12cd34"; "a.ipynb"] = 2)%nat.
Proof.
  apply (route_supplies_accepted_arguments demo_env 100 "/gist/ab12cd34/a.ipynb"
           GistHandler ["ab12cd34"; "a.ipynb"] ["ab12cd34"; "a.ipynb"]).
  - vm_compute. reflexivity.
  - vm_compute. reflexivity.
Defined.

(** ** Statuses *)

Lemma tree_entry_of_raises E user repo ref file e :
  tree_entry_of E user repo ref file = inl e -> status_of_exception e = 500.
Proof.
  unfold tree_entry_of.
  destruct (getitem file "name") eqn:H1; [intros [= <-]; eapply getitem_raises; eauto|].
  destruct (getitem file "path") eqn:H2; [intros [= <-]; eapply getitem_raises; eauto|].
  destruct (getitem file "type") eqn:H3; [intros [= <-]; eapply getitem_raises; eauto|].
  discriminate.
Qed.

Lemma json_endswith_raises v suffix e :
  json_endswith v suffix = inl e -> status_of_exception e = 500.
Proof. destruct v; cbn; try discriminate; intros [= <-]; reflexivity. Qed.

(** Give the status of every exception raised by an effect-free step. *)
Ltac raised_500 :=
  repeat match goal with
  | H : getitem _ _ = inl _ |- _ => apply getitem_raises in H; rewrite ?H in *
  | H : py_len _ = inl _ |- _ => apply py_len_raises in H; rewrite ?H in *
  | H : first_key _ = inl _ |- _ => apply first_key_raises in H; rewrite ?H in *
  | H : py_items _ = inl _ |- _ => apply py_items_raises in H; rewrite ?H in *
  | H : py_iter _ = inl _ |- _ => apply py_iter_raises in H; rewrite ?H in *
  | H : json_endswith _ _ = inl _ |- _ => apply json_endswith_raises in H; rewrite ?H in *
  | H : traverse repo_entry_of _ = inl _ |- _ =>
      apply (traverse_raises _ _ _ repo_entry_of_raises) in H; rewrite ?H in *
  | H : traverse (tree_entry_of ?E ?u ?r ?f) _ = inl _ |- _ =>
      apply (traverse_raises _ _ _ (tree_entry_of_raises E u r f)) in H; rewrite ?H in *
  end.

(** X4.  A request is answered 404 exactly when its path matches no route:
    no handler ever answers 404 itself.  Every request is answered with one
    of 200, 302, 400, 404 and 500. *)
Theorem status_404_iff_unrouted (E : Env) (now : Q) (c : store) (uri : string) :
  (status (resp (serve E now c uri)) = 404 <-> route uri = None) /\
  (status (resp (serve E now c uri)) = 200 \/ status (resp (serve E now c uri)) = 302 \/
   status (resp (serve E now c uri)) = 400 \/ status (resp (serve E now c uri)) = 404 \/
   status (resp (serve E now c uri)) = 500).
Proof.
  unfold serve.
  destruct (route uri) as [[h gs]|] eqn:Hroute.
  2: { cbn. split; [done|]. tauto. }
  destruct (mapM (unquote E) gs) as [args|] eqn:Hargs.
  2: { cbn. split; [split; discriminate|tauto]. }
  destruct (call_get E uri now h args _) as [o st] eqn:Hrun.
  split_args h args; exec Hrun.
  all: cbn [resp status send_error]; raised_500.
  all: cbn; split; [split; discriminate|tauto].
Qed.

(** ** The cache *)

(** X1.  A request either leaves the cache as it was and makes no cache
    write, or it is a request of a cached handler that missed the cache,
    rendered a template and is answered 200: then it makes exactly one cache
    write, under its own URI, of exactly the body it sent, with expiry
    [int(now + cache_expiry)].  Redirects and error responses are never
    cached. *)
Theorem cache_written_only_by_rendered_200
    (E : Env) (now : Q) (c : store) (uri : string) :
  let st := serve E now c uri in
  (cache st = c /\ filter (fun ev => is_cache_set ev = true) (calls st) = []) \/
  (status (resp st) = 200 /\
   is_cached_handler <$> (fst <$> route uri) = Some true /\
   store_get now c uri = None /\
   existsb is_render_template (calls st) = true /\
   cache st = store_set c uri (buffer (resp st)) (py_int (Qplus now (cache_expiry E))) /\
   filter (fun ev => is_cache_set ev = true) (calls st)
     = [CacheSet uri (buffer (resp st)) (py_int (Qplus now (cache_expiry E)))]).
Proof.
  intros st. subst st. unfold serve.
  destruct (route uri) as [[h gs]|] eqn:Hroute; [|left; done].
  destruct (mapM (unquote E) gs) as [args|] eqn:Hargs; [|left; done].
  destruct (call_get E uri now h args _) as [o st] eqn:Hrun.
  split_args h args; exec Hrun.
  all: cbn [cache calls resp status buffer send_error].
  all: first [left; split; reflexivity | right; repeat split; done].
Qed.

(** X2.  A request of a cached handler that finds a live entry under its
    URI is answered 200 with the stored bytes and the default headers; the
    cache lookup is its only call and the cache is left as it was.  Neither
    the provider nor the handler's own checks are consulted. *)
Theorem live_entry_is_served_as_is
    (E : Env) (now : Q) (c : store) (uri : string) (h : handler_class)
    (gs args : list string) (v : string) :
  route uri = Some (h, gs) ->
  is_cached_handler h = true ->
  mapM (unquote E) gs = Some args ->
  store_get now c uri = Some v ->
  let st := serve E now c uri in
  resp st = mkResponse 200 default_headers v /\
  calls st = [CacheGet uri] /\
  cache st = c.
Proof.
  intros Hroute Hcached Hargs Hhit st. subst st. unfold serve.
  rewrite Hroute, Hargs.
  pose proof (route_accepts _ _ _ Hroute) as Hacc.
  rewrite <- (mapM_length _ _ _ Hargs) in Hacc.
  destruct (call_get E uri now h args _) as [o st] eqn:Hrun.
  split_args h args; try discriminate.
  all: exec_open Hrun; rewrite Hhit in Hrun; exec_split Hrun.
  all: repeat split; reflexivity.
Qed.

Lemma live_entry_is_served_as_is_witness :
  let c := store_set ∅ "/gist/ab12cd34" "<html>stored</html>" 160 in
  let st := serve demo_env 100 c "/gist/ab12cd34" in
  resp st = mkResponse 200 default_headers "<html>stored</html>" /\
  calls st = [CacheGet "/gist/ab12cd34"] /\
  cache st = c.
Proof.
  apply (live_entry_is_served_as_is demo_env 100
           (store_set ∅ "/gist/ab12cd34" "<html>stored</html>" 160)
           "/gist/ab12cd34" GistHandler ["ab12cd34"] ["ab12cd34"]
           "<html>stored</html>").
  - vm_compute. reflexivity.
  - reflexivity.
  - vm_compute. reflexivity.
  - vm_compute. reflexivity.
Defined.

(** ** Provider failures *)

(** X3.  When the answer of the provider to a call of a request carries an
    error, or its body is not UTF-8, or (for a call to the GitHub API) its
    text is not JSON, the request is answered 500 with the error page.  That
    call is the last one made: nothing is rendered, and the cache is left
    as it was. *)
Theorem provider_failure_is_500_and_not_cached
    (E : Env) (now : Q) (c : store) (uri : string) (ev : event)
    (response : HTTPResponse) :
  In ev (calls (serve E now c uri)) ->
  provider_answer E ev = Some response ->
  (error response <> None \/
   decode_utf8 E (body response) = None \/
   (is_github_call ev = true /\
    exists t, decode_utf8 E (body response) = Some t /\ json_loads E t = None)) ->
  let st := serve E now c uri in
  status (resp st) = 500 /\
  buffer (resp st) = error_page E 500 /\
  cache st = c /\
  last (calls st) = Some ev /\
  forallb (fun ev' => negb (is_cache_set ev' || is_render_template ev')) (calls st) = true.
Proof.
  intros Hin Hans Hbad st. subst st. unfold serve in *.
  destruct (route uri) as [[h gs]|] eqn:Hroute; [|destruct Hin].
  destruct (mapM (unquote E) gs) as [args|] eqn:Hargs; [|destruct Hin].
  destruct (call_get E uri now h args _) as [o st] eqn:Hrun.
  split_args h args; exec Hrun.
  all: cbn [cache calls resp status buffer send_error app In] in *.
  all: try tauto.
  all: repeat match goal with
       | H : _ \/ _ |- _ => destruct H
       | H : False |- _ => destruct H
       | H : _ /\ _ |- _ => destruct H
       | H : exists _, _ |- _ => destruct H
       end; subst; cbn [provider_answer is_github_call] in *; simplify_eq.
  all: try congruence.
  all: raised_500.
  all: repeat split; reflexivity.
Qed.

Lemma provider_failure_is_500_and_not_cached_witness :
  let st := serve demo_env 100 ∅ "/gist/deadbeef" in
  status (resp st) = 500 /\
  buffer (resp st) = error_page demo_env 500 /\
  cache st = ∅ /\
  last (calls st) = Some (GetGist "deadbeef") /\
  forallb (fun ev' => negb (is_cache_set ev' || is_render_template ev')) (calls st) = true.
Proof.
  apply (provider_failure_is_500_and_not_cached demo_env 100 ∅ "/gist/deadbeef"
           (GetGist "deadbeef") (failed_response 404)).
  - vm_compute. right. left. reflexivity.
  - vm_compute. reflexivity.
  - left. discriminate.
Defined.

(** ** The order of the calls *)

(** X6.  The calls of a request follow the phases cache lookup, provider
    call, pool submission, template rendering, cache write, in this order
    and with at most one call in each phase: no provider is asked twice,
    nothing is rendered twice.  Every cache lookup is made under the
    request URI, and a request handled by a cached handler starts with
    it. *)
Theorem calls_follow_the_phases (E : Env) (now : Q) (c : store) (uri : string) :
  let st := serve E now c uri in
  increasing (phase <$> calls st) = true /\
  (forall k, In (CacheGet k) (calls st) -> k = uri) /\
  (forall h gs args, route uri = Some (h, gs) -> mapM (unquote E) gs = Some args ->
     is_cached_handler h = true -> head (calls st) = Some (CacheGet uri)).
Proof.
  intros st. subst st. unfold serve.
  destruct (route uri) as [[h gs]|] eqn:Hroute.
  2: { cbn. split; [reflexivity|]. split; [tauto|intros; simplify_eq]. }
  destruct (mapM (unquote E) gs) as [args|] eqn:Hargs.
  2: { cbn. split; [reflexivity|]. split; [tauto|intros; simplify_eq]. }
  destruct (call_get E uri now h args _) as [o st] eqn:Hrun.
  pose proof (route_accepts _ _ _ Hroute) as Hacc.
  rewrite <- (mapM_length _ _ _ Hargs) in Hacc.
  split_args h args; try discriminate Hacc; exec Hrun.
  all: cbn [calls send_error app fmap list_fmap phase increasing Nat.ltb Nat.leb andb In head].
  all: (split; [reflexivity|]); split.
  all: try (intros k Hk; intuition congruence).
  all: intros h' gs' args' [= <- <-]; try discriminate; reflexivity.
Qed.

(** X7.  The handlers that are not wrapped by [cached] never touch the
    cache, the provider or the pool.  The index and FAQ pages are rendered
    from their template on every request and sent with status 200; the
    redirecting handlers make no call at all and answer 302, or 400 when a
    matched group cannot be unquoted. *)
Theorem uncached_handlers_make_no_call
    (E : Env) (now : Q) (c : store) (uri : string) (h : handler_class) (gs : list string) :
  route uri = Some (h, gs) ->
  is_cached_handler h = false ->
  let st := serve E now c uri in
  cache st = c /\
  match h with
  | IndexHandler =>
      calls st = [RenderTemplate index_html] /\
      resp st = mkResponse 200 default_headers (utf8 E (jinja_render E index_html))
  | FAQHandler =>
      calls st = [RenderTemplate faq_md] /\
      resp st = mkResponse 200 default_headers (utf8 E (jinja_render E faq_md))
  | _ =>
      calls st = [] /\
      (status (resp st) = 302 \/ (status (resp st) = 400 /\ mapM (unquote E) gs = None))
  end.
Proof.
  intros Hroute Hun st. subst st. unfold serve. rewrite Hroute.
  pose proof (route_accepts _ _ _ Hroute) as Hacc.
  destruct (mapM (unquote E) gs) as [args|] eqn:Hargs.
  2: { destruct h; try discriminate Hun; cbn.
       1,2: destruct gs; [discriminate Hargs|discriminate Hacc].
       all: repeat split; right; done. }
  rewrite <- (mapM_length _ _ _ Hargs) in Hacc.
  destruct (call_get E uri now h args _) as [o st] eqn:Hrun.
  split_args h args; try discriminate Hacc; try discriminate Hun; exec Hrun.
  all: cbn; repeat split; tauto.
Qed.

Lemma uncached_handlers_make_no_call_witness :
  let st := serve demo_env 100 ∅ "/faq" in
  cache st = ∅ /\
  calls st = [RenderTemplate faq_md] /\
  resp st = mkResponse 200 default_headers (utf8 demo_env (jinja_render demo_env faq_md)).
Proof.
  apply (uncached_handlers_make_no_call demo_env 100 ∅ "/faq" FAQHandler []).
  - vm_compute. reflexivity.
  - reflexivity.
Defined.

(** ** Listings *)

Lemma traverse_Forall2 {A B} (f : A -> pyexn + B) l bs :
  Forall2 (fun a b => f a = inr b) l bs -> traverse f l = inr bs.
Proof.
  induction 1 as [|a b l bs Hab _ IH]; [done|].
  cbn [traverse]. by rewrite Hab, IH.
Qed.

Lemma traverse_fails {A B} (f : A -> pyexn + B) l a e :
  In a l -> f a = inl e -> exists e', traverse f l = inl e'.
Proof.
  intros Hin Ha. induction l as [|x l IH]; [destruct Hin|].
  cbn [traverse]. destruct Hin as [->|Hin].
  - rewrite Ha. eauto.
  - destruct (f x); [eauto|]. destruct (IH Hin) as [e' ->]. eauto.
Qed.

(** X8.  A user request that misses the cache, and to which the provider
    answers a list of repositories that all have a name, renders the
    template [userview.html] with one entry per repository, in the order of
    the answer, the name of the repository being both the link and the label
    of its entry.  The page is sent with status 200 and stored under the
    request URI. *)
Theorem user_listing_entries
    (E : Env) (now : Q) (c : store) (uri : string) (gs : list string)
    (user : string) (repos names : list json) :
  route uri = Some (GitHubUserHandler, gs) ->
  mapM (unquote E) gs = Some [user] ->
  store_get now c uri = None ->
  parsed_body E (github_get_repos E user) = Some (JList repos) ->
  Forall2 (fun repo name => getitem repo "name" = inr name) repos names ->
  let entries := (fun name => mk_repo_entry name name) <$> names in
  let page := utf8 E (jinja_render E (userview_html entries)) in
  let expire := py_int (Qplus now (cache_expiry E)) in
  let st := serve E now c uri in
  resp st = mkResponse 200 default_headers page /\
  calls st = [CacheGet uri; GetRepos user; RenderTemplate (userview_html entries);
              CacheSet uri page expire] /\
  cache st = store_set c uri page expire.
Proof.
  intros Hroute Hargs Hmiss Hparsed Hnames. cbv zeta.
  assert (Ht : traverse repo_entry_of repos
               = inr ((fun name => mk_repo_entry name name) <$> names)).
  { apply traverse_Forall2.
    apply Forall2_fmap_r. eapply Forall2_impl; [exact Hnames|].
    intros repo name Hn. unfold repo_entry_of. by rewrite Hn. }
  use_parsed. unfold serve. rewrite Hroute, Hargs. cbn [call_get].
  open_run Hrun. rewrite Hmiss in Hrun. exec_split Hrun.
  all: cbn [py_iter] in *; simplify_eq; try congruence.
  all: match goal with H : traverse _ _ = inr _ |- _ => rewrite Ht in H; injection H as H; rewrite <- H end.
  all: repeat split; reflexivity.
Qed.

Lemma user_listing_entries_witness :
  let entries := (fun name => mk_repo_entry name name) <$> [JStr "demo"; JStr "tools"] in
  let page := utf8 repos_env (jinja_render repos_env (userview_html entries)) in
  let expire := py_int (Qplus 100 (cache_expiry repos_env)) in
  let st := serve repos_env 100 ∅ "/github/acme/" in
  resp st = mkResponse 200 default_headers page /\
  calls st = [CacheGet "/github/acme/"; GetRepos "acme";
              RenderTemplate (userview_html entries);
              CacheSet "/github/acme/" page expire] /\
  cache st = store_set ∅ "/github/acme/" page expire.
Proof.
  apply (user_listing_entries repos_env 100 ∅ "/github/acme/" ["acme"] "acme"
           [JDict (list_to_map [("name", JStr "demo")]);
            JDict (list_to_map [("name", JStr "tools")])]
           [JStr "demo"; JStr "tools"]).
  - vm_compute. reflexivity.
  - vm_compute. reflexivity.
  - vm_compute. reflexivity.
  - vm_compute. reflexivity.
  - repeat constructor.
Defined.

Lemma repo_entry_of_missing item e :
  getitem item "name" = inl e -> repo_entry_of item = inl e.
Proof. unfold repo_entry_of. by intros ->. Qed.

Lemma tree_entry_of_missing E user repo ref item key e :
  key = "name" \/ key = "path" \/ key = "type" ->
  getitem item key = inl e ->
  exists e', tree_entry_of E user repo ref item = inl e'.
Proof.
  intros Hkey Hmissing. unfold tree_entry_of.
  destruct (getitem item "name") eqn:H1; [eauto|].
  destruct (getitem item "path") eqn:H2; [eauto|].
  destruct (getitem item "type") eqn:H3; [eauto|].
  destruct Hkey as [-> | [-> | ->] ]; congruence.
Qed.

Ltac same_answers :=
  repeat match goal with
  | H1 : ?t = _, H2 : ?t = _ |- _ => rewrite H1 in H2
  end.

(** X9.  When an element of the list that the provider answered lacks a
    key that the listing reads ([name] for the repositories of a user;
    [name], [path] or [type] for the contents of a tree), or is not an
    object, the whole request is answered 500 with the error page: no
    partial listing is rendered, nothing is stored, and the provider call is
    the last call made. *)
Theorem incomplete_listing_is_500
    (E : Env) (now : Q) (c : store) (uri : string) (h : handler_class)
    (gs args : list string) (ev : event) (response : HTTPResponse)
    (items : list json) (item : json) (key : string) (e : pyexn) :
  route uri = Some (h, gs) ->
  mapM (unquote E) gs = Some args ->
  (h = GitHubUserHandler /\ key = "name" \/
   h = GitHubTreeHandler /\ (key = "name" \/ key = "path" \/ key = "type")) ->
  In ev (calls (serve E now c uri)) ->
  provider_answer E ev = Some response ->
  parsed_body E response = Some (JList items) ->
  In item items ->
  getitem item key = inl e ->
  let st := serve E now c uri in
  status (resp st) = 500 /\
  buffer (resp st) = error_page E 500 /\
  cache st = c /\
  last (calls st) = Some ev /\
  forallb (fun ev' => negb (is_cache_set ev' || is_render_template ev')) (calls st) = true.
Proof.
  intros Hroute Hargs Hkey Hin Hans Hparsed Hitem Hmissing st. subst st.
  unfold serve in *. rewrite Hroute, Hargs in *.
  destruct (call_get E uri now h args _) as [o st] eqn:Hrun.
  destruct Hkey as [ [-> ->] | [-> Hkey] ].
  - apply repo_entry_of_missing in Hmissing.
    destruct (traverse_fails _ _ _ _ Hitem Hmissing) as [e' He'].
    destruct args as [|? [|? ?]]; cbn [call_get] in *; exec Hrun.
    all: cbn [calls send_error resp status buffer cache] in *; in_calls.
    all: simplify_eq; cbn [provider_answer py_iter] in *; simplify_eq.
    all: use_parsed; same_answers; simplify_eq.
    all: cbn [py_iter] in *; simplify_eq; try congruence.
    all: raised_500; repeat split; reflexivity.
  - destruct args as [|? [|? [|? [|? [|? ?]]]]]; cbn [call_get] in *; exec Hrun.
    all: cbn [calls send_error resp status buffer cache] in *; in_calls.
    all: simplify_eq; cbn [provider_answer] in *; simplify_eq.
    all: use_parsed; same_answers; simplify_eq.
    all: try match goal with
         | H : traverse (tree_entry_of ?E ?u ?r ?f) _ = inr _ |- _ =>
             destruct (tree_entry_of_missing E u r f _ _ _ Hkey Hmissing) as [e1 He1];
             destruct (traverse_fails _ _ _ _ Hitem He1) as [e2 He2]; congruence
         end.
    all: raised_500; repeat split; reflexivity.
Qed.

Lemma incomplete_listing_is_500_witness :
  let st := serve repos_env 100 ∅ "/github/ghost/" in
  status (resp st) = 500 /\
  buffer (resp st) = error_page repos_env 500 /\
  cache st = ∅ /\
  last (calls st) = Some (GetRepos "ghost") /\
  forallb (fun ev' => negb (is_cache_set ev' || is_render_template ev')) (calls st) = true.
Proof.
  apply (incomplete_listing_is_500 repos_env 100 ∅ "/github/ghost/" GitHubUserHandler
           ["ghost"] ["ghost"] (GetRepos "ghost") (ok_response "repos-broken")
           [JDict (list_to_map [("name", JStr "demo")]);
            JDict (list_to_map [("full_name", JStr "ghost/tools")])]
           (JDict (list_to_map [("full_name", JStr "ghost/tools")])) "name"
           (KeyError "name")).
  - vm_compute. reflexivity.
  - vm_compute. reflexivity.
  - left. split; reflexivity.
  - vm_compute. right. left. reflexivity.
  - vm_compute. reflexivity.
  - vm_compute. reflexivity.
  - right. left. reflexivity.
  - vm_compute. reflexivity.
Defined.

Lemma append_assoc (a b c : string) : (a +:+ b) +:+ c = a +:+ (b +:+ c).
Proof.
  induction a as [|x a IH]; [done|].
  change ((String x a +:+ b) +:+ c) with (String x ((a +:+ b) +:+ c)).
  change (String x a +:+ (b +:+ c)) with (String x (a +:+ (b +:+ c))).
  by rewrite IH.
Qed.

Lemma split_slash_cons s : exists h t, split_slash s = h :: t.
Proof.
  induction s as [|c s (h & t & IH)]; cbn [split_slash]; [eauto|].
  destruct (Ascii.eqb c slash); [eauto|]. rewrite IH. eauto.
Qed.

Lemma length_split_slash s : length (split_slash s) = S (count_slash s).
Proof.
  induction s as [|c s IH]; [done|]. cbn [split_slash count_slash].
  destruct (Ascii.eqb c slash) eqn:Hc.
  - cbn [length]. rewrite IH. lia.
  - destruct (split_slash_cons s) as (h & t & Hs). rewrite Hs in *.
    cbn [length] in *. lia.
Qed.

Lemma join_split_slash s : join_slash (split_slash s) = s.
Proof.
  induction s as [|c s IH]; [done|]. cbn [split_slash].
  destruct (split_slash_cons s) as (h & t & Hs).
  destruct (Ascii.eqb_spec c slash) as [->|Hc]; rewrite Hs in *.
  - change (join_slash ("" :: h :: t)) with ("" +:+ "/" +:+ join_slash (h :: t)).
    rewrite IH. reflexivity.
  - destruct t as [|h' t].
    + cbn [join_slash] in *. by rewrite IH.
    + change (join_slash (String c h :: h' :: t))
        with (String c (h +:+ "/" +:+ join_slash (h' :: t))).
      change (join_slash (h :: h' :: t)) with (h +:+ "/" +:+ join_slash (h' :: t)) in IH.
      by rewrite IH.
Qed.

Lemma crumbs_names b names : crumb_name <$> crumbs b names = names.
Proof.
  revert b. induction names as [|n names IH]; intros b; [done|].
  cbn [crumbs]. cbn. f_equal. apply IH.
Qed.

Lemma crumbs_length b names : length (crumbs b names) = length names.
Proof. by rewrite <- (crumbs_names b names) at 2; rewrite length_fmap. Qed.

Lemma crumbs_url names : forall b k cr,
  crumbs b names !! k = Some cr ->
  crumb_url cr = b +:+ "/" +:+ join_slash (take (S k) names).
Proof.
  induction names as [|n names IH]; intros b k cr; [done|].
  cbn [crumbs]. destruct k as [|k].
  - cbn. intros [= <-]. cbn [crumb_url]. by rewrite take_0.
  - cbn [lookup list_lookup]. intros Hk.
    change ((mk_crumb (b +:+ "/" +:+ n) n :: crumbs (b +:+ "/" +:+ n) names) !! S k)
      with (crumbs (b +:+ "/" +:+ n) names !! k) in Hk.
    rewrite (IH _ _ _ Hk).
    destruct names as [|n' names]; [done|].
    cbn [take join_slash].
    rewrite !append_assoc. reflexivity.
Qed.


(** X11.  Whenever the tree handler renders the template [treelist.html],
    its breadcrumbs start with the repository, linked to
    [/github/<user>/<repo>/tree/<ref>]; they go on with one crumb per
    segment of the path (stripped of its trailing slashes), in order and
    named after the segment, so that a path with n slashes gives n + 2
    crumbs.  The link of each crumb is the base link followed by the
    segments up to its own, joined by slashes; the link of the last crumb is
    the base link followed by the whole path.  An empty path gives the
    repository crumb alone. *)
Theorem tree_breadcrumbs
    (E : Env) (now : Q) (c : store) (uri : string) (gs : list string)
    (user repo ref path : string) (entries : list tree_entry) (path_list : list crumb) :
  route uri = Some (GitHubTreeHandler, gs) ->
  mapM (unquote E) gs = Some [user; repo; ref; path] ->
  In (RenderTemplate (treelist_html entries path_list)) (calls (serve E now c uri)) ->
  let base_url := "/github/" +:+ user +:+ "/" +:+ repo +:+ "/tree/" +:+ ref in
  let p := rstrip_slash path in
  head path_list = Some (mk_crumb base_url repo) /\
  crumb_name <$> drop 1 path_list = (if truthy p then split_slash p else []) /\
  length path_list = (if truthy p then 2 + count_slash p else 1)%nat /\
  (forall k cr, path_list !! S k = Some cr ->
     crumb_url cr = base_url +:+ "/" +:+ join_slash (take (S k) (split_slash p))) /\
  (truthy p = true ->
     crumb_url <$> last path_list = Some (base_url +:+ "/" +:+ p)).
Proof.
  intros Hroute Hargs Hin. cbv zeta.
  unfold serve in Hin. rewrite Hroute, Hargs in Hin. cbn [call_get] in Hin.
  destruct (GitHubTreeHandler_get E uri now user repo ref path _) as [o st] eqn:Hrun.
  exec Hrun.
  all: cbn [calls send_error] in Hin; in_calls; simplify_eq.
  all: try match goal with H : truthy _ = _ |- _ => rewrite H end.
  all: set (p := rstrip_slash path) in *.
  all: set (base_url := "/github/" +:+ user +:+ "/" +:+ repo +:+ "/tree/" +:+ ref).
  all: split; [reflexivity|]; cbn [drop].
  all: try (repeat split; [done|discriminate]).
  all: split; [apply crumbs_names|].
  all: split; [cbn [length]; by rewrite crumbs_length, length_split_slash|].
  all: split; [intros k cr Hk; by apply crumbs_url|].
  all: intros _.
  all: destruct (split_slash_cons p) as (h & t & Hs).
  all: pose proof (crumbs_length base_url (split_slash p)) as Hlen.
  all: pose proof (join_split_slash p) as Hjoin.
  all: rewrite Hs in *.
  all: destruct (crumbs base_url (h :: t)) as [|cr0 crs] eqn:Hcr; [discriminate Hlen|].
  all: change (last (mk_crumb base_url repo :: cr0 :: crs)) with (last (cr0 :: crs)).
  all: rewrite last_lookup.
  all: destruct ((cr0 :: crs) !! pred (length (cr0 :: crs))) as [cr|] eqn:Hlast.
  all: try (apply lookup_ge_None in Hlast; cbn [length] in *; lia).
  all: rewrite <- Hcr in Hlast; apply crumbs_url in Hlast.
  all: cbn [fmap option_fmap option_map]; rewrite Hlast; f_equal; f_equal; f_equal.
  all: rewrite crumbs_length, <- Hjoin; f_equal; apply take_ge; cbn [length]; lia.
Qed.

(** X10.  A tree request with a trailing slash that misses the cache, and
    to which the provider answers a list of objects that all have a [name],
    a [path] and a [type], renders the template [treelist.html] with one
    entry per object, in the order of the answer: the entry carries the
    name, links to [/github/<user>/<repo>/tree/<ref>/<path>] with the folder
    icon when the type is [dir], and to
    [/github/<user>/<repo>/blob/<ref>/<path>] with the file icon otherwise.
    The provider is asked for the path without its trailing slashes; the
    page is sent with status 200 and stored under the request URI. *)
Theorem tree_listing_entries
    (E : Env) (now : Q) (c : store) (uri : string) (gs : list string)
    (user repo ref path : string) (files : list json) (entries : list tree_entry) :
  route uri = Some (GitHubTreeHandler, gs) ->
  mapM (unquote E) gs = Some [user; repo; ref; path] ->
  endswith uri "/" = true ->
  store_get now c uri = None ->
  parsed_body E (github_get_contents E user repo (rstrip_slash path) ref)
    = Some (JList files) ->
  Forall2 (fun file e =>
             exists file_path type,
               getitem file "name" = inr (te_name e) /\
               getitem file "path" = inr file_path /\
               getitem file "type" = inr type /\
               te_url e = "/github/" +:+ user +:+ "/" +:+ repo +:+ "/"
                            +:+ (if is_dir type then "tree" else "blob") +:+ "/"
                            +:+ ref +:+ "/" +:+ py_str E file_path /\
               te_class e = if is_dir type then "icon-folder-open" else "icon-file")
          files entries ->
  exists path_list,
    let page := utf8 E (jinja_render E (treelist_html entries path_list)) in
    let expire := py_int (Qplus now (cache_expiry E)) in
    let st := serve E now c uri in
    resp st = mkResponse 200 default_headers page /\
    calls st = [CacheGet uri; GetContents user repo (rstrip_slash path) ref;
                RenderTemplate (treelist_html entries path_list);
                CacheSet uri page expire] /\
    cache st = store_set c uri page expire.
Proof.
  intros Hroute Hargs Hslash Hmiss Hparsed Hfiles.
  assert (Ht : traverse (tree_entry_of E user repo ref) files = inr entries).
  { apply traverse_Forall2. eapply Forall2_impl; [exact Hfiles|].
    intros file [name url class] (file_path & type & Hn & Hp & Hty & Hurl & Hclass).
    cbn [te_name te_url te_class] in *. unfold tree_entry_of.
    rewrite Hn, Hp, Hty. by subst. }
  assert (Hends : negb (endswith uri "/") = false) by (by rewrite Hslash).
  use_parsed. unfold serve. rewrite Hroute, Hargs. cbn [call_get].
  open_run Hrun. rewrite Hmiss in Hrun. exec_split Hrun.
  all: simplify_eq; try congruence.
  all: eexists; cbv zeta; repeat split; reflexivity.
Qed.

Lemma tree_listing_entries_witness :
  exists path_list,
    let entries :=
      [mk_tree_entry (JStr "src") "/github/acme/demo/tree/main/src" "icon-folder-open";
       mk_tree_entry (JStr "a.ipynb") "/github/acme/demo/blob/main/a.ipynb" "icon-file"] in
    let uri := "/github/acme/demo/tree/main/src/" in
    let page := utf8 demo_env (jinja_render demo_env (treelist_html entries path_list)) in
    let expire := py_int (Qplus 100 (cache_expiry demo_env)) in
    let st := serve demo_env 100 ∅ uri in
    resp st = mkResponse 200 default_headers page /\
    calls st = [CacheGet uri; GetContents "acme" "demo" (rstrip_slash "src/") "main";
                RenderTemplate (treelist_html entries path_list);
                CacheSet uri page expire] /\
    cache st = store_set ∅ uri page expire.
Proof.
  apply (tree_listing_entries demo_env 100 ∅ "/github/acme/demo/tree/main/src/"
           ["acme"; "demo"; "main"; "src/"] "acme" "demo" "main" "src/"
           [JDict (list_to_map
              [("name", JStr "src"); ("path", JStr "src"); ("type", JStr "dir")]);
            JDict (list_to_map
              [("name", JStr "a.ipynb"); ("path", JStr "a.ipynb"); ("type", JStr "file")])]
           [mk_tree_entry (JStr "src") "/github/acme/demo/tree/main/src" "icon-folder-open";
            mk_tree_entry (JStr "a.ipynb") "/github/acme/demo/blob/main/a.ipynb" "icon-file"]).
  - vm_compute. reflexivity.
  - vm_compute. reflexivity.
  - vm_compute. reflexivity.
  - vm_compute. reflexivity.
  - vm_compute. reflexivity.
  - repeat constructor.
    + exists (JStr "src"), (JStr "dir"). vm_compute. repeat split; reflexivity.
    + exists (JStr "a.ipynb"), (JStr "file"). vm_compute. repeat split; reflexivity.
Defined.

Lemma tree_breadcrumbs_witness :
  let entries :=
    [mk_tree_entry (JStr "src") "/github/acme/demo/tree/main/src" "icon-folder-open";
     mk_tree_entry (JStr "a.ipynb") "/github/acme/demo/blob/main/a.ipynb" "icon-file"] in
  let path_list :=
    [mk_crumb "/github/acme/demo/tree/main" "demo";
     mk_crumb "/github/acme/demo/tree/main/src" "src"] in
  let base_url := "/github/" +:+ "acme" +:+ "/" +:+ "demo" +:+ "/tree/" +:+ "main" in
  let p := rstrip_slash "src/" in
  head path_list = Some (mk_crumb base_url "demo") /\
  crumb_name <$> drop 1 path_list = (if truthy p then split_slash p else []) /\
  length path_list = (if truthy p then 2 + count_slash p else 1)%nat /\
  (forall k cr, path_list !! S k = Some cr ->
     crumb_url cr = base_url +:+ "/" +:+ join_slash (take (S k) (split_slash p))) /\
  (truthy p = true ->
     crumb_url <$> last path_list = Some (base_url +:+ "/" +:+ p)).
Proof.
  apply (tree_breadcrumbs demo_env 100 ∅ "/github/acme/demo/tree/main/src/"
           ["acme"; "demo"; "main"; "src/"] "acme" "demo" "main" "src/"
           [mk_tree_entry (JStr "src") "/github/acme/demo/tree/main/src" "icon-folder-open";
            mk_tree_entry (JStr "a.ipynb") "/github/acme/demo/blob/main/a.ipynb" "icon-file"]
           [mk_crumb "/github/acme/demo/tree/main" "demo";
            mk_crumb "/github/acme/demo/tree/main/src" "src"]).
  - vm_compute. reflexivity.
  - vm_compute. reflexivity.
  - vm_compute. right. right. left. reflexivity.
Defined.

(** ** Witnesses of the routing properties *)

Lemma gist_redirect_round_trip_witness :
  exists gist_id file,
    (["ab12cd34"; "a.ipynb"] = [gist_id] /\ file = "" \/
     ["ab12cd34"; "a.ipynb"] = [gist_id; file]) /\
    let target := if truthy file then "/gist/" +:+ gist_id +:+ "/" +:+ file
                  else "/gist/" +:+ gist_id in
    let st := serve demo_env 100 ∅ "/ab12cd34/a.ipynb?x=1" in
    resp st = mkResponse 302 (<["Location" := target]> default_headers) "" /\
    calls st = [] /\
    cache st = ∅ /\
    route target = Some (GistHandler, if truthy file then [gist_id; file] else [gist_id]).
Proof.
  apply (gist_redirect_round_trip demo_env 100 ∅ "/ab12cd34/a.ipynb?x=1"
           ["ab12cd34"; "a.ipynb"]).
  - vm_compute. reflexivity.
  - vm_compute. reflexivity.
Defined.

Lemma remove_slash_redirect_witness :
  exists user repo ref path,
    ["acme"; "demo"; "main"; "src"] = [user; repo; ref; path] /\
    "/github/acme/demo/blob/main/src/"
      = "/github/" +:+ user +:+ "/" +:+ repo +:+ "/blob/" +:+ ref +:+ "/"
          +:+ path +:+ "/" /\
    let target := rstrip_slash "/github/acme/demo/blob/main/src/" in
    let st := serve demo_env 100 ∅ "/github/acme/demo/blob/main/src/" in
    resp st = mkResponse 302 (<["Location" := target]> default_headers) "" /\
    calls st = [] /\
    cache st = ∅ /\
    if truthy (rstrip_slash path)
    then target = "/github/" +:+ user +:+ "/" +:+ repo +:+ "/blob/" +:+ ref +:+ "/"
                    +:+ rstrip_slash path /\
         route target = Some (GitHubBlobHandler, [user; repo; ref; rstrip_slash path])
    else target = "/github/" +:+ user +:+ "/" +:+ repo +:+ "/blob/" +:+ ref /\
         route target = None.
Proof.
  apply (remove_slash_redirect demo_env 100 ∅ "/github/acme/demo/blob/main/src/"
           ["acme"; "demo"; "main"; "src"] ["acme"; "demo"; "main"; "src"]).
  - vm_compute. reflexivity.
  - vm_compute. reflexivity.
  - vm_compute. reflexivity.
Defined.

(** The second case of X13 on a concrete path: the target of the redirect
    of [/github/acme/demo/blob/main//] matches no route and is answered
    404. *)
Lemma remove_slash_double_slash_is_lost :
  route "/github/acme/demo/blob/main//"
    = Some (RemoveSlashHandler, ["acme"; "demo"; "main"; ""]) /\
  headers (resp (serve demo_env 100 ∅ "/github/acme/demo/blob/main//")) !! "Location"
    = Some "/github/acme/demo/blob/main" /\
  route "/github/acme/demo/blob/main" = None /\
  status (resp (serve demo_env 100 ∅ "/github/acme/demo/blob/main")) = 404.
Proof. vm_compute. repeat split; reflexivity. Qed.

Lemma tree_slash_redirect_witness :
  let uri := "/github/acme/demo/tree/main/src" in
  let target := uri +:+ "/" in
  let st := serve demo_env 100 ∅ uri in
  resp st = mkResponse 302 (<["Location" := target]> default_headers) "" /\
  calls st = [CacheGet uri] /\
  cache st = ∅ /\
  exists user repo ref path,
    ["acme"; "demo"; "main"; "src"] = [user; repo; ref; path] /\
    route target = Some (GitHubTreeHandler, [user; repo; ref; path +:+ "/"]) /\
    rstrip_slash (path +:+ "/") = rstrip_slash path /\
    forall E' now' c' args',
      mapM (unquote E') [user; repo; ref; path +:+ "/"] = Some args' ->
      store_get now' c' target = None ->
      exists ev, calls (serve E' now' c' target) !! 1%nat = Some ev
                 /\ is_provider ev = true.
Proof.
  apply (tree_slash_redirect demo_env 100 ∅ "/github/acme/demo/tree/main/src"
           ["acme"; "demo"; "main"; "src"] ["acme"; "demo"; "main"; "src"]).
  - vm_compute. reflexivity.
  - vm_compute. reflexivity.
  - vm_compute. reflexivity.
  - vm_compute. reflexivity.
  - vm_compute. reflexivity.
Defined.

Lemma fetches_are_http_or_https_witness :
  exists gs secure rest,
    route "/url/example.com/nb.ipynb" = Some (URLHandler, gs) /\
    mapM (unquote demo_env) gs = Some [secure; rest] /\
    (secure = "" \/ secure = "s") /\
    "http://example.com/nb.ipynb" = "http" +:+ secure +:+ "://" +:+ rest.
Proof.
  apply (fetches_are_http_or_https demo_env 100 ∅ "/url/example.com/nb.ipynb"
           "http://example.com/nb.ipynb").
  - reflexivity.
  - reflexivity.
  - vm_compute. right. left. reflexivity.
Defined.

(** ** Redirects and error statuses *)

Lemma path_prefix (l : list ascii) : forall uri rest,
  list_ascii_of_string (path_of_uri uri) = (l ++ rest)%list ->
  exists y, uri = string_of_list_ascii l +:+ y.
Proof.
  induction l as [|x l IH]; intros uri rest H; [by exists uri|].
  destruct uri as [|c uri]; [discriminate H|].
  cbn [path_of_uri] in H. destruct (Ascii.eqb c "?"); [discriminate H|].
  cbn [list_ascii_of_string app] in H. injection H as -> H.
  destruct (IH _ _ H) as [y ->]. by exists y.
Qed.

Lemma github_route_prefix uri h gs :
  route uri = Some (h, gs) ->
  h = AddSlashHandler \/ h = RemoveSlashHandler \/ h = GitHubTreeHandler ->
  exists x y, uri = "/github/" +:+ String x y /\ Ascii.eqb x slash = false.
Proof.
  intros Hroute Hh.
  destruct (route_find_groups _ _ _ Hroute) as (G & HG & _).
  assert (Hshape : exists u rest,
            list_ascii_of_string (path_of_uri uri)
            = (list_ascii_of_string "/github/" ++ u ++ rest)%list
            /\ u <> [] /\ all_in Word u).
  { destruct Hh as [-> | [-> | ->] ].
    - apply add_slash_shapes in HG. cbv zeta in HG.
      destruct HG as [(u & -> & _ & Hne & Hu)
                     |[(u & r & -> & _ & Hne & Hu & _)
                      |(u & r & f & -> & _ & Hne & Hu & _)]].
      + exists u, []. by rewrite app_nil_r.
      + by exists u, ("/"%char :: r).
      + by exists u, ("/"%char :: r ++ list_ascii_of_string "/tree/" ++ f)%list.
    - apply remove_slash_shape in HG.
      destruct HG as (u & r & f & p & -> & _ & Hne & Hu & _). eauto.
    - apply tree_shape in HG.
      destruct HG as (u & r & f & p & -> & _ & Hne & Hu & _). eauto. }
  destruct Hshape as (u & rest & HS & Hne & Hu).
  destruct u as [|x u]; [done|].
  replace (list_ascii_of_string "/github/" ++ (x :: u) ++ rest)%list
    with ((list_ascii_of_string "/github/" ++ [x]) ++ (u ++ rest))%list in HS
    by (by rewrite <- app_assoc).
  apply path_prefix in HS. destruct HS as [y ->].
  exists x, y. split; [reflexivity|].
  apply word_not_slash in Hu. inversion Hu as [|? ? Hx _]; subst.
  cbn [in_class] in Hx. by apply negb_true_iff in Hx.
Qed.

Lemma rstrip_slash_github x y :
  Ascii.eqb x slash = false ->
  exists rest, rstrip_slash ("/github/" +:+ String x y) = "/github/" +:+ rest.
Proof.
  intros Hx. exists (rstrip_slash (String x y)).
  apply rstrip_slash_app. cbn [rstrip_slash]. by rewrite Hx.
Qed.

(** X16.  Every redirect that the application answers (status 302) carries
    a [Location] header whose target is a path of the application itself:
    it starts with [/gist/] or with [/github/], whatever the request and
    whatever the provider answered.  A redirect has an empty body and leaves
    the cache as it was. *)
Theorem redirects_stay_on_site (E : Env) (now : Q) (c : store) (uri : string) :
  status (resp (serve E now c uri)) = 302 ->
  exists target,
    headers (resp (serve E now c uri)) !! "Location" = Some target /\
    (exists rest, target = "/gist/" +:+ rest \/ target = "/github/" +:+ rest) /\
    buffer (resp (serve E now c uri)) = "" /\
    cache (serve E now c uri) = c.
Proof.
  unfold serve.
  destruct (route uri) as [[h gs]|] eqn:Hroute; [|discriminate].
  destruct (mapM (unquote E) gs) as [args|] eqn:Hargs; [|discriminate].
  destruct (call_get E uri now h args _) as [o st] eqn:Hrun.
  assert (Hgh : h = AddSlashHandler \/ h = RemoveSlashHandler \/ h = GitHubTreeHandler ->
                exists x y, uri = "/github/" +:+ String x y /\ Ascii.eqb x slash = false)
    by (by apply github_route_prefix with gs).
  clear Hroute Hargs.
  split_args h args; exec Hrun.
  all: cbn [resp status headers buffer cache send_error]; raised_500.
  all: try (cbn; discriminate).
  all: intros _; eexists; (split; [by rewrite lookup_insert_eq|]).
  all: (split; [|split; reflexivity]).
  all: try (eexists; left; reflexivity).
  all: try (eexists; right; reflexivity).
  all: destruct Hgh as (x & y & -> & Hx); [tauto|].
  all: try (eexists; right; reflexivity).
  all: destruct (rstrip_slash_github x y Hx) as [rest ->]; eexists; right; reflexivity.
Qed.

Lemma redirects_stay_on_site_witness :
  exists target,
    headers (resp (serve demo_env 100 ∅ "/ab12cd34")) !! "Location" = Some target /\
    (exists rest, target = "/gist/" +:+ rest \/ target = "/github/" +:+ rest) /\
    buffer (resp (serve demo_env 100 ∅ "/ab12cd34")) = "" /\
    cache (serve demo_env 100 ∅ "/ab12cd34") = ∅.
Proof.
  apply (redirects_stay_on_site demo_env 100 ∅ "/ab12cd34").
  vm_compute. reflexivity.
Defined.

Lemma parsed_body_intro E response t v :
  error response = None -> decode_utf8 E (body response) = Some t ->
  json_loads E t = Some v -> parsed_body E response = Some v.
Proof. unfold parsed_body. by intros -> -> ->. Qed.

(** X17.  A request is answered 400 only for one of three reasons: a
    matched group of the path cannot be unquoted (no call is made); the
    notebook submitted to the pool is rejected as not being a notebook; the
    contents object that the provider answered to a blob request cannot be
    base64-decoded, or its decoded bytes are not UTF-8.  In every case the
    error page is sent and the cache is left as it was.  In particular no
    failure of the provider is reported as 400. *)
Theorem status_400_causes (E : Env) (now : Q) (c : store) (uri : string) :
  status (resp (serve E now c uri)) = 400 ->
  buffer (resp (serve E now c uri)) = error_page E 400 /\
  cache (serve E now c uri) = c /\
  ((exists h gs, route uri = Some (h, gs) /\ mapM (unquote E) gs = None /\
                 calls (serve E now c uri) = []) \/
   (exists nbjson url,
      last (calls (serve E now c uri)) = Some (PoolSubmit nbjson url) /\
      render_notebook E nbjson url = NbFormatError) \/
   (exists gs user repo ref path contents,
      route uri = Some (GitHubBlobHandler, gs) /\
      mapM (unquote E) gs = Some [user; repo; ref; path] /\
      last (calls (serve E now c uri)) = Some (GetContents user repo path ref) /\
      parsed_body E (github_get_contents E user repo path ref) = Some contents /\
      is_list contents = false /\
      (decode_content E contents = None \/
       exists filedata, decode_content E contents = Some filedata /\
                        decode_utf8 E filedata = None))).
Proof.
  unfold serve.
  destruct (route uri) as [[h gs]|] eqn:Hroute; [|discriminate].
  destruct (mapM (unquote E) gs) as [args|] eqn:Hargs.
  2: { intros _. cbn. repeat split. left. eauto. }
  destruct (call_get E uri now h args _) as [o st] eqn:Hrun.
  split_args h args; exec Hrun.
  all: cbn [resp status buffer cache calls send_error]; raised_500.
  all: try (cbn; discriminate).
  all: intros _; (split; [reflexivity|]); (split; [reflexivity|]).
  all: try (right; left; do 2 eexists; split; [reflexivity|eassumption]).
  all: right; right; exists gs; do 5 eexists.
  all: (split; [reflexivity|]); (split; [eassumption|]); (split; [reflexivity|]).
  all: (split; [eapply parsed_body_intro; eassumption|]); (split; [assumption|]).
  all: first [left; assumption | right; eexists; split; eassumption].
Qed.

Lemma status_400_causes_witness :
  let uri := "/url/example.com/broken.ipynb" in
  buffer (resp (serve demo_env 100 ∅ uri)) = error_page demo_env 400 /\
  cache (serve demo_env 100 ∅ uri) = ∅ /\
  ((exists h gs, route uri = Some (h, gs) /\ mapM (unquote demo_env) gs = None /\
                 calls (serve demo_env 100 ∅ uri) = []) \/
   (exists nbjson url,
      last (calls (serve demo_env 100 ∅ uri)) = Some (PoolSubmit nbjson url) /\
      render_notebook demo_env nbjson url = NbFormatError) \/
   (exists gs user repo ref path contents,
      route uri = Some (GitHubBlobHandler, gs) /\
      mapM (unquote demo_env) gs = Some [user; repo; ref; path] /\
      last (calls (serve demo_env 100 ∅ uri)) = Some (GetContents user repo path ref) /\
      parsed_body demo_env (github_get_contents demo_env user repo path ref)
        = Some contents /\
      is_list contents = false /\
      (decode_content demo_env contents = None \/
       exists filedata, decode_content demo_env contents = Some filedata /\
                        decode_utf8 demo_env filedata = None))).
Proof.
  apply (status_400_causes demo_env 100 ∅ "/url/example.com/broken.ipynb").
  vm_compute. reflexivity.
Defined.

(** ** Where the links of the listings lead *)



Lemma endswith_false_no_trailing p q :
  endswith p "/" = false -> list_ascii_of_string p <> (q ++ ["/"%char])%list.
Proof.
  intros He Hp. apply (f_equal string_of_list_ascii) in Hp.
  rewrite string_of_list_ascii_of_string, string_of_list_ascii_app in Hp.
  cbn [string_of_list_ascii] in Hp. rewrite Hp, endswith_app in He. discriminate He.
Qed.








(** ** Raw GitHub URLs and blob notebooks *)

Lemma forallb_all_in cl s :
  forallb (in_class cl) (list_ascii_of_string s) = true ->
  all_in cl (list_ascii_of_string s).
Proof. intros H. apply List.Forall_forall. by apply forallb_forall. Qed.

(** X20.  A request routed to [RawGitHubURLHandler] (a path
    [/url[s]/raw[.]github.com/<user>/<repo>/<path>]) is answered, without any
    call, with a redirect to [/github/<user>/<repo>/blob/<path>].  For a user
    name of word characters: when [path] is [<ref>/<file>] with a non-empty
    ref and a file that does not end in a slash, the target is routed to
    [GitHubBlobHandler] with the ref and the file; when [path] is a single
    non-empty segment, the target matches no route.  The unquoting of the
    matched groups is assumed to leave them as they are. *)
Theorem raw_github_redirect
    (E : Env) (now : Q) (c : store) (uri : string) (gs : list string) :
  route uri = Some (RawGitHubURLHandler, gs) ->
  mapM (unquote E) gs = Some gs ->
  exists user repo path,
    gs = [user; repo; path] /\
    let target := "/github/" +:+ user +:+ "/" +:+ repo +:+ "/blob/" +:+ path in
    let st := serve E now c uri in
    resp st = mkResponse 302 (<["Location" := target]> default_headers) "" /\
    calls st = [] /\
    cache st = c /\
    (forallb (in_class Word) (list_ascii_of_string user) = true ->
     (forall ref file,
        path = ref +:+ "/" +:+ file ->
        ref <> "" ->
        forallb (in_class NotSlash) (list_ascii_of_string ref) = true ->
        endswith file "/" = false ->
        route target = Some (GitHubBlobHandler, [user; repo; ref; file])) /\
     (path <> "" ->
      forallb (in_class NotSlash) (list_ascii_of_string path) = true ->
      route target = None)).
Proof.
  intros Hroute Hargs.
  destruct (route_find_groups _ _ _ Hroute) as (G & HG & ->).
  pose proof (path_of_uri_no_query uri) as Hnq.
  apply raw_shape in HG.
  destruct HG as (pre & u & r & p & HS & -> & Hune & Hu & Hrne & Hr & Hp).
  rewrite HS in Hnq.
  repeat first [rewrite Forall_cons in Hnq | rewrite Forall_app in Hnq].
  destruct Hnq as (_ & Hnu & _ & Hnr & _ & Hnp).
  exists (string_of_list_ascii u), (string_of_list_ascii r), (string_of_list_ascii p).
  split; [reflexivity|]. cbv zeta.
  set (target := "/github/" +:+ string_of_list_ascii u +:+ "/" +:+ string_of_list_ascii r
                   +:+ "/blob/" +:+ string_of_list_ascii p).
  destruct (redirect_response E now c uri _ _ _ target Hroute Hargs ltac:(reflexivity))
    as (Hr1 & Hr2 & Hr3).
  split; [exact Hr1|]. split; [exact Hr2|]. split; [exact Hr3|].
  intros Hword. apply forallb_all_in in Hword.
  rewrite list_ascii_of_string_of_list_ascii in Hword.
  assert (Htp : path_of_uri target = target).
  { unfold target. repeat apply path_of_uri_app; try reflexivity; by apply no_query_path. }
  split.
  - intros ref file Hpath Href Hrefs Hends.
    apply forallb_all_in in Hrefs.
    assert (Hpl : p = (list_ascii_of_string ref ++ "/"%char :: list_ascii_of_string file)%list).
    { rewrite <- (list_ascii_of_string_of_list_ascii p), Hpath.
      by rewrite !list_ascii_of_string_app. }
    rewrite Hpl in Hp. apply Forall_app in Hp. destruct Hp as [_ Hp].
    apply Forall_cons in Hp. destruct Hp as [_ Hfile].
    rewrite route_groups by exact Htp. unfold target.
    rewrite !list_ascii_of_string_app, !list_ascii_of_string_of_list_ascii, Hpl.
    match goal with
    | |- context [find_groups handlers ?X] =>
        change X with (list_ascii_of_string "/github/" ++ u ++ "/"%char :: r
                         ++ list_ascii_of_string "/blob/" ++ list_ascii_of_string ref
                         ++ "/"%char :: list_ascii_of_string file)%list
    end.
    rewrite blob_target; try done.
    + cbn [option_map fst snd map]. by rewrite !string_of_list_ascii_of_string.
    + by destruct ref.
    + intros q. by apply endswith_false_no_trailing.
  - intros Hpne Hps. apply forallb_all_in in Hps.
    rewrite list_ascii_of_string_of_list_ascii in Hps.
    rewrite route_groups by exact Htp. unfold target.
    rewrite !list_ascii_of_string_app, !list_ascii_of_string_of_list_ascii.
    match goal with
    | |- context [find_groups handlers ?X] =>
        change X with (list_ascii_of_string "/github/" ++ u ++ "/"%char :: r
                         ++ list_ascii_of_string "/blob/" ++ p)%list
    end.
    rewrite blob_root_unrouted; try done.
    by destruct p.
Qed.

Lemma raw_github_redirect_witness :
  exists user repo path,
    ["acme"; "demo"; "main/a.ipynb"] = [user; repo; path] /\
    let target := "/github/" +:+ user +:+ "/" +:+ repo +:+ "/blob/" +:+ path in
    let st := serve demo_env 100 ∅ "/url/raw.github.com/acme/demo/main/a.ipynb" in
    resp st = mkResponse 302 (<["Location" := target]> default_headers) "" /\
    calls st = [] /\
    cache st = ∅ /\
    (forallb (in_class Word) (list_ascii_of_string user) = true ->
     (forall ref file,
        path = ref +:+ "/" +:+ file ->
        ref <> "" ->
        forallb (in_class NotSlash) (list_ascii_of_string ref) = true ->
        endswith file "/" = false ->
        route target = Some (GitHubBlobHandler, [user; repo; ref; file])) /\
     (path <> "" ->
      forallb (in_class NotSlash) (list_ascii_of_string path) = true ->
      route target = None)).
Proof.
  apply (raw_github_redirect demo_env 100 ∅ "/url/raw.github.com/acme/demo/main/a.ipynb"
           ["acme"; "demo"; "main/a.ipynb"]).
  - vm_compute. reflexivity.
  - vm_compute. reflexivity.
Defined.

(** X21.  Whatever a blob request submits to the render pool is the
    notebook that the provider answered: the contents object is not a
    listing, its [name] ends in [.ipynb], and the notebook text is what
    UTF-8 decoding gives for the bytes that base64 decoding gives for the
    ASCII encoding of its [content].  The URL handed to the renderer is
    [https://raw.github.com/<user>/<repo>/<ref>/<path>], built from the
    arguments of the request.  The submission directly follows the cache
    lookup and the single provider call. *)
Theorem blob_submission_is_the_decoded_notebook
    (E : Env) (now : Q) (c : store) (uri : string) (gs : list string)
    (user repo ref path : string) (nbjson url : json) :
  route uri = Some (GitHubBlobHandler, gs) ->
  mapM (unquote E) gs = Some [user; repo; ref; path] ->
  In (PoolSubmit nbjson url) (calls (serve E now c uri)) ->
  exists contents name content ascii_bytes filedata text,
    parsed_body E (github_get_contents E user repo path ref) = Some contents /\
    is_list contents = false /\
    getitem contents "name" = inr (JStr name) /\
    endswith name ".ipynb" = true /\
    getitem contents "content" = inr (JStr content) /\
    encode_ascii E content = Some ascii_bytes /\
    b64decode E ascii_bytes = Some filedata /\
    decode_utf8 E filedata = Some text /\
    nbjson = JStr text /\
    url = JStr ("https://raw.github.com/" +:+ user +:+ "/" +:+ repo +:+ "/"
                  +:+ ref +:+ "/" +:+ path) /\
    take 3 (calls (serve E now c uri))
      = [CacheGet uri; GetContents user repo path ref; PoolSubmit nbjson url].
Proof.
  intros Hroute Hargs Hin. unfold serve in *. rewrite Hroute, Hargs in *.
  cbn [call_get] in *.
  destruct (GitHubBlobHandler_get E uri now user repo ref path _) as [o st] eqn:Hrun.
  exec Hrun.
  all: cbn [calls send_error] in *; in_calls; simplify_eq.
  all: match goal with
       | H : json_endswith ?v _ = inr true |- _ =>
           destruct v; cbn [json_endswith] in H; simplify_eq
       end.
  all: match goal with
       | H : decode_content _ _ = Some _ |- _ =>
           apply decode_content_Some in H;
           destruct H as (content & ascii_bytes & Hcontent & Hascii & Hb64)
       end.
  all: do 2 eexists; exists content, ascii_bytes; do 2 eexists.
  all: (split; [eapply parsed_body_intro; eassumption|]).
  all: (split; [assumption|]); (split; [eassumption|]); (split; [assumption|]).
  all: (split; [exact Hcontent|]); (split; [exact Hascii|]); (split; [exact Hb64|]).
  all: (split; [eassumption|]).
  all: repeat split; reflexivity.
Qed.

Lemma blob_submission_is_the_decoded_notebook_witness :
  let uri := "/github/acme/demo/blob/main/a.ipynb" in
  let nbjson := JStr "NOTEBOOK" in
  let url := JStr "https://raw.github.com/acme/demo/main/a.ipynb" in
  exists contents name content ascii_bytes filedata text,
    parsed_body base64_env (github_get_contents base64_env "acme" "demo" "a.ipynb" "main")
      = Some contents /\
    is_list contents = false /\
    getitem contents "name" = inr (JStr name) /\
    endswith name ".ipynb" = true /\
    getitem contents "content" = inr (JStr content) /\
    encode_ascii base64_env content = Some ascii_bytes /\
    b64decode base64_env ascii_bytes = Some filedata /\
    decode_utf8 base64_env filedata = Some text /\
    nbjson = JStr text /\
    url = JStr ("https://raw.github.com/" +:+ "acme" +:+ "/" +:+ "demo" +:+ "/"
                  +:+ "main" +:+ "/" +:+ "a.ipynb") /\
    take 3 (calls (serve base64_env 100 ∅ uri))
      = [CacheGet uri; GetContents "acme" "demo" "a.ipynb" "main"; PoolSubmit nbjson url].
Proof.
  apply (blob_submission_is_the_decoded_notebook base64_env 100 ∅
           "/github/acme/demo/blob/main/a.ipynb" ["acme"; "demo"; "main"; "a.ipynb"]
           "acme" "demo" "main" "a.ipynb").
  - vm_compute. reflexivity.
  - vm_compute. reflexivity.
  - vm_compute. right. right. left. reflexivity.
Defined.
